(** * CodeBanter extension host: a shallow embedding

    The program is the VS Code extension entry file of the repository (the
    single TypeScript module with [activate], the WebSocket message router,
    the file operation handlers, the preview renderer and the parser of
    model responses).  Strings are [string] (one [ascii] per code unit), the
    editor's file system and the snapshot map are [gmap]s keyed by path, and
    every handler is a computation in a small state/exception/trace monad. *)

From Stdlib Require Import Ascii String List Bool Arith Lia.
From stdpp Require Import base option list gmap strings.

Import ListNotations.
Local Open Scope string_scope.
Local Open Scope list_scope.

Set Default Proof Using "Type".

(** ** JavaScript strings *)

Module Js.

(** The double quote, written by code so that no literal needs it. *)
Definition dq_char : ascii := "034"%char.
Definition dq : string := String dq_char EmptyString.
Definition nl_char : ascii := "010"%char.
Definition nl : string := String nl_char EmptyString.

Definition chars (s : string) : list ascii := list_ascii_of_string s.
Definition str (l : list ascii) : string := string_of_list_ascii l.

(** [s.replace(/c/g, r)] for a one-character pattern [c] and a replacement
    text [r] without [$]: every occurrence of [c] becomes [r]. *)
Fixpoint replace_all_char (c : ascii) (r : string) (s : string) : string :=
  match s with
  | EmptyString => EmptyString
  | String a s' =>
      if Ascii.eqb a c then r +:+ replace_all_char c r s'
      else String a (replace_all_char c r s')
  end.

(** [s.replace(pat, r)] for a pattern text [pat] and a replacement text [r]
    without [$]: the first occurrence of [pat], if there is one, becomes
    [r]. *)
Fixpoint drop_prefix (pat s : string) : option string :=
  match pat, s with
  | EmptyString, _ => Some s
  | String a pat', String b s' => if Ascii.eqb a b then drop_prefix pat' s' else None
  | String _ _, EmptyString => None
  end.

Fixpoint replace_first (pat r s : string) : string :=
  match drop_prefix pat s with
  | Some rest => r +:+ rest
  | None =>
      match s with
      | EmptyString => EmptyString
      | String a s' => String a (replace_first pat r s')
      end
  end.

(** White space of [String.prototype.trim] and of the regular expression
    class [\s], on code units below 256: TAB, LF, VT, FF, CR, SP, NBSP. *)
Definition is_space (c : ascii) : bool :=
  let n := nat_of_ascii c in
  (((9 <=? n) && (n <=? 13)) || (n =? 32) || (n =? 160))%nat.

(** [\w]: ASCII letters, digits and the underscore. *)
Definition is_word (c : ascii) : bool :=
  let n := nat_of_ascii c in
  (((48 <=? n) && (n <=? 57)) || ((65 <=? n) && (n <=? 90))
   || ((97 <=? n) && (n <=? 122)) || (n =? 95))%nat.

(** The dot of a regular expression without the [s] flag: any code unit but
    a line terminator (LF and CR below 256). *)
Definition is_dot (c : ascii) : bool :=
  let n := nat_of_ascii c in negb ((n =? 10) || (n =? 13))%nat.

Fixpoint trim_start (l : list ascii) : list ascii :=
  match l with
  | c :: l' => if is_space c then trim_start l' else l
  | [] => []
  end.

Definition trim_list (l : list ascii) : list ascii :=
  rev (trim_start (rev (trim_start l))).

Definition trim (s : string) : string := str (trim_list (chars s)).

(** [String.prototype.toLowerCase] on a code unit below 256: the letters A
    to Z, and the capital letters of the upper half (192 to 222, the
    multiplication sign 215 apart), move up by 32. *)
Definition lower_char (c : ascii) : ascii :=
  let n := nat_of_ascii c in
  if (((65 <=? n) && (n <=? 90))
      || ((192 <=? n) && (n <=? 222) && negb (n =? 215)))%nat
  then ascii_of_nat (n + 32) else c.

Definition toLowerCase (s : string) : string :=
  str (map lower_char (chars s)).

(** [s.substring(n)]. *)
Definition substring_from (n : nat) (s : string) : string :=
  str (drop n (chars s)).

(** Truthiness of a string value: only the empty string is falsy. *)
Definition truthy (s : string) : bool :=
  match s with EmptyString => false | _ => true end.

(** [parts.join(sep)]. *)
Fixpoint join_with (sep : string) (parts : list string) : string :=
  match parts with
  | [] => EmptyString
  | [p] => p
  | p :: parts' => p +:+ sep +:+ join_with sep parts'
  end.

(** The text of a template literal, given line by line. *)
Definition lines (ls : list string) : string := join_with nl ls.

End Js.

(** ** Escaped texts *)

Definition html_entities : list string :=
  ["&amp;"; "&lt;"; "&gt;"; "&quot;"; "&#039;"].

Definition html_special (c : ascii) : bool :=
  Ascii.eqb c "&"%char || Ascii.eqb c "<"%char || Ascii.eqb c ">"%char
  || Ascii.eqb c Js.dq_char || Ascii.eqb c "'"%char.

(** Texts made of plain characters and of the five entities only. *)
Inductive Escaped : string -> Prop :=
| Escaped_nil : Escaped EmptyString
| Escaped_plain c s :
    html_special c = false -> Escaped s -> Escaped (String c s)
| Escaped_entity e s :
    In e html_entities -> Escaped s -> Escaped (e +:+ s).

(** [c] occurs in [s]. *)
Fixpoint occurs (c : ascii) (s : string) : bool :=
  match s with
  | EmptyString => false
  | String a s' => Ascii.eqb a c || occurs c s'
  end.

(** ** Node's [path] module (POSIX flavour) and [vscode.Uri.file] *)

Module Path.

Definition slash : ascii := "/"%char.
Definition dot : ascii := "."%char.
Definition is_slash (c : ascii) : bool := Ascii.eqb c slash.

(** [path.sep]. *)
Definition sep : string := "/".

(** [path.isAbsolute(p)]. *)
Definition isAbsolute (p : string) : bool :=
  match p with
  | String c _ => is_slash c
  | EmptyString => false
  end.

(** [s.split(c)] for a one-character separator. *)
Fixpoint split_on (c : ascii) (l : list ascii) : list (list ascii) :=
  match l with
  | [] => [[]]
  | a :: l' =>
      if Ascii.eqb a c then [] :: split_on c l'
      else match split_on c l' with
           | seg :: rest => (a :: seg) :: rest
           | [] => [[a]]
           end
  end.

Definition split (s : string) (c : ascii) : list string :=
  map Js.str (split_on c (Js.chars s)).

Definition seg_eqb (a b : list ascii) : bool :=
  String.eqb (Js.str a) (Js.str b).

(** [normalizeString]: the segments of the path from left to right, kept on
    a stack (last segment first).  Empty segments and [.] are dropped; [..]
    removes the segment before it, or is kept when there is none to remove
    and the path is relative. *)
Fixpoint normalize_segments (allowAboveRoot : bool)
    (stack : list (list ascii)) (segs : list (list ascii))
  : list (list ascii) :=
  match segs with
  | [] => stack
  | seg :: segs' =>
      if seg_eqb seg [] || seg_eqb seg [dot] then
        normalize_segments allowAboveRoot stack segs'
      else if seg_eqb seg [dot; dot] then
        match stack with
        | top :: below =>
            if seg_eqb top [dot; dot] then
              normalize_segments allowAboveRoot
                (if allowAboveRoot then seg :: stack else stack) segs'
            else normalize_segments allowAboveRoot below segs'
        | [] =>
            normalize_segments allowAboveRoot
              (if allowAboveRoot then [seg] else []) segs'
        end
      else normalize_segments allowAboveRoot (seg :: stack) segs'
  end.

Fixpoint join_segments (segs : list (list ascii)) : list ascii :=
  match segs with
  | [] => []
  | [seg] => seg
  | seg :: segs' => seg ++ slash :: join_segments segs'
  end.

Definition ends_with_slash (l : list ascii) : bool :=
  match rev l with
  | c :: _ => is_slash c
  | [] => false
  end.

(** [path.normalize(p)]. *)
Definition normalize (p : string) : string :=
  match p with
  | EmptyString => "."
  | _ =>
      let l := Js.chars p in
      let absolute := isAbsolute p in
      let trailing := ends_with_slash l in
      let body :=
        join_segments
          (rev (normalize_segments (negb absolute) [] (split_on slash l))) in
      match body with
      | [] => if absolute then "/" else if trailing then "./" else "."
      | _ =>
          let body' := if trailing then body ++ [slash] else body in
          Js.str (if absolute then slash :: body' else body')
      end
  end.

(** [path.join(...args)]: the non-empty arguments, joined by a slash, then
    normalised. *)
Fixpoint joined (args : list string) : option string :=
  match args with
  | [] => None
  | arg :: args' =>
      match arg, joined args' with
      | EmptyString, rest => rest
      | _, None => Some arg
      | _, Some rest => Some (arg +:+ "/" +:+ rest)
      end
  end.

Definition join (args : list string) : string :=
  match joined args with
  | None => "."
  | Some p => normalize p
  end.

Fixpoint drop_while (p : ascii -> bool) (l : list ascii) : list ascii :=
  match l with
  | c :: l' => if p c then drop_while p l' else l
  | [] => []
  end.

Fixpoint take_while (p : ascii -> bool) (l : list ascii) : list ascii :=
  match l with
  | c :: l' => if p c then c :: take_while p l' else []
  | [] => []
  end.

(** The last segment of a path, trailing slashes left out. *)
Definition last_segment (l : list ascii) : list ascii :=
  rev (take_while (fun c => negb (is_slash c)) (drop_while is_slash (rev l))).

(** [path.basename(p)]. *)
Definition basename (p : string) : string := Js.str (last_segment (Js.chars p)).

(** [path.dirname(p)]: the scan runs from the last character down to the
    second one. *)
Definition dirname (p : string) : string :=
  match p with
  | EmptyString => "."
  | String c0 rest =>
      let r := drop_while (fun c => negb (is_slash c))
                 (drop_while is_slash (rev (Js.chars rest))) in
      match r with
      | [] => if is_slash c0 then "/" else "."
      | _ :: before =>
          if is_slash c0 && Nat.eqb (length r) 1 then "//"
          else String c0 (Js.str (rev before))
      end
  end.

(** [path.extname(p)]: from the last dot of the last segment, unless that
    dot opens the segment or the segment is [..]. *)
Definition extname (p : string) : string :=
  let seg := last_segment (Js.chars p) in
  let after := take_while (fun c => negb (Ascii.eqb c dot)) (rev seg) in
  let upto := drop_while (fun c => negb (Ascii.eqb c dot)) (rev seg) in
  match upto with
  | [] => EmptyString
  | _ :: [] => EmptyString
  | _ :: _ :: _ =>
      if seg_eqb seg [dot; dot] then EmptyString else Js.str (dot :: rev after)
  end.

(** The key of the disk for [vscode.Uri.file(p)]: the path of the URI, which
    is [p] with a slash before it when it does not start with one.  (For a
    path without an authority prefix and without a drive letter this is the
    URI's [fsPath].) *)
Definition Uri_file (p : string) : string :=
  if isAbsolute p then p else "/" +:+ p.

End Path.

Global Arguments Path.Uri_file : simpl never.
Global Arguments Path.join : simpl never.
Global Arguments Path.basename : simpl never.
Global Arguments Path.dirname : simpl never.
Global Arguments Path.extname : simpl never.
Global Arguments Path.split : simpl never.
Global Arguments Js.trim : simpl never.
Global Arguments Js.toLowerCase : simpl never.
Global Arguments Js.substring_from : simpl never.

(** ** Regular expressions: a backtracking matcher

    The three patterns of the parser use literals, character classes,
    greedy and lazy repetition of a class, an optional non-capturing
    alternation, two capture groups, one lookahead and the end anchor.  The
    matcher follows the ECMAScript order of attempts: alternatives left to
    right, a greedy repetition longest first, a lazy one shortest first. *)

Module Regex.

Inductive regex : Type :=
| RChar (p : ascii -> bool)
| RLit (s : string)
| RSeq (a b : regex)
| RAlt (a b : regex)
| ROpt (a : regex)
| RStar (greedy : bool) (p : ascii -> bool)
| RPlus (greedy : bool) (p : ascii -> bool)
| RGroup (i : nat) (a : regex)
| RAhead (a : regex)
| REnd.

(** Captures: group number and captured text, latest first. *)
Definition caps : Type := list (nat * list ascii).

Definition outcome : Type := option (list ascii * caps).
Definition cont : Type := list ascii -> caps -> outcome.

Fixpoint strip_prefix (lit : list ascii) (s : list ascii) : option (list ascii) :=
  match lit, s with
  | [], _ => Some s
  | a :: lit', b :: s' => if Ascii.eqb a b then strip_prefix lit' s' else None
  | _ :: _, [] => None
  end.

(** Greedy repetition of a class: take one more character first, fall back
    to the continuation. *)
Fixpoint star_greedy (p : ascii -> bool) (k : list ascii -> outcome)
    (s : list ascii) : outcome :=
  match s with
  | a :: s' =>
      if p a then
        match star_greedy p k s' with
        | Some r => Some r
        | None => k s
        end
      else k s
  | [] => k []
  end.

(** Lazy repetition of a class: the continuation first, one more character
    when it fails. *)
Fixpoint star_lazy (p : ascii -> bool) (k : list ascii -> outcome)
    (s : list ascii) : outcome :=
  match k s with
  | Some r => Some r
  | None =>
      match s with
      | a :: s' => if p a then star_lazy p k s' else None
      | [] => None
      end
  end.

Definition star (greedy : bool) := if greedy then star_greedy else star_lazy.

Definition consumed (s s' : list ascii) : list ascii :=
  take (length s - length s') s.

Fixpoint rmatch (r : regex) (s : list ascii) (c : caps) (k : cont) : outcome :=
  match r with
  | RChar p =>
      match s with
      | a :: s' => if p a then k s' c else None
      | [] => None
      end
  | RLit lit =>
      match strip_prefix (Js.chars lit) s with
      | Some s' => k s' c
      | None => None
      end
  | RSeq a b => rmatch a s c (fun s' c' => rmatch b s' c' k)
  | RAlt a b =>
      match rmatch a s c k with
      | Some res => Some res
      | None => rmatch b s c k
      end
  | ROpt a =>
      match rmatch a s c k with
      | Some res => Some res
      | None => k s c
      end
  | RStar greedy p => star greedy p (fun s' => k s' c) s
  | RPlus greedy p =>
      match s with
      | a :: s' => if p a then star greedy p (fun s'' => k s'' c) s' else None
      | [] => None
      end
  | RGroup i a => rmatch a s c (fun s' c' => k s' ((i, consumed s s') :: c'))
  | RAhead a =>
      match rmatch a s c (fun s' c' => Some (s', c')) with
      | Some (_, c') => k s c'
      | None => None
      end
  | REnd =>
      match s with
      | [] => k [] c
      | _ :: _ => None
      end
  end.

(** A match at the head of [s]: the input after the match, and the groups. *)
Definition match_here (r : regex) (s : list ascii) : outcome :=
  rmatch r s [] (fun s' c' => Some (s', c')).

(** The leftmost match in [s]: the input from the start of the match, the
    input after it, and the groups. *)
Fixpoint search (r : regex) (s : list ascii)
  : option (list ascii * list ascii * caps) :=
  match match_here r s with
  | Some (rest, c) => Some (s, rest, c)
  | None =>
      match s with
      | _ :: s' => search r s'
      | [] => None
      end
  end.

(** [match[i]] of a group that took part in the match. *)
Fixpoint group (i : nat) (c : caps) : string :=
  match c with
  | (j, text) :: c' => if Nat.eqb i j then Js.str text else group i c'
  | [] => EmptyString
  end.

(** Whether every match of [r] takes at least one character. *)
Fixpoint takes_input (r : regex) : bool :=
  match r with
  | RChar _ => true
  | RLit lit => Js.truthy lit
  | RSeq a b => takes_input a || takes_input b
  | RAlt a b => takes_input a && takes_input b
  | ROpt _ => false
  | RStar _ _ => false
  | RPlus _ _ => true
  | RGroup _ a => takes_input a
  | RAhead _ => false
  | REnd => false
  end.

Definition any_char (_ : ascii) : bool := true.
Definition is_char (c : ascii) (a : ascii) : bool := Ascii.eqb a c.

Fixpoint alternatives (first : regex) (others : list regex) : regex :=
  match others with
  | [] => first
  | r :: others' => RAlt first (alternatives r others')
  end.

Fixpoint sequence (rs : list regex) : regex :=
  match rs with
  | [] => RLit EmptyString
  | [r] => r
  | r :: rs' => RSeq r (sequence rs')
  end.

End Regex.

(** The three patterns of [filePatterns], in the order of the array.  The
    class [[\s\n]] is [\s], the class [[\s\S]] is every character. *)
Definition fence : string := "```".

(** The name of a file with an extension: [(.*?\.[\w]+)]. *)
Definition file_name_group : Regex.regex :=
  Regex.RGroup 1
    (Regex.sequence
       [Regex.RStar false Js.is_dot;
        Regex.RChar (Regex.is_char "."%char);
        Regex.RPlus true Js.is_word]).

(** The body up to what follows: [([\s\S]*?)]. *)
Definition body_group : Regex.regex :=
  Regex.RGroup 2 (Regex.RStar false Regex.any_char).

Definition pattern_comment : Regex.regex :=
  Regex.sequence
    [Regex.RLit fence;
     Regex.ROpt
       (Regex.alternatives (Regex.RLit "js")
          [Regex.RLit "javascript"; Regex.RLit "html"; Regex.RLit "css";
           Regex.RLit "tsx"; Regex.RLit "jsx"]);
     Regex.RStar true Js.is_space;
     Regex.RAlt (Regex.RLit "//") (Regex.RLit "<!--");
     Regex.RStar true Js.is_space;
     file_name_group;
     Regex.RPlus true Js.is_space;
     body_group;
     Regex.RLit fence].

Definition pattern_fence : Regex.regex :=
  Regex.sequence
    [Regex.RLit fence;
     file_name_group;
     Regex.RPlus true Js.is_space;
     body_group;
     Regex.RLit fence].

Definition pattern_heading : Regex.regex :=
  Regex.sequence
    [Regex.RPlus true (Regex.is_char "#"%char);
     Regex.RPlus true Js.is_space;
     file_name_group;
     Regex.RPlus true Js.is_space;
     body_group;
     Regex.RAhead
       (Regex.RAlt (Regex.RPlus true (Regex.is_char "#"%char)) Regex.REnd)].

Definition filePatterns : list Regex.regex :=
  [pattern_comment; pattern_fence; pattern_heading].

(** ** The editor, the disk, the connections and the module's variables *)

(** What [vscode.workspace.fs] and Node's [fs] see at a path.  The model
    keeps one entry per [fsPath] and does not relate an entry to its
    ancestors. *)
Inductive Entry : Type :=
| File (content : string)
| Directory.

(** An open document of [vscode.workspace.textDocuments].  [doc_readonly]
    stands for a document on which [applyEdit] reports failure. *)
Record TextDocument : Type := mkTextDocument {
  doc_fsPath : string;
  doc_text : string;
  doc_languageId : string;
  doc_isUntitled : bool;
  doc_readonly : bool
}.

Record WorkspaceFolder : Type := mkWorkspaceFolder {
  folder_name : string;
  folder_fsPath : string
}.

(** A WebSocket connection. *)
Definition Client : Type := nat.

(** The value of the module variable [devServer] when it is not [null]. *)
Record DevServerHandle : Type := mkDevServerHandle { handle_port : nat }.

Record ExtensionContext : Type := mkExtensionContext { extensionPath : string }.

Record World : Type := mkWorld {
  disk : gmap string Entry;
  textDocuments : list TextDocument;
  (** [fsPath] of the document of [vscode.window.activeTextEditor] *)
  activeTextEditor : option string;
  (** [vscode.workspace.workspaceFolders]; [undefined] is the empty list *)
  workspaceFolders : list WorkspaceFolder;
  (** the module variable [originalFileContents] *)
  originalFileContents : gmap string string;
  (** the module variable [devServer] *)
  devServer : option DevServerHandle;
  (** [wss.clients], each with whether its [readyState] is [OPEN] *)
  clients : list (Client * bool)
}.

Definition set_disk (d : gmap string Entry) (w : World) : World :=
  mkWorld d (textDocuments w) (activeTextEditor w) (workspaceFolders w)
    (originalFileContents w) (devServer w) (clients w).

Definition set_textDocuments (ds : list TextDocument) (w : World) : World :=
  mkWorld (disk w) ds (activeTextEditor w) (workspaceFolders w)
    (originalFileContents w) (devServer w) (clients w).

Definition set_originalFileContents (m : gmap string string) (w : World) : World :=
  mkWorld (disk w) (textDocuments w) (activeTextEditor w) (workspaceFolders w)
    m (devServer w) (clients w).

Definition set_devServer (h : option DevServerHandle) (w : World) : World :=
  mkWorld (disk w) (textDocuments w) (activeTextEditor w) (workspaceFolders w)
    (originalFileContents w) h (clients w).

(** ** Messages to the UI *)

Record FolderInfo : Type := mkFolderInfo { fi_name : string; fi_path : string }.

Record OpenFile : Type := mkOpenFile {
  of_path : string;
  of_name : string;
  of_language : string;
  of_isActive : bool
}.

Record ActiveFile : Type := mkActiveFile {
  af_path : string;
  af_name : string;
  af_content : string;
  af_language : string
}.

(** One constructor per [type] tag that the module sends.  [success] of
    [fileModified] and [fileCreated] is always [true], [previewType] is
    always [html]; [filesProcessed] is absent when its value is
    [undefined]. *)
Inductive OutMsg : Type :=
| WorkspaceInfo (folders : list FolderInfo) (openFiles : list OpenFile)
    (activeFile : option ActiveFile)
| FileContent (path name content language : string)
| FileModified (path : string)
| FileCreated (path : string)
| Preview (path name content : string)
| Diff (path name originalContent currentContent : string)
| Chat (message : string) (executeMode : option bool)
    (filesProcessed : option bool)
| ErrorMsg (message : string)
| DevServerStarted (url : string)
| FileChanged (path name : string)
| ActiveEditorChanged (path name : string).

(** The calls of the two appliers, as the trace records them. *)
Inductive FileOp : Type :=
| OpCreateFile (filePath content : string)
| OpModifyFile (filePath content description : string).

Record ChildProcess : Type := mkChildProcess {
  spawn_command : string;
  spawn_args : list string;
  spawn_cwd : string
}.

(** What a handler does to the outside, in order: messages put on a
    connection, notifications shown in the editor, processes spawned, and
    the entries into [createFile] and [modifyFile]. *)
Inductive Event : Type :=
| Send (to : Client) (m : OutMsg)
| ShowInformationMessage (text : string)
| ShowErrorMessage (text : string)
| Spawn (p : ChildProcess)
| Call (op : FileOp).

(** ** Exceptions *)

Inductive JsError : Type :=
| Error_ (message : string)
| ReferenceError (message : string)
| SyntaxError (message : string)
| FileSystemError (code path : string).

Definition error_message (e : JsError) : string :=
  match e with
  | Error_ m => m
  | ReferenceError m => m
  | SyntaxError m => m
  | FileSystemError code path => code +:+ ": " +:+ path
  end.

(** [String(e)], as the template literals of the handlers render it. *)
Definition error_toString (e : JsError) : string :=
  match e with
  | Error_ m => "Error: " +:+ m
  | ReferenceError m => "ReferenceError: " +:+ m
  | SyntaxError m => "SyntaxError: " +:+ m
  | FileSystemError code path => code +:+ " (FileSystemError): " +:+ path
  end.

(** ** The monad of handlers

    A handler runs to completion on a [World]: it returns, throws, or never
    returns; the world it leaves and the events it produced are kept in all
    three cases. *)

Inductive Result (A : Type) : Type :=
| Ok (a : A)
| Throw (e : JsError)
| Hang.

Arguments Ok {A} a.
Arguments Throw {A} e.
Arguments Hang {A}.

Definition M (A : Type) : Type := World -> Result A * World * list Event.

Definition ret {A} (a : A) : M A := fun w => (Ok a, w, []).

Definition bind {A B} (m : M A) (k : A -> M B) : M B :=
  fun w =>
    match m w with
    | (Ok a, w1, ev1) =>
        match k a w1 with
        | (r, w2, ev2) => (r, w2, ev1 ++ ev2)
        end
    | (Throw e, w1, ev1) => (Throw e, w1, ev1)
    | (Hang, w1, ev1) => (Hang, w1, ev1)
    end.

Notation "'let!' x ':=' m 'in' k" := (bind m (fun x => k))
  (at level 10, x name, m at level 100, k at level 200).

Definition throw {A} (e : JsError) : M A := fun w => (Throw e, w, []).
Definition hang {A} : M A := fun w => (Hang, w, []).

(** [try { m } catch (error) { h error }]. *)
Definition try_catch {A} (m : M A) (h : JsError -> M A) : M A :=
  fun w =>
    match m w with
    | (Throw e, w1, ev1) =>
        match h e w1 with
        | (r, w2, ev2) => (r, w2, ev1 ++ ev2)
        end
    | other => other
    end.

Definition gets {A} (f : World -> A) : M A := fun w => (Ok (f w), w, []).
Definition modify (f : World -> World) : M unit := fun w => (Ok tt, f w, []).
Definition emit (e : Event) : M unit := fun w => (Ok tt, w, [e]).

(** [ws.send(JSON.stringify(m))]. *)
Definition send (ws : Client) (m : OutMsg) : M unit := emit (Send ws m).

Definition showInformationMessage (text : string) : M unit :=
  emit (ShowInformationMessage text).

Definition showErrorMessage (text : string) : M unit :=
  emit (ShowErrorMessage text).

Fixpoint for_each {A} (l : list A) (body : A -> M unit) : M unit :=
  match l with
  | [] => ret tt
  | x :: l' => let! _ := body x in for_each l' body
  end.

(** The events, the world and the result of a run. *)
Definition events {A} (r : Result A * World * list Event) : list Event := snd r.
Definition world {A} (r : Result A * World * list Event) : World := snd (fst r).
Definition result {A} (r : Result A * World * list Event) : Result A := fst (fst r).

(** The messages put on connection [ws], in order. *)
Fixpoint sent_to (ws : Client) (evs : list Event) : list OutMsg :=
  match evs with
  | [] => []
  | Send to m :: evs' =>
      if Nat.eqb to ws then m :: sent_to ws evs' else sent_to ws evs'
  | _ :: evs' => sent_to ws evs'
  end.

(** All messages sent, each with its connection. *)
Fixpoint sends (evs : list Event) : list (Client * OutMsg) :=
  match evs with
  | [] => []
  | Send to m :: evs' => (to, m) :: sends evs'
  | _ :: evs' => sends evs'
  end.

(** The applier calls, in order. *)
Fixpoint calls (evs : list Event) : list FileOp :=
  match evs with
  | [] => []
  | Call op :: evs' => op :: calls evs'
  | _ :: evs' => calls evs'
  end.

Fixpoint spawns (evs : list Event) : list ChildProcess :=
  match evs with
  | [] => []
  | Spawn p :: evs' => p :: spawns evs'
  | _ :: evs' => spawns evs'
  end.

(** ** The editor's API *)

(** [vscode.workspace.fs.stat(vscode.Uri.file(p))]. *)
Definition fs_stat (p : string) : M Entry :=
  fun w =>
    match disk w !! Path.Uri_file p with
    | Some e => (Ok e, w, [])
    | None => (Throw (FileSystemError "EntryNotFound" (Path.Uri_file p)), w, [])
    end.

(** [readFile], followed by [new TextDecoder().decode]. *)
Definition fs_readFile (p : string) : M string :=
  fun w =>
    match disk w !! Path.Uri_file p with
    | Some (File content) => (Ok content, w, [])
    | Some Directory =>
        (Throw (FileSystemError "EntryIsADirectory" (Path.Uri_file p)), w, [])
    | None => (Throw (FileSystemError "EntryNotFound" (Path.Uri_file p)), w, [])
    end.

(** [writeFile] of the encoded text: the file is created or overwritten; a
    directory cannot be written. *)
Definition fs_writeFile (p content : string) : M unit :=
  fun w =>
    match disk w !! Path.Uri_file p with
    | Some Directory =>
        (Throw (FileSystemError "EntryIsADirectory" (Path.Uri_file p)), w, [])
    | _ => (Ok tt, set_disk (<[Path.Uri_file p := File content]> (disk w)) w, [])
    end.

Definition fs_createDirectory (p : string) : M unit :=
  fun w =>
    match disk w !! Path.Uri_file p with
    | Some (File _) =>
        (Throw (FileSystemError "EntryExists" (Path.Uri_file p)), w, [])
    | _ => (Ok tt, set_disk (<[Path.Uri_file p := Directory]> (disk w)) w, [])
    end.

(** Node's [fs.existsSync]; the paths handed to it are [fsPath]s. *)
Definition fs_existsSync (p : string) : M bool :=
  gets (fun w => bool_decide (is_Some (disk w !! Path.Uri_file p))).

(** [vscode.workspace.textDocuments.find(doc => doc.uri.fsPath === p)]. *)
Definition document_at (p : string) (w : World) : option TextDocument :=
  find (fun d => String.eqb (doc_fsPath d) p) (textDocuments w).

Definition find_document (p : string) : M (option TextDocument) :=
  gets (document_at p).

Global Arguments document_at : simpl never.

Definition replace_text (p content : string) (d : TextDocument) : TextDocument :=
  if String.eqb (doc_fsPath d) p
  then mkTextDocument (doc_fsPath d) content (doc_languageId d)
         (doc_isUntitled d) (doc_readonly d)
  else d.

(** [applyEdit] of an edit that replaces the whole text of the open document
    [doc] by [content]; the result says whether the edit was applied. *)
Definition applyEdit_replace_all (doc : TextDocument) (content : string) : M bool :=
  if doc_readonly doc then ret false
  else
    let! _ := modify (fun w =>
      set_textDocuments (map (replace_text (doc_fsPath doc) content) (textDocuments w)) w) in
    ret true.

(** The document of the active editor. *)
Definition active_document : M (option TextDocument) :=
  gets (fun w =>
    match activeTextEditor w with
    | Some p => document_at p w
    | None => None
    end).

(** ** The handlers *)

(** The module variable [devServerPort]; nothing assigns it. *)
Definition devServerPort : string := "3001".

(** [JSON.stringify] of the object literal written to [package.json], with
    an indentation of two. *)
Definition package_json : string :=
  Js.lines
    ["{";
     "  " +:+ Js.dq +:+ "name" +:+ Js.dq +:+ ": " +:+ Js.dq +:+ "codebanter-preview" +:+ Js.dq +:+ ",";
     "  " +:+ Js.dq +:+ "version" +:+ Js.dq +:+ ": " +:+ Js.dq +:+ "0.1.0" +:+ Js.dq +:+ ",";
     "  " +:+ Js.dq +:+ "private" +:+ Js.dq +:+ ": true,";
     "  " +:+ Js.dq +:+ "dependencies" +:+ Js.dq +:+ ": {";
     "    " +:+ Js.dq +:+ "react" +:+ Js.dq +:+ ": " +:+ Js.dq +:+ "^17.0.2" +:+ Js.dq +:+ ",";
     "    " +:+ Js.dq +:+ "react-dom" +:+ Js.dq +:+ ": " +:+ Js.dq +:+ "^17.0.2" +:+ Js.dq;
     "  }";
     "}"].

(** The shell returned for component sources: an iframe on the dev server. *)
Definition react_preview_html (name : string) (port : string) : string :=
  Js.lines
    [
     EmptyString;
     "                <!DOCTYPE html>";
     "                <html>";
     "                <head>";
     "                    <title>React Component Preview - " +:+ name
       +:+ "</title>";
     "                    <style>";
     "                        body { margin: 0; padding: 0; height: 100vh; overflow: hidden; }";
     "                        iframe { width: 100%; height: 100%; border: none; }";
     "                    </style>";
     "                </head>";
     "                <body>";
     "                    <iframe src=" +:+ Js.dq +:+ "http://localhost:"
       +:+ port +:+ Js.dq +:+ " id=" +:+ Js.dq +:+ "devServerFrame" +:+ Js.dq
       +:+ "></iframe>";
     "                </body>";
     "                </html>";
     "            "
    ].

(** The demo page of a style sheet. *)
Definition css_preview_html (name : string) (content : string) : string :=
  Js.lines
    [
     EmptyString;
     "                <!DOCTYPE html>";
     "                <html>";
     "                <head>";
     "                    <title>Preview - " +:+ name +:+ "</title>";
     "                    <style>";
     "                        " +:+ content;
     "                    </style>";
     "                </head>";
     "                <body>";
     "                    <div class=" +:+ Js.dq +:+ "preview-container"
       +:+ Js.dq +:+ ">";
     "                        <h1>CSS Preview</h1>";
     "                        <p>This is a preview of how the CSS might look applied to basic HTML elements.</p>";
     "                        <button>Button Example</button>";
     "                        <a href=" +:+ Js.dq +:+ "#" +:+ Js.dq
       +:+ ">Link Example</a>";
     "                        <div class=" +:+ Js.dq +:+ "box" +:+ Js.dq
       +:+ ">Styled Box</div>";
     "                    </div>";
     "                </body>";
     "                </html>";
     "            "
    ].

(** The text of the style sheet page before the file name, between the file
    name and the content, and after the content. *)
Definition css_page_head : string :=
  Js.lines
    [
     EmptyString;
     "                <!DOCTYPE html>";
     "                <html>";
     "                <head>";
     "                    <title>Preview - "
    ].

Definition css_page_middle : string :=
  Js.lines
    [
     "</title>";
     "                    <style>";
     "                        "
    ].

Definition css_page_tail : string :=
  Js.lines
    [
     EmptyString;
     "                    </style>";
     "                </head>";
     "                <body>";
     "                    <div class=" +:+ Js.dq +:+ "preview-container"
       +:+ Js.dq +:+ ">";
     "                        <h1>CSS Preview</h1>";
     "                        <p>This is a preview of how the CSS might look applied to basic HTML elements.</p>";
     "                        <button>Button Example</button>";
     "                        <a href=" +:+ Js.dq +:+ "#" +:+ Js.dq
       +:+ ">Link Example</a>";
     "                        <div class=" +:+ Js.dq +:+ "box" +:+ Js.dq
       +:+ ">Styled Box</div>";
     "                    </div>";
     "                </body>";
     "                </html>";
     "            "
    ].

(** The style sheet page up to the content: it depends on the file name
    only. *)
Definition css_page_before (name : string) : string :=
  css_page_head +:+ name +:+ css_page_middle.

(** The page of a JSON file that parses; [escaped] is the escaped pretty-printed text. *)
Definition json_preview_html (name : string) (escaped : string) : string :=
  Js.lines
    [
     EmptyString;
     "                    <!DOCTYPE html>";
     "                    <html>";
     "                    <head>";
     "                        <title>JSON Preview - " +:+ name +:+ "</title>";
     "                        <style>";
     "                            body {";
     "                                margin: 0;";
     "                                padding: 20px;";
     "                                font-family: 'Courier New', monospace;";
     "                                background-color: #f5f5f5;";
     "                            }";
     "                            pre {";
     "                                background-color: #fff;";
     "                                border: 1px solid #ddd;";
     "                                border-radius: 4px;";
     "                                padding: 15px;";
     "                                overflow: auto;";
     "                                max-height: 90vh;";
     "                                white-space: pre-wrap;";
     "                            }";
     "                            .string { color: #008000; }";
     "                            .number { color: #0000ff; }";
     "                            .boolean { color: #b22222; }";
     "                            .null { color: #808080; }";
     "                            .key { color: #a52a2a; }";
     "                        </style>";
     "                    </head>";
     "                    <body>";
     "                        <pre id=" +:+ Js.dq +:+ "json-container"
       +:+ Js.dq +:+ ">" +:+ escaped +:+ "</pre>";
     "                        <script>";
     "                            // Simple JSON syntax highlighter";
     "                            function syntaxHighlight(json) {";
     "                                json = json.replace(/&/g, '&amp;').replace(/<//g, '&lt;').replace(/>/g, '&gt;');";
     "                                return json.replace(/(" +:+ Js.dq
       +:+ "(\u[a-zA-Z0-9]{4}|\[^u]|[^\" +:+ Js.dq +:+ "])*" +:+ Js.dq
       +:+ "(\s*:)?|\b(true|false|null)\b|-?\d+(?:\.\d*)?(?:[eE][+\-]?\d+)?)/g, function (match) {";
     "                                    var cls = 'number';";
     "                                    if (/^" +:+ Js.dq
       +:+ "/.test(match)) {";
     "                                        if (/:$/.test(match)) {";
     "                                            cls = 'key';";
     "                                        } else {";
     "                                            cls = 'string';";
     "                                        }";
     "                                    } else if (/true|false/.test(match)) {";
     "                                        cls = 'boolean';";
     "                                    } else if (/null/.test(match)) {";
     "                                        cls = 'null';";
     "                                    }";
     "                                    return '<span class=" +:+ Js.dq
       +:+ "' + cls + '" +:+ Js.dq +:+ ">' + match + '</span>';";
     "                                });";
     "                            }";
     "                            ";
     "                            document.getElementById('json-container').innerHTML = syntaxHighlight(document.getElementById('json-container').textContent);";
     "                        </script>";
     "                    </body>";
     "                    </html>";
     "                "
    ].

(** The page of a JSON file that does not parse. *)
Definition json_invalid_preview_html (name : string) (escaped_message : string) (escaped_content : string) : string :=
  Js.lines
    [
     EmptyString;
     "                    <!DOCTYPE html>";
     "                    <html>";
     "                    <head>";
     "                        <title>JSON Preview (Invalid) - " +:+ name
       +:+ "</title>";
     "                        <style>";
     "                            body {";
     "                                margin: 0;";
     "                                padding: 20px;";
     "                                font-family: 'Courier New', monospace;";
     "                                background-color: #f5f5f5;";
     "                            }";
     "                            .warning {";
     "                                color: #ff0000;";
     "                                background-color: #ffe0e0;";
     "                                padding: 10px;";
     "                                margin-bottom: 15px;";
     "                                border-radius: 4px;";
     "                            }";
     "                            pre {";
     "                                background-color: #fff;";
     "                                border: 1px solid #ddd;";
     "                                border-radius: 4px;";
     "                                padding: 15px;";
     "                                overflow: auto;";
     "                            }";
     "                        </style>";
     "                    </head>";
     "                    <body>";
     "                        <div class=" +:+ Js.dq +:+ "warning" +:+ Js.dq
       +:+ ">Warning: Invalid JSON format - " +:+ escaped_message +:+ "</div>";
     "                        <pre>" +:+ escaped_content +:+ "</pre>";
     "                    </body>";
     "                    </html>";
     "                "
    ].

(** The [public/index.html] written next to a fresh [package.json]. *)
Definition index_html : string :=
  Js.lines
    [
     EmptyString;
     "<!DOCTYPE html>";
     "<html lang=" +:+ Js.dq +:+ "en" +:+ Js.dq +:+ ">";
     "<head>";
     "    <meta charset=" +:+ Js.dq +:+ "UTF-8" +:+ Js.dq +:+ ">";
     "    <meta name=" +:+ Js.dq +:+ "viewport" +:+ Js.dq +:+ " content="
       +:+ Js.dq +:+ "width=device-width, initial-scale=1.0" +:+ Js.dq +:+ ">";
     "    <title>CodeBanter Preview</title>";
     "</head>";
     "<body>";
     "    <div id=" +:+ Js.dq +:+ "root" +:+ Js.dq +:+ "></div>";
     "</body>";
     "</html>";
     "            "
    ].

(** What [JSON.parse] followed by [JSON.stringify(value, null, 2)] gives. *)
Inductive JsonOutcome : Type :=
| JsonText (formatted : string)
| JsonSyntaxError (message : string).

(** What the call of the language model gives: the text of the first
    content block, or an exception. *)
Inductive ApiOutcome : Type :=
| ApiText (text : string)
| ApiFailure (e : JsError).

(** A parsed inbound message: the [type] tag and the payload fields, each
    a string (a flag for [executeMode]). *)
Record Data : Type := mkData {
  data_type : string;
  data_filePath : string;
  data_content : string;
  data_description : string;
  data_message : string;
  data_executeMode : bool
}.

Section Handlers.

(** The JavaScript runtime's JSON, and the remote model: [system] and user
    message in, outcome out. *)
Variable JSON_reformat : string -> JsonOutcome.
Variable anthropic_messages_create : string -> string -> ApiOutcome.

(** *** [sendWorkspaceInfo] *)

Definition sendWorkspaceInfo (ws : Client) : M unit :=
  try_catch
    (let! workspaceFolders := gets workspaceFolders in
     let! activeEditor := active_document in
     let! docs := gets textDocuments in
     let openFiles :=
       map (fun doc =>
              mkOpenFile (doc_fsPath doc) (Path.basename (doc_fsPath doc))
                (doc_languageId doc)
                (match activeEditor with
                 | Some a => String.eqb (doc_fsPath a) (doc_fsPath doc)
                 | None => false
                 end))
         (List.filter (fun doc => negb (doc_isUntitled doc)) docs) in
     let folders :=
       map (fun folder => mkFolderInfo (folder_name folder) (folder_fsPath folder))
         workspaceFolders in
     let activeFile :=
       match activeEditor with
       | Some a =>
           Some (mkActiveFile (doc_fsPath a) (Path.basename (doc_fsPath a))
                   (doc_text a) (doc_languageId a))
       | None => None
       end in
     send ws (WorkspaceInfo folders openFiles activeFile))
    (fun _ => send ws (ErrorMsg "Error retrieving workspace information")).

(** *** Broadcasts *)

(** [wss.clients.forEach]: every client whose [readyState] is [OPEN]. *)
Definition broadcast (m : OutMsg) : M unit :=
  let! cs := gets clients in
  for_each cs (fun c => if snd c then send (fst c) m else ret tt).

Definition broadcastFileChange (filePath : string) : M unit :=
  broadcast (FileChanged filePath (Path.basename filePath)).

Definition broadcastActiveEditorChange (filePath : string) : M unit :=
  broadcast (ActiveEditorChanged filePath (Path.basename filePath)).

(** *** [getFileContent] *)

Definition store_original (filePath text : string) : M unit :=
  modify (fun w =>
    set_originalFileContents (<[filePath := text]> (originalFileContents w)) w).

Definition getFileContent (ws : Client) (filePath : string) : M unit :=
  try_catch
    (let! doc := find_document filePath in
     match doc with
     | None =>
         try_catch
           (let! text := fs_readFile filePath in
            let! _ := store_original filePath text in
            send ws
              (FileContent filePath (Path.basename filePath) text
                 (Js.substring_from 1 (Path.extname filePath))))
           (fun _ => throw (Error_ ("Failed to read file: " +:+ filePath)))
     | Some doc =>
         let content := doc_text doc in
         let! _ := store_original filePath content in
         send ws
           (FileContent filePath (Path.basename filePath) content
              (doc_languageId doc))
     end)
    (fun error =>
       send ws (ErrorMsg ("Error getting file content: " +:+ error_toString error))).

(** The current content of a path: the open document, else the disk. *)
Definition read_current (filePath : string) : M string :=
  let! doc := find_document filePath in
  match doc with
  | Some doc => ret (doc_text doc)
  | None => fs_readFile filePath
  end.

(** *** [getFileDiff] *)

Definition getFileDiff (ws : Client) (filePath : string) : M unit :=
  try_catch
    (let! originalContent := gets (fun w => originalFileContents w !! filePath) in
     match originalContent with
     | Some originalContent =>
         (* [!originalContent]: the empty text is as good as none *)
         if negb (Js.truthy originalContent) then
           throw (Error_ ("No original content stored for " +:+ filePath))
         else
           let! currentContent :=
             try_catch (read_current filePath)
               (fun _ => throw (Error_ ("Failed to read current file: " +:+ filePath))) in
           send ws
             (Diff filePath (Path.basename filePath) originalContent currentContent)
     | None => throw (Error_ ("No original content stored for " +:+ filePath))
     end)
    (fun error =>
       send ws (ErrorMsg ("Error generating diff: " +:+ error_toString error))).

(** *** [modifyFile] *)

Definition modifyFile (ws : Client) (filePath content description : string) : M unit :=
  let! _ := emit (Call (OpModifyFile filePath content description)) in
  try_catch
    (let! _ :=
       try_catch (let! _ := fs_stat filePath in ret tt)
         (fun _ => throw (Error_ ("File does not exist: " +:+ filePath))) in
     let! stored := gets (fun w => bool_decide (is_Some (originalFileContents w !! filePath))) in
     let! _ :=
       if negb stored then
         try_catch
           (let! text := read_current filePath in store_original filePath text)
           (fun _ => ret tt)
       else ret tt in
     let! doc := find_document filePath in
     let! _ :=
       match doc with
       | Some doc =>
           let! success := applyEdit_replace_all doc content in
           if negb success then
             throw (Error_ ("Failed to apply edit to " +:+ filePath))
           else ret tt
       | None => fs_writeFile filePath content
       end in
     let! _ :=
       showInformationMessage
         ("File modified: " +:+ Path.basename filePath +:+ " - " +:+ description) in
     send ws (FileModified filePath))
    (fun error =>
       send ws (ErrorMsg ("Error modifying file: " +:+ error_toString error))).

(** *** [createFile] *)

(** The loop over the parts of the directory path. *)
Fixpoint create_directories (parts : list string) (currentPath : string) : M unit :=
  match parts with
  | [] => ret tt
  | part :: parts' =>
      if negb (Js.truthy part) then create_directories parts' currentPath
      else
        let currentPath' :=
          if Js.truthy currentPath then Path.join [currentPath; part] else part in
        let! _ :=
          try_catch (let! _ := fs_stat currentPath' in ret tt)
            (fun _ => fs_createDirectory currentPath') in
        create_directories parts' currentPath'
  end.

Definition createFile (ws : Client) (filePath content : string) : M unit :=
  let! _ := emit (Call (OpCreateFile filePath content)) in
  try_catch
    (let! _ :=
       (* the [throw] stands inside the [try] whose [catch] is empty *)
       try_catch
         (let! _ := fs_stat filePath in
          throw (Error_ ("File already exists: " +:+ filePath)))
         (fun _ => ret tt) in
     let dirPath := Path.dirname filePath in
     let! _ :=
       try_catch (let! _ := fs_stat dirPath in ret tt)
         (fun _ => create_directories (Path.split dirPath Path.slash) EmptyString) in
     let! _ := fs_writeFile filePath content in
     let! _ := showInformationMessage ("File created: " +:+ Path.basename filePath) in
     send ws (FileCreated filePath))
    (fun error =>
       send ws (ErrorMsg ("Error creating file: " +:+ error_toString error))).

(** *** [startDevServer] and [stopDevServer] *)

Definition dev_server_command (rootPath : string) : ChildProcess :=
  mkChildProcess "npx"
    ["webpack-dev-server"; "--mode=development"; "--port"; devServerPort;
     "--open=false"; "--hot"]
    rootPath.

(** The result is the spawned process, [null] after a failure, [undefined]
    when [devServer] is set.  No statement of the function (or of the
    module) assigns the process to [devServer]. *)
Inductive StartResult : Type :=
| Started (p : ChildProcess)
| Null
| Undefined.

Definition startDevServer (context : ExtensionContext) : M StartResult :=
  let! running := gets devServer in
  match running with
  | Some _ => ret Undefined
  | None =>
      try_catch
        (let! workspaceFolders := gets workspaceFolders in
         match workspaceFolders with
         | [] => throw (Error_ "No workspace folder found")
         | folder :: _ =>
             let rootPath := folder_fsPath folder in
             let packageJsonPath := Path.join [rootPath; "package.json"] in
             let! hasPackage := fs_existsSync packageJsonPath in
             let! _ :=
               if negb hasPackage then
                 let! _ := fs_writeFile packageJsonPath package_json in
                 let indexHtmlPath := Path.join [rootPath; "public"; "index.html"] in
                 let! hasPublic := fs_existsSync (Path.dirname indexHtmlPath) in
                 let! _ :=
                   if negb hasPublic
                   then fs_createDirectory (Path.dirname indexHtmlPath)
                   else ret tt in
                 fs_writeFile indexHtmlPath index_html
               else ret tt in
             let devServerProcess := dev_server_command rootPath in
             let! _ := emit (Spawn devServerProcess) in
             let! _ := broadcast (DevServerStarted ("http://localhost:" +:+ devServerPort)) in
             ret (Started devServerProcess)
         end)
        (fun error =>
           let! _ :=
             showErrorMessage
               ("Failed to start development server: " +:+ error_toString error) in
           ret Null)
  end.

Definition stopDevServer : M unit :=
  let! running := gets devServer in
  match running with
  | Some _ => modify (set_devServer None)
  | None => ret tt
  end.

(** *** [renderPreview] *)

(** The identifier [context] in the body of [renderPreview]: the function
    has the parameters [ws] and [filePath] only and the module declares no
    variable of that name, so evaluating the identifier throws. *)
Definition identifier_context : M ExtensionContext :=
  throw (ReferenceError "context is not defined").

(** *** [escapeHtml]

    The fourth link of the chain is written with two slashes after the
    double quote of its pattern.  The regular expression literal ends at the
    first of them (it has no flag); the second one divides it by the
    identifier [g], which neither the function nor the module declares.
    The receiver of the call, the first three replacements, is evaluated
    before the argument; evaluating the argument throws. *)
Definition identifier_g : M unit :=
  throw (ReferenceError "g is not defined").

(** Past the identifier, the quotient of a regular expression and a value
    is not a number, [replace] takes the text [NaN] for its pattern, and
    the last link replaces every single quote. *)
Definition escapeHtml (text : string) : M string :=
  let escaped :=
    Js.replace_all_char ">"%char "&gt;"
      (Js.replace_all_char "<"%char "&lt;"
         (Js.replace_all_char "&"%char "&amp;" text)) in
  let! _ := identifier_g in
  ret (Js.replace_all_char "'"%char "&#039;"
         (Js.replace_first "NaN" "&quot;" escaped)).

(** [JSON.stringify(JSON.parse(content), null, 2)]: the text, or the
    [SyntaxError] of the parser. *)
Definition JSON_parse_stringify (content : string) : M string :=
  match JSON_reformat content with
  | JsonText formatted => ret formatted
  | JsonSyntaxError message => throw (SyntaxError message)
  end.

Definition is_component_ext (ext : string) : bool :=
  String.eqb ext ".tsx" || String.eqb ext ".jsx"
  || String.eqb ext ".ts" || String.eqb ext ".js".

Definition renderPreview (ws : Client) (filePath : string) : M unit :=
  try_catch
    (let ext := Js.toLowerCase (Path.extname filePath) in
     let name := Path.basename filePath in
     let! content :=
       try_catch (read_current filePath)
         (fun _ => throw (Error_ ("Failed to read file: " +:+ filePath))) in
     if is_component_ext ext then
       let! running := gets devServer in
       let! _ :=
         match running with
         | None =>
             let! context := identifier_context in
             let! _ := startDevServer context in
             ret tt
         | Some _ => ret tt
         end in
       send ws (Preview filePath name (react_preview_html name devServerPort))
     else if String.eqb ext ".html" then
       send ws (Preview filePath name content)
     else if String.eqb ext ".css" then
       send ws (Preview filePath name (css_preview_html name content))
     else if String.eqb ext ".json" then
       try_catch
         (let! formattedJson := JSON_parse_stringify content in
          let! escaped := escapeHtml formattedJson in
          send ws (Preview filePath name (json_preview_html name escaped)))
         (fun jsonError =>
            let! warning := escapeHtml (error_message jsonError) in
            let! raw := escapeHtml content in
            send ws
              (Preview filePath name (json_invalid_preview_html name warning raw)))
     else send ws (ErrorMsg ("Preview not supported for file type: " +:+ ext)))
    (fun error =>
       send ws (ErrorMsg ("Error rendering preview: " +:+ error_toString error))).

(** *** [testFileCreation] *)

Definition testFileCreation (ws : Client) : M unit :=
  try_catch
    (let! workspaceFolders := gets workspaceFolders in
     match workspaceFolders with
     | [] => send ws (ErrorMsg "No workspace folder is open")
     | folder :: _ =>
         let workspacePath := folder_fsPath folder in
         let testFilePath := Path.join [workspacePath; "test-file.txt"] in
         try_catch
           (let! _ := fs_writeFile testFilePath "This is a test file created by CodeBanter." in
            send ws
              (Chat ("Test file created successfully at: " +:+ testFilePath) None None))
           (fun error =>
              send ws (ErrorMsg ("Error creating test file: " +:+ error_toString error)))
     end)
    (fun error =>
       send ws (ErrorMsg ("Error in test file creation: " +:+ error_toString error))).

(** *** [processAiResponseForFileOperations] *)

(** How the scan of one pattern ends: the loop is left with the flag
    [operationsPerformed], or the function has returned without a value. *)
Inductive Scan : Type :=
| Continue (operationsPerformed : bool)
| ReturnUndefined.

(** The [while] loop over [pattern.exec(message)] for a pattern with the
    [g] flag: [rest] is the message from [lastIndex] on.  A match that takes
    no character leaves [lastIndex] where it is and the loop never ends;
    [fuel] bounds the number of rounds by the length of the message. *)
Fixpoint exec_loop (fuel : nat) (ws : Client) (pattern : Regex.regex)
    (rest : list ascii) (operationsPerformed : bool) : M Scan :=
  match fuel with
  | 0 => hang
  | S fuel' =>
      match Regex.search pattern rest with
      | None => ret (Continue operationsPerformed)
      | Some (_, rest', m) =>
          let filePath := Js.trim (Regex.group 1 m) in
          let content := Js.trim (Regex.group 2 m) in
          if negb (Js.truthy filePath) || negb (Js.truthy content) then
            exec_loop fuel' ws pattern rest' operationsPerformed
          else
            let! workspaceFolders := gets workspaceFolders in
            match workspaceFolders with
            | [] =>
                let! _ := send ws (ErrorMsg "No workspace folder is open") in
                ret ReturnUndefined
            | folder :: _ =>
                let workspacePath := folder_fsPath folder in
                let absoluteFilePath :=
                  if Path.isAbsolute filePath then filePath
                  else Path.join [workspacePath; filePath] in
                let! performed :=
                  try_catch
                    (let! _ :=
                       try_catch
                         (let! _ := fs_stat absoluteFilePath in
                          modifyFile ws absoluteFilePath content "Updated by AI")
                         (fun _ => createFile ws absoluteFilePath content) in
                     ret true)
                    (fun error =>
                       let! _ :=
                         send ws
                           (ErrorMsg
                              ("Error processing file " +:+ filePath +:+ ": "
                               +:+ error_toString error)) in
                       ret operationsPerformed) in
                exec_loop fuel' ws pattern rest' performed
            end
      end
  end.

Fixpoint for_patterns (ws : Client) (patterns : list Regex.regex)
    (message : list ascii) (operationsPerformed : bool) : M (option bool) :=
  match patterns with
  | [] => ret (Some operationsPerformed)
  | pattern :: patterns' =>
      let! scan := exec_loop (S (length message)) ws pattern message operationsPerformed in
      match scan with
      | Continue performed => for_patterns ws patterns' message performed
      | ReturnUndefined => ret None
      end
  end.

(** The result is [None] for [undefined]. *)
Definition processAiResponseForFileOperations (message : string) (ws : Client)
  : M (option bool) :=
  for_patterns ws filePatterns (Js.chars message) false.

(** *** [handleChatMessage] *)

Definition system_execute : string :=
  "You are CodeBanter, a VS Code assistant that creates files directly in the user's workspace. IMPORTANT: Format your code blocks with the filename as a comment on the first line, like this: ```js // filename.js"
  +:+ Js.nl +:+ "code here``` or ```html <!-- index.html -->"
  +:+ Js.nl +:+ "code here```. The user expects you to create actual files in their workspace based on your response.".

Definition system_chat : string :=
  "You are CodeBanter, a VS Code assistant. You can view files but in Chat mode, you cannot modify them. Suggest switching to Execute mode if the user wants to make changes.".

Definition handleChatMessage (ws : Client) (data : Data) : M unit :=
  try_catch
    (let! activeEditor := active_document in
     let fileContext :=
       match activeEditor with
       | Some doc =>
           "Currently viewing file: " +:+ Path.basename (doc_fsPath doc)
           +:+ Js.nl +:+ Js.nl +:+ "File content:" +:+ Js.nl +:+ "```" +:+ Js.nl
           +:+ doc_text doc +:+ Js.nl +:+ "```" +:+ Js.nl +:+ Js.nl
       | None => EmptyString
       end in
     let! workspaceFolders := gets workspaceFolders in
     let! docs := gets textDocuments in
     let workspaceContext :=
       match workspaceFolders with
       | folder :: _ =>
           let openFiles :=
             map (fun doc => Path.basename (doc_fsPath doc))
               (List.filter (fun doc => negb (doc_isUntitled doc)) docs) in
           "Working in project: " +:+ folder_name folder +:+ Js.nl +:+ Js.nl
           +:+ match openFiles with
               | [] => EmptyString
               | _ :: _ =>
                   "Open files: " +:+ Js.join_with ", " openFiles +:+ Js.nl +:+ Js.nl
               end
       | [] => EmptyString
       end in
     let userMessage := workspaceContext +:+ fileContext +:+ data_message data in
     let systemMessage :=
       if data_executeMode data then system_execute else system_chat in
     match anthropic_messages_create systemMessage userMessage with
     | ApiFailure e => throw e
     | ApiText responseText =>
         let! filesProcessed :=
           if data_executeMode data
           then processAiResponseForFileOperations responseText ws
           else ret (Some false) in
         send ws (Chat responseText (Some (data_executeMode data)) filesProcessed)
     end)
    (fun error =>
       send ws (ErrorMsg ("Error processing chat message: " +:+ error_message error))).

(** *** The router: [ws.on('message', ...)]

    [None] is a text that [JSON.parse] rejects. *)
Definition onMessage (ws : Client) (message : option Data) : M unit :=
  try_catch
    (match message with
     | None => throw (Error_ "Unexpected token in JSON")
     | Some data =>
         let type := data_type data in
         if String.eqb type "chat" then handleChatMessage ws data
         else if String.eqb type "getFiles" then sendWorkspaceInfo ws
         else if String.eqb type "getFileContent" then
           getFileContent ws (data_filePath data)
         else if String.eqb type "modifyFile" then
           modifyFile ws (data_filePath data) (data_content data)
             (data_description data)
         else if String.eqb type "createFile" then
           createFile ws (data_filePath data) (data_content data)
         else if String.eqb type "renderPreview" then
           renderPreview ws (data_filePath data)
         else if String.eqb type "getDiff" then getFileDiff ws (data_filePath data)
         else if String.eqb type "testFileCreation" then testFileCreation ws
         else send ws (ErrorMsg ("Unknown message type: " +:+ type))
     end)
    (fun _ => send ws (ErrorMsg "Error processing message")).

End Handlers.


(** ** Notions used by the properties *)

(** The acknowledgements of the appliers and of the parser. *)
Definition is_ack (m : OutMsg) : bool :=
  match m with
  | FileModified _ | FileCreated _ | ErrorMsg _ => true
  | _ => false
  end.

(** The message that ends the handling of a chat request. *)
Definition is_chat_end (m : OutMsg) : bool :=
  match m with
  | Chat _ _ _ | ErrorMsg _ => true
  | _ => false
  end.

(** [m] returns, whatever the world, after one message, to [ws]. *)
Definition replies_once (ws : Client) (m : M unit) : Prop :=
  forall w, exists w' evs msg,
    m w = (Ok tt, w', evs) /\ sends evs = [(ws, msg)].

(** A trace without messages and without applier calls. *)
Definition quiet (evs : list Event) : Prop := sends evs = [] /\ calls evs = [].

(** [m] returns or throws, and its trace is quiet. *)
Definition silent {A} (m : M A) : Prop :=
  forall w,
    match m w with
    | (Hang, _, _) => False
    | (_, _, evs) => quiet evs
    end.

(** [m] returns after one message to [ws], a message in [P], or throws
    after none; it calls no applier. *)
Definition answers {A} (ws : Client) (P : OutMsg -> Prop) (m : M A) : Prop :=
  forall w,
    match m w with
    | (Ok _, _, evs) => calls evs = [] /\ exists msg, sends evs = [(ws, msg)] /\ P msg
    | (Throw _, _, evs) => quiet evs
    | (Hang, _, _) => False
    end.

(** [m] returns after exactly one message to [ws], a message in [P], and
    after the applier calls [ops]. *)
Definition replies (ws : Client) (P : OutMsg -> Prop) (ops : list FileOp)
    (m : M unit) : Prop :=
  forall w, exists w' evs msg,
    m w = (Ok tt, w', evs) /\ sends evs = [(ws, msg)] /\ P msg /\ calls evs = ops.

(** [m] returns after acknowledgements to [ws] only. *)
Definition acknowledges {A} (ws : Client) (m : M A) : Prop :=
  forall w, exists r w' evs acks,
    m w = (Ok r, w', evs)
    /\ sends evs = map (fun ack => (ws, ack)) acks
    /\ forallb is_ack acks = true.

Definition ack (m : OutMsg) : Prop := is_ack m = true.
Definition any_message (_ : OutMsg) : Prop := True.

(** [m] leaves the list of workspace folders as it is. *)
Definition keeps_folders {A} (m : M A) : Prop :=
  forall w, workspaceFolders (world (m w)) = workspaceFolders w.

(** The applier that the parser calls for a match, as the disk decides. *)
Definition dispatched (absoluteFilePath content : string) (w : World) : FileOp :=
  match disk w !! Path.Uri_file absoluteFilePath with
  | Some _ => OpModifyFile absoluteFilePath content "Updated by AI"
  | None => OpCreateFile absoluteFilePath content
  end.

(** [w1] is [w] with directories added at paths that had no entry. *)
Definition adds_directories (w w1 : World) : Prop :=
  w1 = set_disk (disk w1) w
  /\ forall k, disk w1 !! k = disk w !! k
               \/ (disk w !! k = None /\ disk w1 !! k = Some Directory).

(** The requests of the snapshot scenario: read, modify, read again, diff. *)
Definition read_modify_read_diff (ws : Client) (filePath content description : string)
  : M unit :=
  let! _ := getFileContent ws filePath in
  let! _ := modifyFile ws filePath content description in
  let! _ := getFileContent ws filePath in
  getFileDiff ws filePath.

(** ** Concrete inputs *)

(** The response of the parser scenario: one fenced block with a comment
    that names [foo.js]. *)
Definition scenario_response : string :=
  "```js // foo.js" +:+ Js.nl +:+ "console.log(1)" +:+ Js.nl +:+ "```".

(** A workspace with the folder [/w], one open connection and nothing on
    the disk. *)
Definition project_world : World :=
  mkWorld ∅ [] None [mkWorkspaceFolder "w" "/w"] ∅ None [(0, true)].

(** The same workspace with the given files on the disk. *)
Definition project_with (files : list (string * string)) : World :=
  set_disk (list_to_map (map (fun f => (fst f, File (snd f))) files)) project_world.

Definition constant_json (_ : string) : JsonOutcome := JsonSyntaxError "Unexpected token".

(** A path whose extension has a capital letter of the upper half (code
    unit 201), and that extension in lower case (code unit 233). *)
Definition accented_path : string := "/w/notes." +:+ String "201"%char "XT".
Definition accented_ext : string := "." +:+ String "233"%char "xt".
Definition constant_api (text : string) (_ _ : string) : ApiOutcome := ApiText text.

Definition request (type filePath content : string) : Data :=
  mkData type filePath content EmptyString EmptyString false.

(** ** The chat panel: [CodeBanterUI]

    The parts of the React component that are functions of its state: the
    diff view, the bookmark toggle and the submission of the chat form. *)

Module Ui.

Inductive Role : Type := User | Assistant.

Record Message : Type := mkMessage {
  msg_id : string;
  msg_role : Role;
  msg_content : string;
  msg_timestamp : string;
  isBookmarked : bool;
  msg_executeMode : option bool
}.

Record FileDiff : Type := mkFileDiff {
  originalContent : string;
  currentContent : string
}.

(** [toggleBookmark]: the chat history with the flag of every message of
    that id flipped. *)
Definition toggleBookmark (messageId : string) (chatHistory : list Message)
  : list Message :=
  map (fun msg =>
         if String.eqb (msg_id msg) messageId
         then mkMessage (msg_id msg) (msg_role msg) (msg_content msg)
                (msg_timestamp msg) (negb (isBookmarked msg)) (msg_executeMode msg)
         else msg)
    chatHistory.

(** [content.split('\n')]. *)
Definition split_lines (content : string) : list string :=
  Path.split content Js.nl_char.

(** [index < lines.length ? lines[index] : '']. *)
Definition line_at (lines : list string) (index : nat) : string :=
  nth index lines EmptyString.

(** The condition of the highlight class of a row of the original column:
    both sides have the line and the original line differs from the current
    one. *)
Definition highlighted_original (originalLines currentLines : list string)
    (index : nat) : bool :=
  (index <? length currentLines)%nat && (index <? length originalLines)%nat
  && negb (String.eqb (line_at originalLines index) (line_at currentLines index)).

(** The condition in the current column: the same test, written from the
    other side. *)
Definition highlighted_current (originalLines currentLines : list string)
    (index : nat) : bool :=
  (index <? length originalLines)%nat && (index <? length currentLines)%nat
  && negb (String.eqb (line_at currentLines index) (line_at originalLines index)).

(** A row of a column of the diff view: its text and whether it carries the
    highlight class. *)
Record DiffRow : Type := mkDiffRow { row_text : string; row_highlighted : bool }.

Record DiffView : Type := mkDiffView {
  original_column : list DiffRow;
  current_column : list DiffRow
}.

(** [renderDiffView]: [None] is the notice that there is no diff
    information. *)
Definition renderDiffView (diffInfo : option FileDiff) : option DiffView :=
  match diffInfo with
  | None => None
  | Some d =>
      let originalLines := split_lines (originalContent d) in
      let currentLines := split_lines (currentContent d) in
      let maxLines := Nat.max (length originalLines) (length currentLines) in
      Some
        (mkDiffView
           (map (fun index =>
                   mkDiffRow (line_at originalLines index)
                     (highlighted_original originalLines currentLines index))
              (seq 0 maxLines))
           (map (fun index =>
                   mkDiffRow (line_at currentLines index)
                     (highlighted_current originalLines currentLines index))
              (seq 0 maxLines)))
  end.

(** The state that [handleSubmit] reads and writes.  [websocket] is [None]
    for [null], else whether [readyState] is [OPEN]; [selectedFile] is the
    path of the selected file. *)
Record FormState : Type := mkFormState {
  chatInput : string;
  isExecuteMode : bool;
  selectedFile : option string;
  websocket : option bool;
  chatHistory : list Message
}.

(** [handleSubmit], at the time [now] (the text of [Date.now()] and of the
    ISO date): the state after it, and the message put on the socket. *)
Definition handleSubmit (now_id now_iso : string) (st : FormState)
  : FormState * option Data :=
  if negb (Js.truthy (Js.trim (chatInput st)))
     || match websocket st with Some true => false | _ => true end
  then (st, None)
  else
    let messageWithContext :=
      match selectedFile st with
      | Some path =>
          if isExecuteMode st
          then "Working with file: " +:+ path +:+ Js.nl +:+ Js.nl +:+ chatInput st
          else chatInput st
      | None => chatInput st
      end in
    (mkFormState EmptyString (isExecuteMode st) (selectedFile st) (websocket st)
       (chatHistory st
        ++ [mkMessage now_id User (chatInput st) now_iso false None]),
     Some (mkData "chat" EmptyString EmptyString EmptyString messageWithContext
             (isExecuteMode st))).

End Ui.

(** ** More notions used by the properties *)

(** [m] spawns no process. *)
Definition no_spawn {A} (m : M A) : Prop :=
  forall w, spawns (events (m w)) = [].

(** The [type] tags that the router knows. *)
Definition known_types : list string :=
  ["chat"; "getFiles"; "getFileContent"; "modifyFile"; "createFile";
   "renderPreview"; "getDiff"; "testFileCreation"].

(** The matches that the loop over [pattern.exec] visits from [rest] on, in
    order, each as its two trimmed groups. *)
Fixpoint exec_matches (fuel : nat) (pattern : Regex.regex) (rest : list ascii)
  : list (string * string) :=
  match fuel with
  | 0 => []
  | S fuel' =>
      match Regex.search pattern rest with
      | None => []
      | Some (_, rest', m) =>
          (Js.trim (Regex.group 1 m), Js.trim (Regex.group 2 m))
          :: exec_matches fuel' pattern rest'
      end
  end.

(** A match is usable when it has a name and a content. *)
Definition usable (m : string * string) : bool :=
  Js.truthy (fst m) && Js.truthy (snd m).

(** Whether one of the three patterns has a usable match in the text. *)
Definition has_usable_match (message : string) : bool :=
  existsb
    (fun pattern =>
       existsb usable
         (exec_matches (S (length (Js.chars message))) pattern (Js.chars message)))
    filePatterns.

(** The lengths of the segments of a path, each counted with one separator,
    and the number of empty segments. *)
Fixpoint total (segs : list (list ascii)) : nat :=
  match segs with
  | [] => 0
  | seg :: segs' => S (length seg) + total segs'
  end.

Fixpoint empties (segs : list (list ascii)) : nat :=
  match segs with
  | [] => 0
  | [] :: segs' => S (empties segs')
  | _ :: segs' => empties segs'
  end.

(** A text without a backquote and without a hash sign. *)
Definition plain_char (c : ascii) : bool :=
  negb (Ascii.eqb c "`"%char) && negb (Ascii.eqb c "#"%char).

(** Whether a trace has an applier call. *)
Definition has_call (evs : list Event) : bool :=
  match calls evs with
  | [] => false
  | _ :: _ => true
  end.

(** [m] takes every world to one that [R] relates to it. *)
Definition preserves {A} (R : World -> World -> Prop) (m : M A) : Prop :=
  forall w, R w (world (m w)).


(** The disk is the same at every path other than [key]. *)
Definition same_disk_elsewhere (key : string) (w w' : World) : Prop :=
  forall k, k <> key -> disk w' !! k = disk w !! k.

(** What a run of the loop of the parser counts: one message per applier
    call and a flag set by the first call, or, when the function is left
    without a value, one message more than calls.  An exception does not
    leave the loop. *)
Definition counted (performed : bool) (r : Result Scan * World * list Event) : Prop :=
  match r with
  | (Ok (Continue b), _, evs) =>
      length (sends evs) = length (calls evs) /\ b = performed || has_call evs
  | (Ok ReturnUndefined, _, evs) => length (sends evs) = S (length (calls evs))
  | (Throw _, _, _) => False
  | (Hang, _, _) => True
  end.

(** The workspace [/w] with the file [/w/a.txt] on the disk and open in the
    active editor with an unsaved text. *)
Definition editing_world : World :=
  mkWorld {[ "/w/a.txt" := File "saved" ]}
    [mkTextDocument "/w/a.txt" "unsaved" "plaintext" false false]
    (Some "/w/a.txt") [mkWorkspaceFolder "w" "/w"] ∅ None [(0, true)].

(** The workspace [/w] with its directory on the disk and nothing in it. *)
Definition empty_project : World :=
  set_disk {[ "/w" := Directory ]} project_world.

Definition failing_api (e : JsError) (_ _ : string) : ApiOutcome := ApiFailure e.
(** * Properties *)

(** ** Escaping *)

Section Escaping.

Lemma append_cons x (a b : string) : String x a +:+ b = String x (a +:+ b).
Proof. reflexivity. Qed.

Lemma append_nil (b : string) : EmptyString +:+ b = b.
Proof. reflexivity. Qed.

Lemma append_assoc (a b c : string) : (a +:+ b) +:+ c = a +:+ (b +:+ c).
Proof.
  induction a as [|x a IH]; [reflexivity |].
  now rewrite !append_cons, IH.
Qed.

Lemma occurs_app c a b : occurs c (a +:+ b) = occurs c a || occurs c b.
Proof.
  induction a as [|x a IH]; simpl; [reflexivity |].
  rewrite IH. now rewrite orb_assoc.
Qed.

(** A character that no entity contains and that is special does not occur
    in an escaped text. *)
Lemma Escaped_no_occurrence c s :
  html_special c = true -> c <> "&"%char -> Escaped s -> occurs c s = false.
Proof.
  intros Hs Hamp He. induction He as [| a s Ha He IH | e s Hin He IH].
  - reflexivity.
  - simpl. rewrite IH, orb_false_r.
    destruct (Ascii.eqb_spec a c) as [-> | Hne]; [congruence | reflexivity].
  - rewrite occurs_app, IH, orb_false_r.
    revert Hs Hamp. clear -Hin.
    destruct c as [[] [] [] [] [] [] [] []]; intros Hs Hamp;
      vm_compute in Hs; try discriminate Hs;
      try (exfalso; apply Hamp; reflexivity);
      simpl in Hin; intuition subst; reflexivity.
Qed.

End Escaping.

(** C6 (what the code does). [escapeHtml] returns no text.  For every
    input the call stops with the [ReferenceError] of the undeclared
    identifier [g] in the argument of the fourth replacement, in the state
    it started in and without a message: there is no result that could be
    free of the five characters. *)
Theorem escapeHtml_throws_on_every_input (t : string) (w : World) :
  escapeHtml t w = (Throw (ReferenceError "g is not defined"), w, [])
  /\ forall escaped, result (escapeHtml t w) <> Ok escaped.
Proof.
  assert (E : escapeHtml t w = (Throw (ReferenceError "g is not defined"), w, []))
    by reflexivity.
  split; [exact E |]. intros escaped. rewrite E. discriminate.
Qed.

(** ** Running handlers *)

(** Unfolding of the monad's operations. *)
Ltac run_monad :=
  unfold read_current, store_original, find_document, active_document,
    fs_stat, fs_readFile, fs_writeFile, fs_createDirectory, fs_existsSync,
    showInformationMessage, showErrorMessage, send,
    bind, try_catch, ret, throw, hang, gets, modify, emit,
    events, world, result in *;
  cbn [fst snd app] in *.

Section Traces.

Lemma sends_app a b : sends (a ++ b) = sends a ++ sends b.
Proof.
  induction a as [|[] a IH]; cbn [app sends]; [reflexivity | now rewrite IH | ..];
    exact IH.
Qed.

Lemma calls_app a b : calls (a ++ b) = calls a ++ calls b.
Proof.
  induction a as [|[] a IH]; cbn [app calls]; try exact IH;
    [reflexivity | now rewrite IH].
Qed.

Lemma spawns_app a b : spawns (a ++ b) = spawns a ++ spawns b.
Proof.
  induction a as [|[] a IH]; cbn [app spawns]; try exact IH;
    [reflexivity | now rewrite IH].
Qed.

Lemma sent_to_app ws a b : sent_to ws (a ++ b) = sent_to ws a ++ sent_to ws b.
Proof.
  induction a as [|[] a IH]; cbn [app sent_to]; try exact IH; [reflexivity |].
  destruct (Nat.eqb to ws); [now rewrite IH | exact IH].
Qed.

End Traces.

Section Diff.

(** A stored empty text is not told apart from a missing one. *)
Lemma getFileDiff_falsy_baseline ws filePath w :
  originalFileContents w !! filePath = Some EmptyString
  \/ originalFileContents w !! filePath = None ->
  getFileDiff ws filePath w
  = (Ok tt, w,
     [Send ws
        (ErrorMsg
           ("Error generating diff: Error: No original content stored for "
            +:+ filePath))]).
Proof.
  intros [H | H]; unfold getFileDiff; run_monad; rewrite H; reflexivity.
Qed.

End Diff.

(** C9. When the snapshot stored for a path is the empty text, [getFileDiff]
    answers with the error of a missing snapshot, although the map has an
    entry for the path; the answer is the one given when the map has no
    entry. *)
Theorem getFileDiff_empty_baseline_is_no_baseline
    (ws : Client) (filePath : string) (w w' : World) :
  originalFileContents w !! filePath = Some EmptyString ->
  originalFileContents w' !! filePath = None ->
  getFileDiff ws filePath w
  = (Ok tt, w,
     [Send ws
        (ErrorMsg
           ("Error generating diff: Error: No original content stored for "
            +:+ filePath))])
  /\ events (getFileDiff ws filePath w) = events (getFileDiff ws filePath w').
Proof.
  intros H H'.
  rewrite (getFileDiff_falsy_baseline ws filePath w) by now left.
  rewrite (getFileDiff_falsy_baseline ws filePath w') by now right.
  split; reflexivity.
Qed.

(** C4. When the disk has no entry at the path, [modifyFile] answers with
    the error that the file does not exist and leaves the world as it was:
    nothing is written, no snapshot is stored, no [fileModified] is sent. *)
Theorem modifyFile_missing_file
    (ws : Client) (filePath content description : string) (w : World) :
  disk w !! Path.Uri_file filePath = None ->
  modifyFile ws filePath content description w
  = (Ok tt, w,
     [Call (OpModifyFile filePath content description);
      Send ws
        (ErrorMsg
           ("Error modifying file: Error: File does not exist: " +:+ filePath))]).
Proof.
  intros H. unfold modifyFile. run_monad. rewrite H. reflexivity.
Qed.

Section TestFileCreation.

Variable JSON_reformat : string -> JsonOutcome.
Variable anthropic_messages_create : string -> string -> ApiOutcome.


End TestFileCreation.


(** ** [createFile] *)

Lemma adds_directories_refl w : adds_directories w w.
Proof. split; [now destruct w | now left]. Qed.

Lemma adds_directories_trans w w1 w2 :
  adds_directories w w1 -> adds_directories w1 w2 -> adds_directories w w2.
Proof.
  intros [E1 H1] [E2 H2]. split.
  - rewrite E2, E1. reflexivity.
  - intros k. destruct (H2 k) as [-> | [Hn Hd]]; [apply H1 |].
    right. split; [| exact Hd].
    destruct (H1 k) as [<- | [? Habs]]; [exact Hn | congruence].
Qed.

Lemma adds_directories_insert w k :
  disk w !! k = None ->
  adds_directories w (set_disk (<[k := Directory]> (disk w)) w).
Proof.
  intros Hk. split; [reflexivity |]. intros k'. simpl.
  destruct (decide (k = k')) as [<- | Hne].
  - right. now rewrite lookup_insert_eq.
  - left. now rewrite lookup_insert_ne.
Qed.

Lemma adds_directories_keeps_file w w1 k c :
  adds_directories w w1 -> disk w !! k = Some (File c) ->
  disk w1 !! k = Some (File c).
Proof. intros [_ H] Hk. destruct (H k) as [-> | [? _]]; congruence. Qed.

(** The loop over the directory parts neither throws nor sends: a
    directory is created only where [stat] found nothing. *)
Lemma create_directories_runs parts currentPath w :
  exists w1,
    create_directories parts currentPath w = (Ok tt, w1, [])
    /\ adds_directories w w1.
Proof.
  revert currentPath w. induction parts as [|part parts IH]; intros currentPath w.
  - exists w. split; [reflexivity | apply adds_directories_refl].
  - cbn [create_directories].
    destruct (negb (Js.truthy part)); [apply IH |].
    set (p := if Js.truthy currentPath then _ else _).
    run_monad.
    destruct (disk w !! Path.Uri_file p) as [e|] eqn:E.
    + destruct (IH p w) as (w1 & -> & H1). exists w1. split; [reflexivity | exact H1].
    + rewrite E.
      destruct (IH p (set_disk (<[Path.Uri_file p := Directory]> (disk w)) w))
        as (w1 & -> & H1).
      exists w1. split; [reflexivity |].
      eapply adds_directories_trans;
        [apply (adds_directories_insert w (Path.Uri_file p) E) | exact H1].
Qed.

(** C2 (what the code does). On a path that holds a file, [createFile]
    does not fail: the error thrown after the successful [stat] is caught by
    the empty [catch] around it, the file is overwritten with the new
    content and [fileCreated] is sent. *)
Theorem createFile_existing_file_is_overwritten
    (ws : Client) (filePath old content : string) (w : World) :
  disk w !! Path.Uri_file filePath = Some (File old) ->
  exists w',
    createFile ws filePath content w
    = (Ok tt, w',
       [Call (OpCreateFile filePath content);
        ShowInformationMessage ("File created: " +:+ Path.basename filePath);
        Send ws (FileCreated filePath)])
    /\ disk w' !! Path.Uri_file filePath = Some (File content).
Proof.
  intros H. unfold createFile. run_monad. rewrite H. cbn [app].
  destruct (disk w !! Path.Uri_file (Path.dirname filePath)) as [e|] eqn:E.
  - rewrite H. eexists. split; [reflexivity |]. simpl. apply lookup_insert_eq.
  - destruct (create_directories_runs (Path.split (Path.dirname filePath) Path.slash)
                EmptyString w) as (w1 & -> & H1).
    rewrite (adds_directories_keeps_file _ _ _ _ H1 H).
    eexists. split; [reflexivity |]. simpl. apply lookup_insert_eq.
Qed.

(** ** The snapshot map *)

Section Snapshots.

Lemma document_at_set_originalFileContents p m w :
  document_at p (set_originalFileContents m w) = document_at p w.
Proof. reflexivity. Qed.

Lemma document_at_set_disk p d w : document_at p (set_disk d w) = document_at p w.
Proof. reflexivity. Qed.

Lemma getFileContent_from_disk ws filePath text w :
  document_at filePath w = None ->
  disk w !! Path.Uri_file filePath = Some (File text) ->
  getFileContent ws filePath w
  = (Ok tt,
     set_originalFileContents (<[filePath := text]> (originalFileContents w)) w,
     [Send ws
        (FileContent filePath (Path.basename filePath) text
           (Js.substring_from 1 (Path.extname filePath)))]).
Proof.
  intros Hdoc Hdisk. unfold getFileContent. run_monad.
  rewrite Hdoc, Hdisk. reflexivity.
Qed.

Lemma modifyFile_on_disk ws filePath old first content description w :
  document_at filePath w = None ->
  disk w !! Path.Uri_file filePath = Some (File old) ->
  originalFileContents w !! filePath = Some first ->
  modifyFile ws filePath content description w
  = (Ok tt,
     set_disk (<[Path.Uri_file filePath := File content]> (disk w)) w,
     [Call (OpModifyFile filePath content description);
      ShowInformationMessage
        ("File modified: " +:+ Path.basename filePath +:+ " - " +:+ description);
      Send ws (FileModified filePath)]).
Proof.
  intros Hdoc Hdisk Hsnap. unfold modifyFile. run_monad.
  rewrite Hdisk, Hsnap. cbn. rewrite Hdoc, Hdisk. reflexivity.
Qed.

Lemma getFileDiff_from_disk ws filePath first current w :
  document_at filePath w = None ->
  disk w !! Path.Uri_file filePath = Some (File current) ->
  originalFileContents w !! filePath = Some first ->
  Js.truthy first = true ->
  getFileDiff ws filePath w
  = (Ok tt, w,
     [Send ws (Diff filePath (Path.basename filePath) first current)]).
Proof.
  intros Hdoc Hdisk Hsnap Htrue. unfold getFileDiff. run_monad.
  rewrite Hsnap, Htrue. cbn. rewrite Hdoc, Hdisk. reflexivity.
Qed.

(** [getFileDiff] changes nothing. *)
Lemma getFileDiff_keeps_world ws filePath w :
  world (getFileDiff ws filePath w) = w.
Proof.
  unfold getFileDiff. run_monad.
  destruct (originalFileContents w !! filePath) as [first|]; [| reflexivity].
  destruct (Js.truthy first); [| reflexivity]. cbn.
  destruct (document_at filePath w); [reflexivity |].
  destruct (disk w !! Path.Uri_file filePath) as [[c|]|]; reflexivity.
Qed.

(** [modifyFile] stores a snapshot only where none is stored: what the map
    holds for any path stays. *)
Lemma modifyFile_keeps_snapshot ws filePath content description w p first :
  originalFileContents w !! p = Some first ->
  originalFileContents (world (modifyFile ws filePath content description w)) !! p
  = Some first.
Proof.
  intros Hp. unfold modifyFile. run_monad.
  destruct (disk w !! Path.Uri_file filePath) as [e|] eqn:Hdisk; [| exact Hp].
  cbn.
  destruct (bool_decide (is_Some (originalFileContents w !! filePath))) eqn:Hs; cbn.
  - destruct (document_at filePath w) as [doc|].
    + unfold applyEdit_replace_all. destruct (doc_readonly doc); cbn; exact Hp.
    + rewrite Hdisk. destruct e; cbn; exact Hp.
  - apply bool_decide_eq_false in Hs.
    assert (Hne : filePath <> p) by (intros ->; apply Hs; eauto).
    destruct (document_at filePath w) as [doc|] eqn:Hdoc; cbn.
    + rewrite document_at_set_originalFileContents, Hdoc.
      unfold applyEdit_replace_all.
      destruct (doc_readonly doc); cbn; now rewrite lookup_insert_ne.
    + rewrite Hdisk.
      destruct e;
        repeat (progress
                  (cbn;
                   rewrite ?document_at_set_originalFileContents, ?Hdoc, ?Hdisk));
        rewrite ?lookup_insert_ne by exact Hne; exact Hp.
Qed.

End Snapshots.

(** C3 (what the code does). [getFileContent] stores what it read without
    looking whether a snapshot is there, so the second read replaces the
    snapshot of the first: after read, modify, read, the diff reports the
    modified text as [originalContent], not the text of the first read. *)
Theorem second_read_overwrites_baseline
    (ws : Client) (filePath first content description : string) (w : World) :
  document_at filePath w = None ->
  disk w !! Path.Uri_file filePath = Some (File first) ->
  Js.truthy content = true ->
  sent_to ws (events (read_modify_read_diff ws filePath content description w))
  = [FileContent filePath (Path.basename filePath) first
       (Js.substring_from 1 (Path.extname filePath));
     FileModified filePath;
     FileContent filePath (Path.basename filePath) content
       (Js.substring_from 1 (Path.extname filePath));
     Diff filePath (Path.basename filePath) content content].
Proof.
  intros Hdoc Hdisk Htrue. unfold read_modify_read_diff.
  unfold bind at 1.
  rewrite (getFileContent_from_disk ws filePath first w Hdoc Hdisk).
  set (w1 := set_originalFileContents _ w).
  unfold bind at 1.
  rewrite (modifyFile_on_disk ws filePath first first content description w1);
    [| exact Hdoc | exact Hdisk | apply lookup_insert_eq].
  set (w2 := set_disk _ w1).
  assert (Hdisk2 : disk w2 !! Path.Uri_file filePath = Some (File content))
    by apply lookup_insert_eq.
  unfold bind at 1.
  rewrite (getFileContent_from_disk ws filePath content w2 Hdoc Hdisk2).
  set (w3 := set_originalFileContents _ w2).
  rewrite (getFileDiff_from_disk ws filePath content content w3);
    [| exact Hdoc | exact Hdisk2 | apply lookup_insert_eq | exact Htrue].
  cbn. rewrite Nat.eqb_refl. reflexivity.
Qed.

(** ** The preview renderer *)

Section Preview.

Variable JSON_reformat : string -> JsonOutcome.

(** The style sheet page is its three fixed parts around the file name and
    the content, both as they are. *)
Lemma css_preview_html_parts name content :
  css_preview_html name content
  = css_page_head +:+ name +:+ css_page_middle +:+ content +:+ css_page_tail.
Proof.
  unfold css_preview_html, css_page_head, css_page_middle, css_page_tail, Js.lines.
  cbn [Js.join_with]. rewrite !append_assoc. reflexivity.
Qed.

Lemma renderPreview_css ws filePath content w :
  Js.toLowerCase (Path.extname filePath) = ".css" ->
  read_current filePath w = (Ok content, w, []) ->
  renderPreview JSON_reformat ws filePath w
  = (Ok tt, w,
     [Send ws
        (Preview filePath (Path.basename filePath)
           (css_preview_html (Path.basename filePath) content))]).
Proof.
  intros Hext Hread. unfold renderPreview. cbv zeta.
  unfold bind, try_catch. rewrite Hread, Hext. reflexivity.
Qed.

(** The pages of a JSON file are never made: the first call of
    [escapeHtml] throws inside the [try], the handler of that [try] calls
    it again, and the outer handler reports the second exception. *)
Lemma renderPreview_json ws filePath content w :
  Js.toLowerCase (Path.extname filePath) = ".json" ->
  read_current filePath w = (Ok content, w, []) ->
  renderPreview JSON_reformat ws filePath w
  = (Ok tt, w,
     [Send ws (ErrorMsg "Error rendering preview: ReferenceError: g is not defined")]).
Proof.
  intros Hext Hread. unfold renderPreview. cbv zeta.
  unfold bind at 1. unfold try_catch at 1 2. rewrite Hread, Hext.
  change (is_component_ext ".json") with false.
  change (String.eqb ".json" ".html") with false.
  change (String.eqb ".json" ".css") with false.
  change (String.eqb ".json" ".json") with true.
  cbv iota. unfold JSON_parse_stringify, try_catch, bind.
  destruct (JSON_reformat content); reflexivity.
Qed.

(** With [devServer] unset, a component source is answered by the error of
    the unbound identifier; [startDevServer] is not reached. *)
Lemma renderPreview_component ws filePath content w :
  is_component_ext (Js.toLowerCase (Path.extname filePath)) = true ->
  read_current filePath w = (Ok content, w, []) ->
  devServer w = None ->
  renderPreview JSON_reformat ws filePath w
  = (Ok tt, w,
     [Send ws
        (ErrorMsg "Error rendering preview: ReferenceError: context is not defined")]).
Proof.
  intros Hext Hread Hdev. unfold renderPreview. cbv zeta.
  unfold bind, try_catch. rewrite Hread, Hext.
  unfold gets. rewrite Hdev. reflexivity.
Qed.

Lemma for_each_send_open m (cs : list (Client * bool)) w :
  for_each cs (fun c => if snd c then send (fst c) m else ret tt) w
  = (Ok tt, w, map (fun c => Send (fst c) m) (List.filter snd cs)).
Proof.
  revert w. induction cs as [|[c open] cs IH]; intros w; [reflexivity |].
  cbn [for_each]. unfold bind.
  destruct open; cbn [fst snd]; unfold send, emit, ret; rewrite IH; reflexivity.
Qed.

Lemma broadcast_run m w :
  broadcast m w
  = (Ok tt, w, map (fun c => Send (fst c) m) (List.filter snd (clients w))).
Proof.
  unfold broadcast, bind, gets. rewrite for_each_send_open. reflexivity.
Qed.

Local Arguments broadcast : simpl never.
Local Arguments package_json : simpl never.
Local Arguments index_html : simpl never.

Lemma spawns_broadcast m cs :
  spawns (map (fun c : Client * bool => Send (fst c) m) cs) = [].
Proof. induction cs; [reflexivity | exact IHcs]. Qed.

(** No path through [startDevServer] assigns [devServer]. *)
Lemma startDevServer_keeps_devServer context w :
  devServer (world (startDevServer context w)) = devServer w.
Proof.
  unfold startDevServer. run_monad.
  destruct (devServer w) as [h|] eqn:Hdev; [exact Hdev |].
  destruct (workspaceFolders w) as [|folder others]; [exact Hdev |].
  destruct (bool_decide _); cbn.
  - rewrite broadcast_run. exact Hdev.
  - repeat
      (match goal with
       | |- context [match ?m !! ?k with _ => _ end] => destruct (m !! k) as [[?|]|]
       | |- context [bool_decide ?P] => destruct (bool_decide P)
       end; cbn);
      rewrite ?broadcast_run; exact Hdev.
Qed.

(** With a workspace folder that has its [package.json], a start spawns the
    command and leaves the world as it was. *)
Lemma startDevServer_spawns context w folder others :
  devServer w = None ->
  workspaceFolders w = folder :: others ->
  is_Some (disk w !! Path.Uri_file (Path.join [folder_fsPath folder; "package.json"])) ->
  startDevServer context w
  = (Ok (Started (dev_server_command (folder_fsPath folder))), w,
     Spawn (dev_server_command (folder_fsPath folder))
     :: map (fun c => Send (fst c) (DevServerStarted "http://localhost:3001"))
          (List.filter snd (clients w))).
Proof.
  intros Hdev Hfolders Hpkg. unfold startDevServer. run_monad.
  rewrite Hdev, Hfolders. rewrite (bool_decide_eq_true_2 _ Hpkg). cbn.
  rewrite broadcast_run, app_nil_r. reflexivity.
Qed.

End Preview.

(** C5 (amended). The page made for a style sheet carries the file
    content as it is, with none of its characters escaped, between the line
    that opens the style block and the line that closes it: the page is the
    fixed text before the content, the content, and the fixed text after
    it. *)
Theorem css_preview_keeps_content_verbatim
    (JSON_reformat : string -> JsonOutcome)
    (ws : Client) (filePath content : string) (w : World) :
  read_current filePath w = (Ok content, w, []) ->
  Js.toLowerCase (Path.extname filePath) = ".css" ->
  renderPreview JSON_reformat ws filePath w
  = (Ok tt, w,
     [Send ws
        (Preview filePath (Path.basename filePath)
           (css_page_before (Path.basename filePath) +:+ content
            +:+ css_page_tail))]).
Proof.
  intros Hread Hext.
  rewrite (renderPreview_css JSON_reformat ws filePath content w Hext Hread).
  rewrite css_preview_html_parts. unfold css_page_before.
  now rewrite !append_assoc.
Qed.

(** C7 (what the code does). For a component source, with [devServer]
    unset, the renderer answers with the error of the unbound identifier
    [context]: no process is spawned and no page with an iframe is returned.
    [startDevServer] itself never stores the process in [devServer], so two
    starts in a row spawn two processes. *)
Theorem component_preview_neither_serves_nor_is_idempotent
    (JSON_reformat : string -> JsonOutcome)
    (ws : Client) (filePath content : string) (w : World)
    (context : ExtensionContext)
    (folder : WorkspaceFolder) (others : list WorkspaceFolder) :
  is_component_ext (Js.toLowerCase (Path.extname filePath)) = true ->
  read_current filePath w = (Ok content, w, []) ->
  devServer w = None ->
  workspaceFolders w = folder :: others ->
  is_Some (disk w !! Path.Uri_file (Path.join [folder_fsPath folder; "package.json"])) ->
  renderPreview JSON_reformat ws filePath w
  = (Ok tt, w,
     [Send ws
        (ErrorMsg "Error rendering preview: ReferenceError: context is not defined")])
  /\ devServer (world (startDevServer context w)) = None
  /\ spawns
       (events
          ((let! _ := startDevServer context in startDevServer context) w))
     = [dev_server_command (folder_fsPath folder);
        dev_server_command (folder_fsPath folder)].
Proof.
  intros Hext Hread Hdev Hfolders Hpkg. split; [| split].
  - now apply renderPreview_component with (content := content).
  - now rewrite startDevServer_keeps_devServer.
  - unfold bind.
    rewrite (startDevServer_spawns context w folder others Hdev Hfolders Hpkg).
    rewrite (startDevServer_spawns context w folder others Hdev Hfolders Hpkg).
    unfold events. cbn [snd]. rewrite spawns_app. cbn [spawns].
    rewrite !spawns_broadcast. reflexivity.
Qed.

(** ** The matcher makes progress *)

Section Matching.

Import Regex.

Ltac length_lia := cbn [length] in *; lia.

Lemma strip_prefix_length lit s s' :
  strip_prefix lit s = Some s' -> length s = length lit + length s'.
Proof.
  revert s. induction lit as [|a lit IH]; intros s H.
  - injection H as ->. reflexivity.
  - destruct s as [|b s]; [discriminate H |]. cbn in H.
    destruct (Ascii.eqb a b); [| discriminate H].
    cbn. now rewrite (IH s H).
Qed.

Lemma star_greedy_suffix p k s res :
  star_greedy p k s = Some res ->
  exists s', k s' = Some res /\ length s' <= length s.
Proof.
  induction s as [|a s IH]; cbn; intros H.
  - exists []. split; [exact H | length_lia].
  - destruct (p a).
    + destruct (star_greedy p k s) as [r|] eqn:E.
      * destruct (IH H) as (s' & Hk & Hle).
        exists s'. split; [exact Hk | cbn; length_lia].
      * exists (a :: s). split; [exact H | length_lia].
    + exists (a :: s). split; [exact H | length_lia].
Qed.

Lemma star_lazy_suffix p k s res :
  star_lazy p k s = Some res ->
  exists s', k s' = Some res /\ length s' <= length s.
Proof.
  induction s as [|a s IH]; cbn; intros H.
  - destruct (k []) eqn:E; [| discriminate H].
    exists []. split; [congruence | length_lia].
  - destruct (k (a :: s)) eqn:E.
    + exists (a :: s). split; [congruence | length_lia].
    + destruct (p a); [| discriminate H].
      destruct (IH H) as (s' & Hk & Hle).
      exists s'. split; [exact Hk | cbn; length_lia].
Qed.

Lemma star_suffix greedy p k s res :
  star greedy p k s = Some res ->
  exists s', k s' = Some res /\ length s' <= length s.
Proof.
  destruct greedy; [apply star_greedy_suffix | apply star_lazy_suffix].
Qed.

(** A successful match has called its continuation on a suffix of the
    input, a proper one when the expression takes input. *)
Lemma rmatch_progress r :
  forall s c k res,
    rmatch r s c k = Some res ->
    exists s' c',
      k s' c' = Some res
      /\ length s' <= length s
      /\ (takes_input r = true -> length s' < length s).
Proof.
  induction r as [p | lit | a IHa b IHb | a IHa b IHb | a IHa | g p | g p
                 | i a IHa | a IHa |]; intros s c k res H; cbn in H.
  - destruct s as [|x s]; [discriminate H |].
    destruct (p x); [| discriminate H].
    exists s, c. cbn. repeat split; [exact H | length_lia | length_lia].
  - destruct (strip_prefix (Js.chars lit) s) as [s'|] eqn:E; [| discriminate H].
    apply strip_prefix_length in E.
    exists s', c. repeat split; [exact H | length_lia |].
    cbn. intros Hlit. destruct lit; [discriminate Hlit |]. cbn in E. length_lia.
  - destruct (IHa _ _ _ _ H) as (s1 & c1 & H1 & Hle1 & Hlt1).
    destruct (IHb _ _ _ _ H1) as (s2 & c2 & H2 & Hle2 & Hlt2).
    exists s2, c2. repeat split; [exact H2 | length_lia |].
    cbn. intros Ht. apply orb_true_iff in Ht as [Ht | Ht];
      [specialize (Hlt1 Ht) | specialize (Hlt2 Ht)]; length_lia.
  - destruct (rmatch a s c k) as [r|] eqn:E.
    + injection H as ->.
      destruct (IHa _ _ _ _ E) as (s1 & c1 & H1 & Hle1 & Hlt1).
      exists s1, c1. repeat split; [exact H1 | length_lia |].
      cbn. intros Ht. apply andb_true_iff in Ht as [Ht _]. auto.
    + destruct (IHb _ _ _ _ H) as (s1 & c1 & H1 & Hle1 & Hlt1).
      exists s1, c1. repeat split; [exact H1 | length_lia |].
      cbn. intros Ht. apply andb_true_iff in Ht as [_ Ht]. auto.
  - destruct (rmatch a s c k) as [r|] eqn:E.
    + injection H as ->.
      destruct (IHa _ _ _ _ E) as (s1 & c1 & H1 & Hle1 & _).
      exists s1, c1. repeat split; [exact H1 | length_lia | discriminate].
    + exists s, c. repeat split; [exact H | length_lia | discriminate].
  - destruct (star_suffix _ _ _ _ _ H) as (s' & Hk & Hle).
    exists s', c. repeat split; [exact Hk | length_lia | discriminate].
  - destruct s as [|x s]; [discriminate H |].
    destruct (p x); [| discriminate H].
    destruct (star_suffix _ _ _ _ _ H) as (s' & Hk & Hle).
    exists s', c. cbn. repeat split; [exact Hk | length_lia | length_lia].
  - destruct (IHa _ _ _ _ H) as (s1 & c1 & H1 & Hle1 & Hlt1).
    exists s1, ((i, consumed s s1) :: c1). repeat split; [exact H1 | length_lia | exact Hlt1].
  - destruct (rmatch a s c (fun s' c' => Some (s', c'))) as [[s1 c1]|] eqn:E;
      [| discriminate H].
    exists s, c1. repeat split; [exact H | length_lia | discriminate].
  - destruct s as [|x s]; [| discriminate H].
    exists [], c. repeat split; [exact H | length_lia | discriminate].
Qed.

Lemma match_here_progress r s rest c :
  takes_input r = true ->
  match_here r s = Some (rest, c) -> length rest < length s.
Proof.
  intros Ht H. unfold match_here in H.
  destruct (rmatch_progress r _ _ _ _ H) as (s' & c' & Hk & _ & Hlt).
  injection Hk as -> _. auto.
Qed.

(** After a match of a pattern that takes input, [lastIndex] has moved. *)
Lemma search_progress r s from rest c :
  takes_input r = true ->
  search r s = Some (from, rest, c) -> length rest < length s.
Proof.
  intros Ht. induction s as [|x s IH]; cbn; intros H.
  - destruct (match_here r []) as [[rest' c']|] eqn:E; [| discriminate H].
    injection H as _ <- _. exact (match_here_progress r [] rest' c' Ht E).
  - destruct (match_here r (x :: s)) as [[rest' c']|] eqn:E.
    + injection H as _ <- _. exact (match_here_progress r (x :: s) rest' c' Ht E).
    + specialize (IH H). length_lia.
Qed.

Lemma filePatterns_take_input :
  Forall (fun pattern => takes_input pattern = true) filePatterns.
Proof. repeat constructor. Qed.

End Matching.

(** ** Every handler answers *)

Section Answers.

Variable ws : Client.

Lemma quiet_nil : quiet [].
Proof. split; reflexivity. Qed.

Lemma quiet_app a b : quiet a -> quiet b -> quiet (a ++ b).
Proof.
  intros [Ha1 Ha2] [Hb1 Hb2]. split.
  - now rewrite sends_app, Ha1, Hb1.
  - now rewrite calls_app, Ha2, Hb2.
Qed.

Lemma silent_ret {A} (a : A) : silent (ret a).
Proof. intros w. apply quiet_nil. Qed.

Lemma silent_throw {A} e : silent (@throw A e).
Proof. intros w. apply quiet_nil. Qed.

Lemma silent_gets {A} (f : World -> A) : silent (gets f).
Proof. intros w. apply quiet_nil. Qed.

Lemma silent_modify f : silent (modify f).
Proof. intros w. apply quiet_nil. Qed.

Lemma silent_showInformationMessage text : silent (showInformationMessage text).
Proof. intros w. split; reflexivity. Qed.

Lemma silent_showErrorMessage text : silent (showErrorMessage text).
Proof. intros w. split; reflexivity. Qed.

Lemma silent_bind {A B} (m : M A) (k : A -> M B) :
  silent m -> (forall a, silent (k a)) -> silent (bind m k).
Proof.
  intros Hm Hk w. unfold bind. specialize (Hm w).
  destruct (m w) as [[[a | e |] w1] ev1]; [| exact Hm | exact Hm].
  specialize (Hk a w1). destruct (k a w1) as [[[b | e |] w2] ev2];
    [now apply quiet_app | now apply quiet_app | exact Hk].
Qed.

Lemma silent_try_catch {A} (m : M A) (h : JsError -> M A) :
  silent m -> (forall e, silent (h e)) -> silent (try_catch m h).
Proof.
  intros Hm Hh w. unfold try_catch. specialize (Hm w).
  destruct (m w) as [[[a | e |] w1] ev1]; [exact Hm | | exact Hm].
  specialize (Hh e w1). destruct (h e w1) as [[[b | e' |] w2] ev2];
    [now apply quiet_app | now apply quiet_app | exact Hh].
Qed.

Lemma silent_fs_stat p : silent (fs_stat p).
Proof. intros w. unfold fs_stat. destruct (_ !! _); apply quiet_nil. Qed.

Lemma silent_fs_readFile p : silent (fs_readFile p).
Proof. intros w. unfold fs_readFile. destruct (_ !! _) as [[|]|]; apply quiet_nil. Qed.

Lemma silent_fs_writeFile p c : silent (fs_writeFile p c).
Proof. intros w. unfold fs_writeFile. destruct (_ !! _) as [[|]|]; apply quiet_nil. Qed.

Lemma silent_fs_createDirectory p : silent (fs_createDirectory p).
Proof.
  intros w. unfold fs_createDirectory. destruct (_ !! _) as [[|]|]; apply quiet_nil.
Qed.

Lemma silent_read_current p : silent (read_current p).
Proof.
  apply silent_bind; [apply silent_gets |].
  intros [doc|]; [apply silent_ret | apply silent_fs_readFile].
Qed.

Lemma silent_applyEdit_replace_all doc content :
  silent (applyEdit_replace_all doc content).
Proof.
  unfold applyEdit_replace_all. destruct (doc_readonly doc); [apply silent_ret |].
  apply silent_bind; [apply silent_modify | intros; apply silent_ret].
Qed.

Lemma silent_create_directories parts currentPath :
  silent (create_directories parts currentPath).
Proof.
  intros w. destruct (create_directories_runs parts currentPath w) as (w1 & -> & _).
  apply quiet_nil.
Qed.

Lemma silent_escapeHtml text : silent (escapeHtml text).
Proof. intros w. apply quiet_nil. Qed.

Lemma silent_JSON_parse_stringify JSON_reformat content :
  silent (JSON_parse_stringify JSON_reformat content).
Proof.
  intros w. unfold JSON_parse_stringify.
  destruct (JSON_reformat content); apply quiet_nil.
Qed.

Create HintDb handlers.

#[local] Hint Resolve silent_ret silent_throw silent_gets silent_modify
  silent_showInformationMessage silent_showErrorMessage silent_fs_stat
  silent_fs_readFile silent_fs_writeFile silent_fs_createDirectory
  silent_read_current silent_applyEdit_replace_all silent_create_directories
  silent_escapeHtml silent_JSON_parse_stringify
  : handlers.

(** Syntax-directed proof that a computation is silent. *)
Ltac silence :=
  repeat
    (intros;
     match goal with
     | |- silent (bind _ _) => apply silent_bind
     | |- silent (try_catch _ _) => apply silent_try_catch
     | |- silent (store_original _ _) => apply silent_modify
     | |- silent (find_document _) => apply silent_gets
     | |- silent (fs_existsSync _) => apply silent_gets
     | |- silent (if ?b then _ else _) => destruct b
     | |- silent (match ?x with _ => _ end) => destruct x
     | |- silent _ => solve [auto with handlers]
     end).

Section Predicate.

Variable P : OutMsg -> Prop.

Lemma answers_send msg : P msg -> answers ws P (send ws msg).
Proof. intros HP w. split; [reflexivity |]. exists msg. now split. Qed.

Lemma answers_throw {A} e : answers ws P (@throw A e).
Proof. intros w. apply quiet_nil. Qed.

Lemma answers_bind {A B} (m : M A) (k : A -> M B) :
  silent m -> (forall a, answers ws P (k a)) -> answers ws P (bind m k).
Proof.
  intros Hm Hk w. unfold bind. specialize (Hm w).
  destruct (m w) as [[[a | e |] w1] ev1]; [| exact Hm | exact Hm].
  specialize (Hk a w1). destruct Hm as [Hs Hc].
  destruct (k a w1) as [[[b | e |] w2] ev2].
  - rewrite sends_app, calls_app, Hs, Hc. exact Hk.
  - now apply quiet_app.
  - exact Hk.
Qed.

Lemma answers_try_catch {A} (m : M A) (h : JsError -> M A) :
  answers ws P m -> (forall e, answers ws P (h e)) -> answers ws P (try_catch m h).
Proof.
  intros Hm Hh w. unfold try_catch. specialize (Hm w).
  destruct (m w) as [[[a | e |] w1] ev1]; [exact Hm | | exact Hm].
  specialize (Hh e w1). destruct Hm as [Hs Hc].
  destruct (h e w1) as [[[b | e' |] w2] ev2].
  - rewrite sends_app, calls_app, Hs, Hc. exact Hh.
  - now apply quiet_app.
  - exact Hh.
Qed.

(** A [try] whose body answers and whose [catch] sends one message. *)
Lemma replies_try_catch (m : M unit) (h : JsError -> string) :
  answers ws P m -> (forall e, P (ErrorMsg (h e))) ->
  replies ws P [] (try_catch m (fun e => send ws (ErrorMsg (h e)))).
Proof.
  intros Hm HP w. unfold try_catch. specialize (Hm w).
  destruct (m w) as [[[[] | e |] w1] ev1]; [| | destruct Hm].
  - destruct Hm as [Hc (msg & Hs & Hmsg)]. now exists w1, ev1, msg.
  - destruct Hm as [Hs Hc]. unfold send, emit.
    exists w1, (ev1 ++ [Send ws (ErrorMsg (h e))]), (ErrorMsg (h e)).
    rewrite sends_app, calls_app, Hs, Hc. repeat split. apply HP.
Qed.

(** The entry into an applier, then the reply. *)
Lemma replies_after_call op (m : M unit) :
  replies ws P [] m -> replies ws P [op] (bind (emit (Call op)) (fun _ => m)).
Proof.
  intros Hm w. unfold bind, emit.
  destruct (Hm w) as (w' & evs & msg & -> & Hs & HP & Hc).
  exists w', (Call op :: evs), msg. repeat split; [exact Hs | exact HP |].
  cbn [app calls]. now rewrite Hc.
Qed.

End Predicate.

(** Syntax-directed proof that a computation answers. *)
Ltac answer :=
  repeat
    (intros;
     match goal with
     | |- answers _ _ (bind _ _) => apply answers_bind; [silence |]
     | |- answers _ _ (try_catch _ _) => apply answers_try_catch
     | |- answers _ _ (send _ _) => apply answers_send; try reflexivity; try exact I
     | |- answers _ _ (throw _) => apply answers_throw
     | |- answers _ _ (if ?b then _ else _) => destruct b
     | |- answers _ _ (match ?x with _ => _ end) => destruct x
     end).

Lemma modifyFile_replies filePath content description :
  replies ws ack [OpModifyFile filePath content description]
    (modifyFile ws filePath content description).
Proof.
  unfold modifyFile. apply replies_after_call.
  apply replies_try_catch; [| reflexivity].
  answer.
Qed.

Lemma createFile_replies filePath content :
  replies ws ack [OpCreateFile filePath content] (createFile ws filePath content).
Proof.
  unfold createFile. apply replies_after_call.
  apply replies_try_catch; [| reflexivity].
  answer.
Qed.

Lemma getFileContent_replies filePath :
  replies ws any_message [] (getFileContent ws filePath).
Proof.
  unfold getFileContent. apply replies_try_catch; [| intros; exact I].
  answer.
Qed.

Lemma getFileDiff_replies filePath : replies ws any_message [] (getFileDiff ws filePath).
Proof.
  unfold getFileDiff. apply replies_try_catch; [| intros; exact I].
  answer.
Qed.

Lemma testFileCreation_replies : replies ws any_message [] (testFileCreation ws).
Proof.
  unfold testFileCreation. apply replies_try_catch; [| intros; exact I].
  answer.
Qed.

Lemma sendWorkspaceInfo_replies : replies ws any_message [] (sendWorkspaceInfo ws).
Proof.
  unfold sendWorkspaceInfo. apply replies_try_catch; [| intros; exact I].
  unfold active_document. answer.
Qed.

Lemma renderPreview_replies JSON_reformat filePath :
  replies ws any_message [] (renderPreview JSON_reformat ws filePath).
Proof.
  unfold renderPreview. apply replies_try_catch; [| intros; exact I].
  cbv zeta. apply answers_bind; [silence |]. intros content.
  destruct (is_component_ext _).
  - apply answers_bind; [apply silent_gets |]. intros [h|].
    + answer.
    + apply answers_bind; [intros w; apply quiet_nil | answer].
  - answer.
Qed.

End Answers.

(** ** The appliers leave the workspace folders alone *)

Section Folders.

Lemma keeps_folders_bind {A B} (m : M A) (k : A -> M B) :
  keeps_folders m -> (forall a, keeps_folders (k a)) -> keeps_folders (bind m k).
Proof.
  intros Hm Hk w. unfold bind, world. specialize (Hm w). unfold world in Hm.
  destruct (m w) as [[[a | e |] w1] ev1]; cbn in *; try exact Hm.
  specialize (Hk a w1). unfold world in Hk.
  destruct (k a w1) as [[r w2] ev2]; cbn in *. congruence.
Qed.

Lemma keeps_folders_try_catch {A} (m : M A) (h : JsError -> M A) :
  keeps_folders m -> (forall e, keeps_folders (h e)) -> keeps_folders (try_catch m h).
Proof.
  intros Hm Hh w. unfold try_catch, world. specialize (Hm w). unfold world in Hm.
  destruct (m w) as [[[a | e |] w1] ev1]; cbn in *; try exact Hm.
  specialize (Hh e w1). unfold world in Hh.
  destruct (h e w1) as [[r w2] ev2]; cbn in *. congruence.
Qed.

Lemma keeps_folders_fs_stat p : keeps_folders (fs_stat p).
Proof. intros w. unfold fs_stat. now destruct (_ !! _). Qed.

Lemma keeps_folders_fs_readFile p : keeps_folders (fs_readFile p).
Proof. intros w. unfold fs_readFile. now destruct (_ !! _) as [[|]|]. Qed.

Lemma keeps_folders_fs_writeFile p c : keeps_folders (fs_writeFile p c).
Proof. intros w. unfold fs_writeFile. now destruct (_ !! _) as [[|]|]. Qed.

Lemma keeps_folders_fs_createDirectory p : keeps_folders (fs_createDirectory p).
Proof. intros w. unfold fs_createDirectory. now destruct (_ !! _) as [[|]|]. Qed.

Lemma keeps_folders_create_directories parts currentPath :
  keeps_folders (create_directories parts currentPath).
Proof.
  intros w. destruct (create_directories_runs parts currentPath w) as (w1 & -> & E & _).
  unfold world. cbn. now rewrite E.
Qed.

Lemma keeps_folders_applyEdit_replace_all doc content :
  keeps_folders (applyEdit_replace_all doc content).
Proof. intros w. unfold applyEdit_replace_all. now destruct (doc_readonly doc). Qed.

(** Syntax-directed proof that the folders are kept. *)
Ltac keep_folders :=
  repeat
    (intros;
     match goal with
     | |- keeps_folders (bind _ _) => apply keeps_folders_bind
     | |- keeps_folders (try_catch _ _) => apply keeps_folders_try_catch
     | |- keeps_folders (fs_stat _) => apply keeps_folders_fs_stat
     | |- keeps_folders (fs_readFile _) => apply keeps_folders_fs_readFile
     | |- keeps_folders (fs_writeFile _ _) => apply keeps_folders_fs_writeFile
     | |- keeps_folders (fs_createDirectory _) => apply keeps_folders_fs_createDirectory
     | |- keeps_folders (create_directories _ _) =>
         apply keeps_folders_create_directories
     | |- keeps_folders (applyEdit_replace_all _ _) =>
         apply keeps_folders_applyEdit_replace_all
     | |- keeps_folders (if ?b then _ else _) => destruct b
     | |- keeps_folders (match ?x with _ => _ end) => destruct x
     | |- keeps_folders _ => solve [intro; reflexivity]
     end).

Lemma keeps_folders_modifyFile ws filePath content description :
  keeps_folders (modifyFile ws filePath content description).
Proof. unfold modifyFile, read_current. keep_folders. Qed.

Lemma keeps_folders_createFile ws filePath content :
  keeps_folders (createFile ws filePath content).
Proof. unfold createFile. keep_folders. Qed.

End Folders.

(** ** The parser *)

Section Parser.

Variable ws : Client.

(** The [try] statement of the loop body: the applier that the disk
    decides is called and answers; the outer [catch] is not reached. *)
Lemma dispatch_runs absoluteFilePath filePath content performed w :
  exists w' evs msg,
    try_catch
      (let! _ :=
         try_catch
           (let! _ := fs_stat absoluteFilePath in
            modifyFile ws absoluteFilePath content "Updated by AI")
           (fun _ => createFile ws absoluteFilePath content) in
       ret true)
      (fun error =>
         let! _ :=
           send ws
             (ErrorMsg
                ("Error processing file " +:+ filePath +:+ ": "
                 +:+ error_toString error)) in
         ret performed) w
    = (Ok true, w', evs)
    /\ sends evs = [(ws, msg)]
    /\ is_ack msg = true
    /\ calls evs = [dispatched absoluteFilePath content w]
    /\ workspaceFolders w' = workspaceFolders w.
Proof.
  unfold dispatched. unfold try_catch at 1 2. unfold bind at 1 2. unfold fs_stat.
  destruct (disk w !! Path.Uri_file absoluteFilePath) as [e|].
  - pose proof (keeps_folders_modifyFile ws absoluteFilePath content "Updated by AI" w) as Hf.
    destruct (modifyFile_replies ws absoluteFilePath content "Updated by AI" w)
      as (w' & evs & msg & E & Hs & Hack & Hc).
    rewrite E in Hf |- *. exists w', evs, msg. cbn. rewrite app_nil_r.
    repeat split; [exact Hs | exact Hack | exact Hc | exact Hf].
  - pose proof (keeps_folders_createFile ws absoluteFilePath content w) as Hf.
    destruct (createFile_replies ws absoluteFilePath content w)
      as (w' & evs & msg & E & Hs & Hack & Hc).
    rewrite E in Hf |- *. exists w', evs, msg. cbn. rewrite app_nil_r.
    repeat split; [exact Hs | exact Hack | exact Hc | exact Hf].
Qed.

(** One round of the loop on a match with a path and a content, with a
    workspace folder open. *)
Lemma exec_loop_match fuel pattern rest from rest' m performed w folder others :
  Regex.search pattern rest = Some (from, rest', m) ->
  Js.truthy (Js.trim (Regex.group 1 m)) = true ->
  Js.truthy (Js.trim (Regex.group 2 m)) = true ->
  workspaceFolders w = folder :: others ->
  let filePath := Js.trim (Regex.group 1 m) in
  let content := Js.trim (Regex.group 2 m) in
  let absoluteFilePath :=
    if Path.isAbsolute filePath then filePath
    else Path.join [folder_fsPath folder; filePath] in
  exists w' evs msg,
    exec_loop (S fuel) ws pattern rest performed w
    = (let '(r, w2, ev2) := exec_loop fuel ws pattern rest' true w' in
       (r, w2, evs ++ ev2))
    /\ sends evs = [(ws, msg)]
    /\ is_ack msg = true
    /\ calls evs = [dispatched absoluteFilePath content w]
    /\ workspaceFolders w' = workspaceFolders w.
Proof.
  intros Hsearch Hpath Hcontent Hfolders filePath content absoluteFilePath.
  cbn [exec_loop]. rewrite Hsearch, Hpath, Hcontent. cbn [negb orb].
  unfold bind at 1. unfold gets at 1. rewrite Hfolders.
  fold filePath content absoluteFilePath.
  unfold bind at 1.
  destruct (dispatch_runs absoluteFilePath filePath content performed w)
    as (w' & evs & msg & E & Hs & Hack & Hc & Hf).
  rewrite E. exists w', evs, msg.
  split; [| repeat split; first [assumption | congruence]].
  destruct (exec_loop fuel ws pattern rest' true w') as [[r w2] ev2].
  reflexivity.
Qed.

Lemma exec_loop_no_match fuel pattern rest performed w :
  Regex.search pattern rest = None ->
  exec_loop (S fuel) ws pattern rest performed w = (Ok (Continue performed), w, []).
Proof. intros H. cbn [exec_loop]. now rewrite H. Qed.

Lemma acknowledges_ret {A} (a : A) : acknowledges ws (ret a).
Proof. intros w. exists a, w, [], []. repeat split. Qed.

(** The loop ends: each match moves [lastIndex], and the fuel is more than
    what is left of the message. *)
Lemma exec_loop_acknowledges pattern :
  Regex.takes_input pattern = true ->
  forall fuel rest performed,
    length rest < fuel ->
    acknowledges ws (exec_loop fuel ws pattern rest performed).
Proof.
  intros Ht. induction fuel as [|fuel IH]; intros rest performed Hlen; [lia |].
  cbn [exec_loop].
  destruct (Regex.search pattern rest) as [[[from rest'] m]|] eqn:Hsearch;
    [| apply acknowledges_ret].
  pose proof (search_progress pattern rest from rest' m Ht Hsearch) as Hlt.
  assert (Hfuel : length rest' < fuel) by lia.
  destruct (negb _ || negb _); [now apply IH |].
  intros w. unfold bind at 1. unfold gets at 1.
  destruct (workspaceFolders w) as [|folder others].
  - exists ReturnUndefined, w,
      [Send ws (ErrorMsg "No workspace folder is open")],
      [ErrorMsg "No workspace folder is open"].
    repeat split.
  - set (filePath := Js.trim (Regex.group 1 m)).
    set (content := Js.trim (Regex.group 2 m)).
    set (absoluteFilePath := if Path.isAbsolute filePath then _ else _).
    unfold bind at 1.
    destruct (dispatch_runs absoluteFilePath filePath content performed w)
      as (w' & evs & msg & E & Hs & Hack & _).
    rewrite E.
    destruct (IH rest' true Hfuel w') as (r & w2 & ev2 & acks & E2 & Hs2 & Hacks).
    rewrite E2. exists r, w2, (evs ++ ev2), (msg :: acks).
    split; [reflexivity |]. split.
    + now rewrite sends_app, Hs, Hs2.
    + cbn. now rewrite Hack.
Qed.

Lemma for_patterns_acknowledges patterns message performed :
  Forall (fun pattern => Regex.takes_input pattern = true) patterns ->
  acknowledges ws (for_patterns ws patterns message performed).
Proof.
  intros Hall. revert performed.
  induction Hall as [|pattern patterns Ht Hall IH]; intros performed;
    [apply acknowledges_ret |].
  cbn [for_patterns]. intros w. unfold bind.
  destruct (exec_loop_acknowledges pattern Ht (S (length message)) message performed
              (Nat.lt_succ_diag_r _) w)
    as (scan & w1 & ev1 & acks1 & -> & Hs1 & Hacks1).
  destruct scan as [performed' |].
  - destruct (IH performed' w1) as (r & w2 & ev2 & acks2 & -> & Hs2 & Hacks2).
    exists r, w2, (ev1 ++ ev2), (acks1 ++ acks2). split; [reflexivity |]. split.
    + now rewrite sends_app, Hs1, Hs2, map_app.
    + now rewrite forallb_app, Hacks1, Hacks2.
  - exists None, w1, (ev1 ++ []), acks1. split; [reflexivity |]. split.
    + now rewrite app_nil_r.
    + exact Hacks1.
Qed.

(** The parser returns for every response text, having sent
    acknowledgements only. *)
Lemma processAiResponseForFileOperations_acknowledges message :
  acknowledges ws (processAiResponseForFileOperations message ws).
Proof. apply for_patterns_acknowledges, filePatterns_take_input. Qed.

End Parser.

(** ** The chat handler and the router *)

Section Router.

Variable JSON_reformat : string -> JsonOutcome.
Variable anthropic_messages_create : string -> string -> ApiOutcome.
Variable ws : Client.

(** A chat request ends with the chat message or with an error, after the
    acknowledgements of the parser. *)
Lemma handleChatMessage_ends data w :
  exists w' evs acks final,
    handleChatMessage anthropic_messages_create ws data w = (Ok tt, w', evs)
    /\ sends evs = map (fun ack => (ws, ack)) acks ++ [(ws, final)]
    /\ forallb is_ack acks = true
    /\ is_chat_end final = true.
Proof.
  unfold handleChatMessage, try_catch, active_document.
  unfold bind at 1 2 3. unfold gets. cbn [app].
  destruct (anthropic_messages_create _ _) as [responseText | e].
  - unfold bind, send, emit.
    destruct (data_executeMode data).
    + destruct (processAiResponseForFileOperations_acknowledges ws responseText w)
        as (r & w' & evs & acks & -> & Hs & Hacks).
      exists w', (evs ++ [Send ws (Chat responseText (Some true) r)]), acks,
        (Chat responseText (Some true) r).
      split; [reflexivity |]. rewrite sends_app, Hs. repeat split. exact Hacks.
    + exists w, [Send ws (Chat responseText (Some false) (Some false))], [],
        (Chat responseText (Some false) (Some false)).
      repeat split.
  - exists w, [Send ws (ErrorMsg ("Error processing chat message: " +:+ error_message e))],
      [], (ErrorMsg ("Error processing chat message: " +:+ error_message e)).
    repeat split.
Qed.

Lemma try_catch_returns {A} (m : M A) h w a w' evs :
  m w = (Ok a, w', evs) -> try_catch m h w = (Ok a, w', evs).
Proof. intros H. unfold try_catch. now rewrite H. Qed.

(** A request that is not a chat request gets one message. *)
Lemma onMessage_replies_once data :
  data_type data <> "chat" ->
  replies_once ws (onMessage JSON_reformat anthropic_messages_create ws (Some data)).
Proof.
  intros Hchat w. unfold onMessage.
  destruct (String.eqb_spec (data_type data) "chat") as [E | _]; [contradiction |].
  assert (Hone : forall P ops m h,
            replies ws P ops m ->
            exists w' evs msg,
              try_catch m h w = (Ok tt, w', evs) /\ sends evs = [(ws, msg)]).
  { intros P ops m h Hm. destruct (Hm w) as (w' & evs & msg & E & Hs & _).
    exists w', evs, msg. split; [now apply try_catch_returns | exact Hs]. }
  repeat
    match goal with
    | |- context [if String.eqb ?a ?b then _ else _] => destruct (String.eqb a b)
    end.
  - eapply Hone, sendWorkspaceInfo_replies.
  - eapply Hone, getFileContent_replies.
  - eapply Hone, modifyFile_replies.
  - eapply Hone, createFile_replies.
  - eapply Hone, renderPreview_replies.
  - eapply Hone, getFileDiff_replies.
  - eapply Hone, testFileCreation_replies.
  - do 3 eexists. split; reflexivity.
Qed.

End Router.

(** C8. The router returns for every well-formed message.  What it sends
    goes to the requesting connection: acknowledgements of file operations
    (none unless the request is a chat request), then one last message,
    which for a chat request is the chat message or an error.  The handler
    of [renderPreview] is among those that send one message: with
    [devServer] unset it fails on the unbound identifier before the dev
    server is started, so the broadcast of [startDevServer] is not
    reached. *)
Theorem router_sends_one_message_after_acknowledgements
    (JSON_reformat : string -> JsonOutcome)
    (anthropic_messages_create : string -> string -> ApiOutcome)
    (ws : Client) (data : Data) (w : World) :
  exists w' evs acks final,
    onMessage JSON_reformat anthropic_messages_create ws (Some data) w
    = (Ok tt, w', evs)
    /\ sends evs = map (fun ack => (ws, ack)) acks ++ [(ws, final)]
    /\ forallb is_ack acks = true
    /\ (data_type data <> "chat" -> acks = [])
    /\ (data_type data = "chat" -> is_chat_end final = true).
Proof.
  destruct (String.eqb_spec (data_type data) "chat") as [E | E].
  - destruct (handleChatMessage_ends anthropic_messages_create ws data w)
      as (w' & evs & acks & final & Hrun & Hs & Hacks & Hend).
    exists w', evs, acks, final.
    split; [| split; [exact Hs | split; [exact Hacks | split]]].
    + unfold onMessage. rewrite E. now apply try_catch_returns.
    + intros Hne. contradiction.
    + intros _. exact Hend.
  - destruct (onMessage_replies_once JSON_reformat anthropic_messages_create ws data E w)
      as (w' & evs & msg & Hrun & Hs).
    exists w', evs, [], msg.
    split; [exact Hrun | split; [exact Hs | split; [reflexivity | split]]].
    + reflexivity.
    + intros Heq. contradiction.
Qed.

(** ** Lengths of paths *)

Section PathLengths.

Import Path.

Lemma length_str l : String.length (Js.str l) = length l.
Proof.
  unfold Js.str. induction l as [|c l IH]; [reflexivity |].
  cbn [string_of_list_ascii String.length length]. now rewrite IH.
Qed.

Lemma length_chars s : length (Js.chars s) = String.length s.
Proof.
  unfold Js.chars. induction s as [|c s IH]; [reflexivity |].
  cbn [list_ascii_of_string String.length length]. now rewrite IH.
Qed.

Lemma chars_append a b : Js.chars (a +:+ b) = Js.chars a ++ Js.chars b.
Proof.
  unfold Js.chars. induction a as [|c a IH]; [reflexivity |].
  rewrite append_cons. cbn [list_ascii_of_string app]. now rewrite IH.
Qed.

Lemma length_append (a b : string) :
  String.length (a +:+ b) = String.length a + String.length b.
Proof.
  induction a as [|c a IH]; [reflexivity |].
  rewrite append_cons. cbn [String.length]. now rewrite IH.
Qed.

Lemma total_app a b : total (a ++ b) = total a + total b.
Proof. induction a as [|x a IH]; cbn; [reflexivity | rewrite IH; lia]. Qed.

Lemma total_rev a : total (rev a) = total a.
Proof. induction a as [|x a IH]; cbn; [reflexivity |]. rewrite total_app, IH. cbn. lia. Qed.

Lemma empties_app a b : empties (a ++ b) = empties a + empties b.
Proof. induction a as [|[|c x] a IH]; cbn; [reflexivity | rewrite IH; lia | exact IH]. Qed.

Lemma split_on_cons_sep l : split_on slash (slash :: l) = [] :: split_on slash l.
Proof. reflexivity. Qed.

Lemma split_on_not_nil c l : split_on c l <> [].
Proof.
  destruct l as [|a l]; cbn; [discriminate |].
  destruct (Ascii.eqb a c); [discriminate |].
  destruct (split_on c l); discriminate.
Qed.

Lemma split_on_app c a b :
  split_on c (a ++ c :: b) = split_on c a ++ split_on c b.
Proof.
  induction a as [|x a IH]; cbn [app split_on].
  - now rewrite Ascii.eqb_refl.
  - rewrite IH. destruct (Ascii.eqb x c); [reflexivity |].
    pose proof (split_on_not_nil c a) as Hne.
    destruct (split_on c a) as [|seg rest]; [congruence | reflexivity].
Qed.

Lemma total_split_on c l : total (split_on c l) = S (length l).
Proof.
  induction l as [|a l IH]; [reflexivity |]. cbn [split_on].
  destruct (Ascii.eqb a c).
  - cbn. rewrite IH. reflexivity.
  - pose proof (split_on_not_nil c l) as Hne.
    destruct (split_on c l) as [|seg rest]; [congruence |].
    cbn in *. lia.
Qed.

Lemma normalize_segments_total allowAboveRoot segs :
  forall stack,
    total (normalize_segments allowAboveRoot stack segs) + empties segs
    <= total stack + total segs.
Proof.
  induction segs as [|seg segs IH]; intros stack; [cbn; lia |].
  destruct seg as [|c seg].
  - cbn [normalize_segments]. change (seg_eqb [] []) with true. cbn [orb].
    specialize (IH stack). cbn [empties total length]. lia.
  - cbn [normalize_segments]. change (seg_eqb (c :: seg) []) with false.
    cbn [orb empties total].
    destruct (seg_eqb (c :: seg) [dot]); [specialize (IH stack); lia |].
    destruct (seg_eqb (c :: seg) [dot; dot]).
    + destruct stack as [|top below].
      * destruct allowAboveRoot.
        -- specialize (IH [c :: seg]). cbn [total] in IH. lia.
        -- specialize (IH []). cbn [total] in IH. lia.
      * destruct (seg_eqb top [dot; dot]).
        -- destruct allowAboveRoot.
           ++ specialize (IH ((c :: seg) :: top :: below)). cbn [total] in *. lia.
           ++ specialize (IH (top :: below)). cbn [total] in *. lia.
        -- specialize (IH below). cbn [total] in *. lia.
    + specialize (IH ((c :: seg) :: stack)). cbn [total] in *. lia.
Qed.

Lemma join_segments_length segs :
  segs <> [] -> S (length (join_segments segs)) = total segs.
Proof.
  induction segs as [|seg segs IH]; [congruence |]. intros _.
  destruct segs as [|seg' segs].
  - cbn. lia.
  - change (join_segments (seg :: seg' :: segs))
      with (seg ++ slash :: join_segments (seg' :: segs)).
    rewrite length_app. cbn [length total] in *.
    specialize (IH ltac:(discriminate)). lia.
Qed.

Lemma ends_with_slash_snoc l :
  ends_with_slash l = true -> exists l', l = l' ++ [slash].
Proof.
  unfold ends_with_slash. destruct (rev l) as [|x r] eqn:Hr; [discriminate |].
  intros Hx. apply Ascii.eqb_eq in Hx. subst x.
  exists (rev r). rewrite <- (rev_involutive l), Hr. reflexivity.
Qed.

Lemma empties_trailing l :
  ends_with_slash l = true -> 1 <= empties (split_on slash l).
Proof.
  intros H. destruct (ends_with_slash_snoc l H) as [l' ->].
  rewrite split_on_app, empties_app. cbn. lia.
Qed.

(** A leading and a trailing slash each leave an empty segment. *)
Lemma empties_bound c l :
  (if is_slash c then 1 else 0) + (if ends_with_slash (c :: l) then 1 else 0)
  <= empties (split_on slash (c :: l)).
Proof.
  destruct (is_slash c) eqn:Hc.
  - apply Ascii.eqb_eq in Hc. subst c. rewrite split_on_cons_sep. cbn [empties].
    destruct (ends_with_slash (slash :: l)) eqn:Ht; [| lia].
    destruct l as [|a l]; [cbn; lia |].
    assert (Hl : ends_with_slash (a :: l) = true).
    { destruct (ends_with_slash_snoc _ Ht) as [l' E].
      destruct l' as [|x l']; [discriminate E |].
      injection E as _ E. rewrite E. unfold ends_with_slash.
      rewrite rev_app_distr. reflexivity. }
    pose proof (empties_trailing _ Hl). lia.
  - destruct (ends_with_slash (c :: l)) eqn:Ht; [| lia].
    pose proof (empties_trailing _ Ht). lia.
Qed.

(** [path.normalize] does not lengthen a path that is not empty. *)
Lemma normalize_length p :
  p <> EmptyString -> String.length (normalize p) <= String.length p.
Proof.
  destruct p as [|c p]; [congruence |]. intros _.
  unfold normalize. cbv zeta.
  change (Js.chars (String c p)) with (c :: Js.chars p).
  change (isAbsolute (String c p)) with (is_slash c).
  pose proof (normalize_segments_total (negb (is_slash c))
                (split_on slash (c :: Js.chars p)) []) as Ht.
  rewrite total_split_on in Ht. cbn [total] in Ht.
  pose proof (empties_bound c (Js.chars p)) as He.
  cbn [String.length]. rewrite <- (length_chars p).
  set (stack := normalize_segments _ _ _) in *.
  destruct (join_segments (rev stack)) as [|b body] eqn:Hbody.
  - destruct (is_slash c) eqn:Hc; [cbn; lia |].
    destruct (ends_with_slash (c :: Js.chars p)) eqn:Htr; [| cbn; lia].
    destruct (Js.chars p) as [|x l]; [| cbn; lia].
    unfold ends_with_slash in Htr. cbn in Htr. congruence.
  - assert (Hne : rev stack <> []) by (intros E; rewrite E in Hbody; discriminate).
    pose proof (join_segments_length _ Hne) as Hj.
    rewrite total_rev, Hbody in Hj. cbn [length] in *.
    destruct (is_slash c), (ends_with_slash (c :: Js.chars p));
      rewrite length_str; cbn [length]; rewrite ?length_app; cbn [length]; lia.
Qed.

Lemma join_length a b :
  a <> EmptyString -> b <> EmptyString ->
  String.length (join [a; b]) <= String.length a + 1 + String.length b.
Proof.
  intros Ha Hb. unfold join. destruct a as [|x a]; [congruence |].
  destruct b as [|y b]; [congruence |]. cbn [joined].
  etransitivity; [apply normalize_length; discriminate |].
  rewrite !length_append. cbn [String.length]. lia.
Qed.

Lemma drop_while_length f l : length (drop_while f l) <= length l.
Proof.
  induction l as [|c l IH]; [reflexivity |]. cbn [drop_while].
  destruct (f c); cbn [length]; lia.
Qed.

Lemma dirname_length p :
  String.length (dirname p) <= Nat.max 1 (String.length p).
Proof.
  destruct p as [|c0 rest]; [vm_compute; lia |]. unfold dirname.
  set (r := drop_while _ (drop_while _ _)).
  assert (Hr : length r <= String.length rest).
  { subst r. etransitivity; [apply drop_while_length |].
    etransitivity; [apply drop_while_length |].
    now rewrite length_rev, length_chars. }
  cbn [String.length]. destruct r as [|x before].
  - destruct (is_slash c0); cbn; lia.
  - cbn [length] in Hr.
    destruct (is_slash c0 && Nat.eqb (length (x :: before)) 1).
    + cbn. lia.
    + cbn [String.length]. rewrite length_str, length_rev. lia.
Qed.

Lemma Uri_file_length p :
  String.length p <= String.length (Uri_file p) <= S (String.length p).
Proof.
  unfold Uri_file. destruct (isAbsolute p); [lia |].
  rewrite length_append. cbn. lia.
Qed.

Lemma normalize_segments_app allowAboveRoot a b :
  forall stack,
    normalize_segments allowAboveRoot stack (a ++ b)
    = normalize_segments allowAboveRoot
        (normalize_segments allowAboveRoot stack a) b.
Proof.
  induction a as [|seg a IH]; intros stack; [reflexivity |].
  cbn [app normalize_segments].
  destruct (seg_eqb seg [] || seg_eqb seg [dot]); [apply IH |].
  destruct (seg_eqb seg [dot; dot]); [| apply IH].
  destruct stack as [|top below]; [apply IH |].
  destruct (seg_eqb top [dot; dot]); apply IH.
Qed.

Lemma ends_with_slash_app a b :
  b <> [] -> ends_with_slash (a ++ b) = ends_with_slash b.
Proof.
  intros Hb. unfold ends_with_slash. rewrite rev_app_distr.
  destruct (rev b) as [|x r] eqn:Hr; [| reflexivity].
  apply (f_equal (@rev ascii)) in Hr. rewrite rev_involutive in Hr.
  now destruct Hb.
Qed.

(** The length of a normalised path that ends in the relative tail [x]:
    what the stack of segments holds, with a slash before it when the path
    is absolute. *)
Lemma normalize_tail_length c f x :
  Js.chars x <> [] -> ends_with_slash (Js.chars x) = false ->
  let stack :=
    normalize_segments (negb (is_slash c))
      (normalize_segments (negb (is_slash c)) [] (split_on slash (c :: Js.chars f)))
      (split_on slash (Js.chars x)) in
  1 < total stack ->
  S (String.length (normalize (String c f +:+ "/" +:+ x)))
  = (if is_slash c then 1 else 0) + total stack.
Proof.
  intros Hx Htr stack Hne. unfold normalize. rewrite append_cons. cbv zeta.
  change (isAbsolute (String c (f +:+ "/" +:+ x))) with (is_slash c).
  change (Js.chars (String c (f +:+ "/" +:+ x)))
    with (c :: Js.chars (f +:+ "/" +:+ x)).
  rewrite !chars_append.
  change (Js.chars "/" ++ Js.chars x) with (slash :: Js.chars x).
  change (c :: Js.chars f ++ slash :: Js.chars x)
    with ((c :: Js.chars f) ++ slash :: Js.chars x).
  rewrite split_on_app, normalize_segments_app. fold stack.
  rewrite (ends_with_slash_app (c :: Js.chars f) (slash :: Js.chars x))
    by discriminate.
  assert (Htr' : ends_with_slash (slash :: Js.chars x) = false).
  { change (slash :: Js.chars x) with ([slash] ++ Js.chars x).
    now rewrite ends_with_slash_app. }
  rewrite Htr'.
  assert (Hrev : rev stack <> []).
  { intros E. apply (f_equal (@rev _)) in E. rewrite rev_involutive in E.
    rewrite E in Hne. cbn in Hne. lia. }
  pose proof (join_segments_length _ Hrev) as Hj. rewrite total_rev in Hj.
  destruct (join_segments (rev stack)) as [|b body] eqn:Hbody.
  - cbn [length] in Hj. lia.
  - rewrite <- Hj. destruct (is_slash c); rewrite length_str; cbn [length]; lia.
Qed.

(** The path of the second pattern's match is five characters longer than
    the path of the first one's, whatever the folder. *)
Lemma scenario_paths_length f :
  String.length (join [f; "js // foo.js"])
  = String.length (join [f; "foo.js"]) + 5.
Proof.
  destruct f as [|c f]; [reflexivity |].
  unfold join. cbn [joined].
  pose proof (normalize_tail_length c f "foo.js" ltac:(discriminate) eq_refl) as H1.
  pose proof (normalize_tail_length c f "js // foo.js" ltac:(discriminate) eq_refl)
    as H2.
  cbv zeta in H1, H2.
  set (stack := normalize_segments _ [] _) in *.
  change (normalize_segments (negb (is_slash c)) stack (split_on slash (Js.chars "foo.js")))
    with (Js.chars "foo.js" :: stack) in H1.
  change (normalize_segments (negb (is_slash c)) stack
            (split_on slash (Js.chars "js // foo.js")))
    with (Js.chars " foo.js" :: Js.chars "js " :: stack) in H2.
  cbn [total] in H1, H2.
  change (length (Js.chars "foo.js")) with 6 in H1.
  change (length (Js.chars " foo.js")) with 7 in H2.
  change (length (Js.chars "js ")) with 3 in H2.
  specialize (H1 ltac:(lia)). specialize (H2 ltac:(lia)).
  lia.
Qed.

End PathLengths.

(** ** The keys that [createFile] writes *)

Section CreateFileKeys.

Variable ws : Client.

Lemma weight_split (segs : list (list ascii)) :
  list_sum (map (fun part => S (String.length part)) (map Js.str segs)) = total segs.
Proof.
  induction segs as [|seg segs IH]; [reflexivity |].
  change (S (String.length (Js.str seg))
          + list_sum (map (fun part => S (String.length part)) (map Js.str segs))
          = total (seg :: segs)).
  rewrite IH, length_str. reflexivity.
Qed.

(** The loop over the directory parts leaves the disk as it is at every key
    longer than the paths it builds. *)
Lemma create_directories_long_keys parts :
  forall currentPath w k,
    String.length currentPath
    + list_sum (map (fun part => S (String.length part)) parts) + 1
    < String.length k ->
    disk (world (create_directories parts currentPath w)) !! k = disk w !! k.
Proof.
  induction parts as [|part parts IH]; intros currentPath w k Hk; [reflexivity |].
  cbn [create_directories].
  assert (Hsum : list_sum (map (fun part => S (String.length part)) (part :: parts))
                 = S (String.length part)
                   + list_sum (map (fun part => S (String.length part)) parts))
    by reflexivity.
  rewrite Hsum in Hk. clear Hsum.
  destruct (Js.truthy part) eqn:Hpart; cbn [negb]; [| apply IH; lia].
  set (p := if Js.truthy currentPath then _ else _).
  assert (Hp : String.length p <= String.length currentPath + 1 + String.length part).
  { subst p. destruct (Js.truthy currentPath) eqn:Hc; [| lia].
    apply join_length; intros ->; discriminate. }
  pose proof (Uri_file_length p) as [_ Hu].
  assert (Hne : Path.Uri_file p <> k) by (intros <-; lia).
  run_monad.
  destruct (disk w !! Path.Uri_file p) as [e|] eqn:E.
  - destruct (create_directories_runs parts p w) as (w1 & E1 & _).
    pose proof (IH p w k ltac:(lia)) as H. rewrite E1 in H |- *. exact H.
  - rewrite E.
    set (w0 := set_disk _ w).
    destruct (create_directories_runs parts p w0) as (w1 & E1 & _).
    pose proof (IH p w0 k ltac:(lia)) as H. rewrite E1 in H |- *.
    cbn [fst snd] in *. rewrite H. subst w0. unfold set_disk. cbn [disk].
    now rewrite lookup_insert_ne.
Qed.

(** [createFile] leaves the disk as it is at every key that is more than
    three characters longer than its path. *)
Lemma createFile_long_keys filePath content w k :
  String.length filePath + 3 < String.length k ->
  disk (world (createFile ws filePath content w)) !! k = disk w !! k.
Proof.
  intros Hk.
  pose proof (Uri_file_length filePath) as [_ Hu].
  assert (Hne : Path.Uri_file filePath <> k) by (intros <-; lia).
  assert (Hwrite : forall w0,
             disk (world (fs_writeFile filePath content w0)) !! k = disk w0 !! k).
  { intros w0. unfold fs_writeFile, world.
    destruct (disk w0 !! Path.Uri_file filePath) as [[c|]|]; cbn [fst snd];
      unfold set_disk; cbn [disk]; rewrite ?lookup_insert_ne by exact Hne;
      reflexivity. }
  assert (Hdirs : forall w0,
             disk (world (create_directories
                            (Path.split (Path.dirname filePath) Path.slash)
                            EmptyString w0)) !! k
             = disk w0 !! k).
  { intros w0. apply create_directories_long_keys.
    unfold Path.split. rewrite weight_split, total_split_on, length_chars.
    pose proof (dirname_length filePath). cbn [String.length]. lia. }
  unfold createFile, bind at 1, emit. unfold try_catch at 1, bind at 1.
  unfold try_catch at 1.
  assert (Hstat : exists r,
             (let! _ := fs_stat filePath in
              @throw unit (Error_ ("File already exists: " +:+ filePath))) w
             = (r, w, []) /\ r <> Hang /\ forall a, r <> Ok a).
  { unfold bind, fs_stat, throw.
    destruct (disk w !! Path.Uri_file filePath);
      eexists; (split; [reflexivity | split; [discriminate | intros a; discriminate]]). }
  destruct Hstat as (r & -> & Hr1 & Hr2).
  destruct r as [a | e |]; [now destruct (Hr2 a) | | congruence].
  cbn [ret app]. unfold bind at 1. unfold try_catch at 1. unfold bind at 1.
  unfold fs_stat at 1.
  destruct (disk w !! Path.Uri_file (Path.dirname filePath)) as [e'|] eqn:Edir.
  - cbn [ret app]. unfold bind at 1. specialize (Hwrite w). unfold world in Hwrite.
    destruct (fs_writeFile filePath content w) as [[[[] | e1 |] w1] ev1] eqn:Ew;
      cbn [fst snd] in *; run_monad; exact Hwrite.
  - destruct (create_directories_runs (Path.split (Path.dirname filePath) Path.slash)
                EmptyString w) as (w1 & E1 & _).
    specialize (Hdirs w). rewrite E1 in Hdirs |- *. unfold world in Hdirs.
    cbn [fst snd app] in *. unfold bind at 1.
    specialize (Hwrite w1). unfold world in Hwrite.
    destruct (fs_writeFile filePath content w1) as [[[[] | e1 |] w2] ev2] eqn:Ew;
      cbn [fst snd] in *; run_monad; congruence.
Qed.

End CreateFileKeys.

(** ** The parser scenario *)

Section Scenario.

Lemma scenario_comment_match :
  Regex.search pattern_comment (Js.chars scenario_response)
  = Some (Js.chars scenario_response, [],
          [(2, Js.chars ("console.log(1)" +:+ Js.nl)); (1, Js.chars "foo.js")]).
Proof. vm_compute. reflexivity. Qed.

(** The second pattern matches the same block: its name group runs from
    the language tag to the extension. *)
Lemma scenario_fence_match :
  Regex.search pattern_fence (Js.chars scenario_response)
  = Some (Js.chars scenario_response, [],
          [(2, Js.chars ("console.log(1)" +:+ Js.nl)); (1, Js.chars "js // foo.js")]).
Proof. vm_compute. reflexivity. Qed.

Lemma scenario_heading_no_match :
  Regex.search pattern_heading (Js.chars scenario_response) = None.
Proof. vm_compute. reflexivity. Qed.

Lemma scenario_length : length (Js.chars scenario_response) = 34.
Proof. reflexivity. Qed.

Variable ws : Client.

(** The [try] statement of the loop body on a path without an entry:
    [stat] throws and [createFile] runs. *)
Lemma dispatch_creates absoluteFilePath filePath content performed w :
  disk w !! Path.Uri_file absoluteFilePath = None ->
  try_catch
    (let! _ :=
       try_catch
         (let! _ := fs_stat absoluteFilePath in
          modifyFile ws absoluteFilePath content "Updated by AI")
         (fun _ => createFile ws absoluteFilePath content) in
     ret true)
    (fun error =>
       let! _ :=
         send ws
           (ErrorMsg
              ("Error processing file " +:+ filePath +:+ ": "
               +:+ error_toString error)) in
       ret performed) w
  = (Ok true, world (createFile ws absoluteFilePath content w),
     events (createFile ws absoluteFilePath content w)).
Proof.
  intros Hfree. unfold try_catch at 1 2. unfold bind at 1 2. unfold fs_stat.
  rewrite Hfree.
  destruct (createFile_replies ws absoluteFilePath content w)
    as (w' & evs & msg & E & _).
  rewrite E. cbn. now rewrite app_nil_r.
Qed.

(** One round of the loop on a usable match whose path has no entry. *)
Lemma exec_loop_match_create fuel pattern rest from rest' m performed w folder others :
  Regex.search pattern rest = Some (from, rest', m) ->
  Js.truthy (Js.trim (Regex.group 1 m)) = true ->
  Js.truthy (Js.trim (Regex.group 2 m)) = true ->
  workspaceFolders w = folder :: others ->
  let filePath := Js.trim (Regex.group 1 m) in
  let content := Js.trim (Regex.group 2 m) in
  let absoluteFilePath :=
    if Path.isAbsolute filePath then filePath
    else Path.join [folder_fsPath folder; filePath] in
  disk w !! Path.Uri_file absoluteFilePath = None ->
  exec_loop (S fuel) ws pattern rest performed w
  = (let '(r, w2, ev2) :=
       exec_loop fuel ws pattern rest' true
         (world (createFile ws absoluteFilePath content w)) in
     (r, w2, events (createFile ws absoluteFilePath content w) ++ ev2)).
Proof.
  intros Hsearch Hpath Hcontent Hfolders filePath content absoluteFilePath Hfree.
  cbn [exec_loop]. rewrite Hsearch, Hpath, Hcontent. cbn [negb orb].
  unfold bind at 1. unfold gets at 1. rewrite Hfolders.
  fold filePath content absoluteFilePath.
  unfold bind at 1.
  rewrite (dispatch_creates absoluteFilePath filePath content performed w Hfree).
  destruct (exec_loop fuel ws pattern rest' true _) as [[r w2] ev2].
  reflexivity.
Qed.

(** The first applier of the scenario leaves the disk as it is at the path
    of the second one. *)
Lemma scenario_second_path_untouched content w root :
  disk (world (createFile ws (Path.join [root; "foo.js"]) content w))
    !! Path.Uri_file (Path.join [root; "js // foo.js"])
  = disk w !! Path.Uri_file (Path.join [root; "js // foo.js"]).
Proof.
  apply createFile_long_keys.
  pose proof (Uri_file_length (Path.join [root; "js // foo.js"])) as [Hu _].
  pose proof (scenario_paths_length root). lia.
Qed.

End Scenario.

(** C1 (amended). On the response with the one fenced block, with a
    workspace folder open and no [foo.js] in it, the parser calls
    [createFile] for [foo.js] in the first folder with the content
    [console.log(1)] and then, because the second pattern matches the same
    block with the name [js // foo.js], one more applier for that name in
    the first folder, with the same content: [createFile] when the disk
    holds no entry at that path, [modifyFile] with the description
    [Updated by AI] when it holds one.  These are the two calls, and the
    result is [true]. *)
Theorem parser_scenario_dispatches_two_operations
    (ws : Client) (w : World)
    (folder : WorkspaceFolder) (others : list WorkspaceFolder) :
  workspaceFolders w = folder :: others ->
  disk w !! Path.Uri_file (Path.join [folder_fsPath folder; "foo.js"]) = None ->
  let run := processAiResponseForFileOperations scenario_response ws w in
  let first := Path.join [folder_fsPath folder; "foo.js"] in
  let second := Path.join [folder_fsPath folder; "js // foo.js"] in
  result run = Ok (Some true)
  /\ (disk w !! Path.Uri_file second = None ->
      calls (events run)
      = [OpCreateFile first "console.log(1)";
         OpCreateFile second "console.log(1)"])
  /\ (is_Some (disk w !! Path.Uri_file second) ->
      calls (events run)
      = [OpCreateFile first "console.log(1)";
         OpModifyFile second "console.log(1)" "Updated by AI"]).
Proof.
  intros Hfolders Hfree run first second. subst run.
  unfold processAiResponseForFileOperations, filePatterns.
  cbn [for_patterns]. rewrite scenario_length.
  (* first pattern *)
  pose proof (exec_loop_match_create ws 34 pattern_comment _ _ _ _ false w folder others
                scenario_comment_match eq_refl eq_refl Hfolders) as E1.
  cbv zeta in E1.
  change (Js.trim (Regex.group 1 _)) with "foo.js" in E1.
  change (Js.trim (Regex.group 2 _)) with "console.log(1)" in E1.
  change (Path.isAbsolute "foo.js") with false in E1. cbv iota in E1.
  fold first in E1, Hfree. specialize (E1 Hfree).
  set (w1 := world (createFile ws first "console.log(1)" w)) in *.
  set (ev1 := events (createFile ws first "console.log(1)" w)) in *.
  assert (Hc1 : calls ev1 = [OpCreateFile first "console.log(1)"]).
  { subst ev1.
    destruct (createFile_replies ws first "console.log(1)" w)
      as (w' & evs & msg & E & _ & _ & Hc).
    now rewrite E. }
  assert (Hf1 : workspaceFolders w1 = folder :: others).
  { subst w1. now rewrite keeps_folders_createFile. }
  assert (Hsame : disk w1 !! Path.Uri_file second = disk w !! Path.Uri_file second)
    by apply scenario_second_path_untouched.
  rewrite (exec_loop_no_match ws 33 pattern_comment [] true w1 eq_refl) in E1.
  (* second pattern *)
  destruct (exec_loop_match ws 34 pattern_fence _ _ _ _ true w1 folder others
              scenario_fence_match eq_refl eq_refl Hf1)
    as (w2 & ev2 & msg2 & E2 & _ & _ & Hc2 & _).
  cbv zeta in E2, Hc2.
  change (Js.trim (Regex.group 1 _)) with "js // foo.js" in E2, Hc2.
  change (Js.trim (Regex.group 2 _)) with "console.log(1)" in E2, Hc2.
  change (Path.isAbsolute "js // foo.js") with false in E2, Hc2. cbv iota in E2, Hc2.
  fold second in Hc2.
  rewrite (exec_loop_no_match ws 33 pattern_fence [] true w2 eq_refl) in E2.
  unfold bind. rewrite E1, E2.
  rewrite (exec_loop_no_match ws 34 pattern_heading _ true w2 scenario_heading_no_match).
  unfold result, events, ret. cbn [fst snd].
  rewrite !app_nil_r, calls_app, Hc1, Hc2. unfold dispatched. rewrite Hsame.
  split; [reflexivity |]. split.
  - intros ->. reflexivity.
  - intros [e ->]. reflexivity.
Qed.

(** ** The properties at concrete inputs *)

(** C1 (as stated, refuted). In the workspace [/w] with an empty disk the
    parser calls [createFile] twice on the scenario response, for
    [/w/foo.js] and for [/w/js / foo.js]: the calls are not the single
    [createFile] for [foo.js].  The same two calls are made when the
    response arrives through a chat request in execute mode. *)
Lemma parser_scenario_is_not_a_single_create :
  workspaceFolders project_world = [mkWorkspaceFolder "w" "/w"]
  /\ disk project_world !! Path.Uri_file (Path.join ["/w"; "foo.js"]) = None
  /\ calls (events (processAiResponseForFileOperations scenario_response 0 project_world))
     = [OpCreateFile "/w/foo.js" "console.log(1)";
        OpCreateFile "/w/js / foo.js" "console.log(1)"]
  /\ calls (events (processAiResponseForFileOperations scenario_response 0 project_world))
     <> [OpCreateFile (Path.join ["/w"; "foo.js"]) "console.log(1)"]
  /\ calls
       (events
          (onMessage constant_json (constant_api scenario_response) 0
             (Some (mkData "chat" EmptyString EmptyString EmptyString "add foo.js" true))
             project_world))
     = [OpCreateFile "/w/foo.js" "console.log(1)";
        OpCreateFile "/w/js / foo.js" "console.log(1)"].
Proof.
  assert (E : calls (events (processAiResponseForFileOperations scenario_response 0
                               project_world))
              = [OpCreateFile "/w/foo.js" "console.log(1)";
                 OpCreateFile "/w/js / foo.js" "console.log(1)"])
    by (vm_compute; reflexivity).
  split; [reflexivity |]. split; [vm_compute; reflexivity |].
  split; [exact E |]. split; [rewrite E; discriminate |].
  vm_compute. reflexivity.
Qed.

Lemma parser_scenario_dispatches_two_operations_witness :
  (workspaceFolders project_world = mkWorkspaceFolder "w" "/w" :: []
   /\ disk project_world !! Path.Uri_file (Path.join ["/w"; "foo.js"]) = None
   /\ disk project_world !! Path.Uri_file (Path.join ["/w"; "js // foo.js"]) = None
   /\ calls (events (processAiResponseForFileOperations scenario_response 0 project_world))
      = [OpCreateFile (Path.join ["/w"; "foo.js"]) "console.log(1)";
         OpCreateFile (Path.join ["/w"; "js // foo.js"]) "console.log(1)"])
  /\ (let w := project_with [("/w/js / foo.js", "old")] in
      workspaceFolders w = mkWorkspaceFolder "w" "/w" :: []
      /\ disk w !! Path.Uri_file (Path.join ["/w"; "foo.js"]) = None
      /\ is_Some (disk w !! Path.Uri_file (Path.join ["/w"; "js // foo.js"]))
      /\ calls (events (processAiResponseForFileOperations scenario_response 0 w))
         = [OpCreateFile (Path.join ["/w"; "foo.js"]) "console.log(1)";
            OpModifyFile (Path.join ["/w"; "js // foo.js"]) "console.log(1)"
              "Updated by AI"]).
Proof.
  split.
  - assert (H1 : workspaceFolders project_world = mkWorkspaceFolder "w" "/w" :: [])
      by reflexivity.
    assert (H2 : disk project_world !! Path.Uri_file (Path.join ["/w"; "foo.js"]) = None)
      by (vm_compute; reflexivity).
    assert (H3 : disk project_world !! Path.Uri_file (Path.join ["/w"; "js // foo.js"])
                 = None)
      by (vm_compute; reflexivity).
    split; [exact H1 |]. split; [exact H2 |]. split; [exact H3 |].
    exact (proj1 (proj2 (parser_scenario_dispatches_two_operations 0 project_world
                           (mkWorkspaceFolder "w" "/w") [] H1 H2)) H3).
  - intros w.
    assert (H1 : workspaceFolders w = mkWorkspaceFolder "w" "/w" :: []) by reflexivity.
    assert (H2 : disk w !! Path.Uri_file (Path.join ["/w"; "foo.js"]) = None)
      by (vm_compute; reflexivity).
    assert (H3 : is_Some (disk w !! Path.Uri_file (Path.join ["/w"; "js // foo.js"])))
      by (exists (File "old"); vm_compute; reflexivity).
    split; [exact H1 |]. split; [exact H2 |]. split; [exact H3 |].
    exact (proj2 (proj2 (parser_scenario_dispatches_two_operations 0 w
                           (mkWorkspaceFolder "w" "/w") [] H1 H2)) H3).
Defined.

Lemma createFile_existing_file_is_overwritten_witness :
  disk (project_with [("/w/a.txt", "old")]) !! Path.Uri_file "/w/a.txt"
  = Some (File "old")
  /\ exists w',
       createFile 0 "/w/a.txt" "new" (project_with [("/w/a.txt", "old")])
       = (Ok tt, w',
          [Call (OpCreateFile "/w/a.txt" "new");
           ShowInformationMessage ("File created: " +:+ Path.basename "/w/a.txt");
           Send 0 (FileCreated "/w/a.txt")])
       /\ disk w' !! Path.Uri_file "/w/a.txt" = Some (File "new").
Proof.
  assert (H : disk (project_with [("/w/a.txt", "old")]) !! Path.Uri_file "/w/a.txt"
              = Some (File "old")) by (vm_compute; reflexivity).
  split; [exact H |].
  exact (createFile_existing_file_is_overwritten 0 "/w/a.txt" "old" "new"
           (project_with [("/w/a.txt", "old")]) H).
Defined.

Lemma second_read_overwrites_baseline_witness :
  document_at "/w/a.txt" (project_with [("/w/a.txt", "v1")]) = None
  /\ disk (project_with [("/w/a.txt", "v1")]) !! Path.Uri_file "/w/a.txt"
     = Some (File "v1")
  /\ Js.truthy "v2" = true
  /\ sent_to 0
       (events
          (read_modify_read_diff 0 "/w/a.txt" "v2" "edit"
             (project_with [("/w/a.txt", "v1")])))
     = [FileContent "/w/a.txt" "a.txt" "v1" "txt";
        FileModified "/w/a.txt";
        FileContent "/w/a.txt" "a.txt" "v2" "txt";
        Diff "/w/a.txt" "a.txt" "v2" "v2"].
Proof.
  assert (H1 : document_at "/w/a.txt" (project_with [("/w/a.txt", "v1")]) = None)
    by reflexivity.
  assert (H2 : disk (project_with [("/w/a.txt", "v1")]) !! Path.Uri_file "/w/a.txt"
               = Some (File "v1")) by (vm_compute; reflexivity).
  assert (H3 : Js.truthy "v2" = true) by reflexivity.
  split; [exact H1 |]. split; [exact H2 |]. split; [exact H3 |].
  exact (second_read_overwrites_baseline 0 "/w/a.txt" "v1" "v2" "edit"
           (project_with [("/w/a.txt", "v1")]) H1 H2 H3).
Defined.

Lemma modifyFile_missing_file_witness :
  disk project_world !! Path.Uri_file "/w/missing.txt" = None
  /\ modifyFile 0 "/w/missing.txt" "text" "edit" project_world
     = (Ok tt, project_world,
        [Call (OpModifyFile "/w/missing.txt" "text" "edit");
         Send 0
           (ErrorMsg
              ("Error modifying file: Error: File does not exist: "
               +:+ "/w/missing.txt"))]).
Proof.
  assert (H : disk project_world !! Path.Uri_file "/w/missing.txt" = None)
    by (vm_compute; reflexivity).
  split; [exact H |].
  exact (modifyFile_missing_file 0 "/w/missing.txt" "text" "edit" project_world H).
Defined.

(** C5 (as stated, refuted). The page made for the style sheet [/w/a.css]
    with the content [</style><i>&] carries that content with its [<], [>]
    and [&] as they are. *)
Lemma css_preview_content_is_not_escaped :
  renderPreview constant_json 0 "/w/a.css" (project_with [("/w/a.css", "</style><i>&")])
  = (Ok tt, project_with [("/w/a.css", "</style><i>&")],
     [Send 0
        (Preview "/w/a.css" "a.css"
           (css_page_before "a.css" +:+ "</style><i>&" +:+ css_page_tail))])
  /\ occurs "<"%char "</style><i>&" = true
  /\ occurs ">"%char "</style><i>&" = true
  /\ ~ Escaped "</style><i>&".
Proof.
  split; [vm_compute; reflexivity |].
  split; [reflexivity |]. split; [reflexivity |].
  intros H. apply (Escaped_no_occurrence "<"%char) in H; [| reflexivity | discriminate].
  discriminate H.
Qed.

Lemma css_preview_keeps_content_verbatim_witness :
  let w := project_with [("/w/a.css", "</style><i>&")] in
  read_current "/w/a.css" w = (Ok "</style><i>&", w, [])
  /\ Js.toLowerCase (Path.extname "/w/a.css") = ".css"
  /\ renderPreview constant_json 0 "/w/a.css" w
     = (Ok tt, w,
        [Send 0
           (Preview "/w/a.css" (Path.basename "/w/a.css")
              (css_page_before (Path.basename "/w/a.css") +:+ "</style><i>&"
               +:+ css_page_tail))]).
Proof.
  intros w.
  assert (H1 : read_current "/w/a.css" w = (Ok "</style><i>&", w, []))
    by (vm_compute; reflexivity).
  assert (H2 : Js.toLowerCase (Path.extname "/w/a.css") = ".css")
    by (vm_compute; reflexivity).
  split; [exact H1 |]. split; [exact H2 |].
  exact (css_preview_keeps_content_verbatim constant_json 0 "/w/a.css"
           "</style><i>&" w H1 H2).
Defined.

Lemma component_preview_neither_serves_nor_is_idempotent_witness :
  let w := project_with [("/w/App.tsx", "export {}"); ("/w/package.json", "{}")] in
  is_component_ext (Js.toLowerCase (Path.extname "/w/App.tsx")) = true
  /\ read_current "/w/App.tsx" w = (Ok "export {}", w, [])
  /\ devServer w = None
  /\ workspaceFolders w = mkWorkspaceFolder "w" "/w" :: []
  /\ is_Some (disk w !! Path.Uri_file (Path.join ["/w"; "package.json"]))
  /\ renderPreview constant_json 0 "/w/App.tsx" w
     = (Ok tt, w,
        [Send 0
           (ErrorMsg "Error rendering preview: ReferenceError: context is not defined")])
  /\ devServer (world (startDevServer (mkExtensionContext "/ext") w)) = None
  /\ spawns
       (events
          ((let! _ := startDevServer (mkExtensionContext "/ext") in
            startDevServer (mkExtensionContext "/ext")) w))
     = [dev_server_command "/w"; dev_server_command "/w"].
Proof.
  intros w.
  assert (H1 : is_component_ext (Js.toLowerCase (Path.extname "/w/App.tsx")) = true)
    by (vm_compute; reflexivity).
  assert (H2 : read_current "/w/App.tsx" w = (Ok "export {}", w, []))
    by (vm_compute; reflexivity).
  assert (H3 : devServer w = None) by reflexivity.
  assert (H4 : workspaceFolders w = mkWorkspaceFolder "w" "/w" :: []) by reflexivity.
  assert (H5 : is_Some (disk w !! Path.Uri_file (Path.join ["/w"; "package.json"])))
    by (exists (File "{}"); vm_compute; reflexivity).
  split; [exact H1 |]. split; [exact H2 |]. split; [exact H3 |].
  split; [exact H4 |]. split; [exact H5 |].
  exact (component_preview_neither_serves_nor_is_idempotent constant_json 0
           "/w/App.tsx" "export {}" w (mkExtensionContext "/ext")
           (mkWorkspaceFolder "w" "/w") [] H1 H2 H3 H4 H5).
Defined.

Lemma getFileDiff_empty_baseline_is_no_baseline_witness :
  let w := set_originalFileContents {[ "/w/a.txt" := EmptyString ]} project_world in
  originalFileContents w !! "/w/a.txt" = Some EmptyString
  /\ originalFileContents project_world !! "/w/a.txt" = None
  /\ getFileDiff 0 "/w/a.txt" w
     = (Ok tt, w,
        [Send 0
           (ErrorMsg
              ("Error generating diff: Error: No original content stored for "
               +:+ "/w/a.txt"))])
  /\ events (getFileDiff 0 "/w/a.txt" w)
     = events (getFileDiff 0 "/w/a.txt" project_world).
Proof.
  intros w.
  assert (H1 : originalFileContents w !! "/w/a.txt" = Some EmptyString)
    by (vm_compute; reflexivity).
  assert (H2 : originalFileContents project_world !! "/w/a.txt" = None)
    by (vm_compute; reflexivity).
  split; [exact H1 |]. split; [exact H2 |].
  exact (getFileDiff_empty_baseline_is_no_baseline 0 "/w/a.txt" w project_world H1 H2).
Defined.


(** * Further properties *)

(** ** What a computation preserves *)

Section Preserves.

Variable R : World -> World -> Prop.
Hypothesis R_refl : forall w, R w w.
Hypothesis R_trans : forall w1 w2 w3, R w1 w2 -> R w2 w3 -> R w1 w3.

Lemma preserves_pure {A} (m : M A) :
  (forall w, world (m w) = w) -> preserves R m.
Proof using R_refl. intros H w. rewrite H. apply R_refl. Qed.

Lemma preserves_bind {A B} (m : M A) (k : A -> M B) :
  preserves R m -> (forall a, preserves R (k a)) -> preserves R (bind m k).
Proof using R_trans.
  intros Hm Hk w. unfold bind, world. specialize (Hm w). unfold world in Hm.
  destruct (m w) as [[[a | e |] w1] ev1]; cbn in *; try exact Hm.
  specialize (Hk a w1). unfold world in Hk.
  destruct (k a w1) as [[r w2] ev2]; cbn in *. eauto.
Qed.

Lemma preserves_try_catch {A} (m : M A) (h : JsError -> M A) :
  preserves R m -> (forall e, preserves R (h e)) -> preserves R (try_catch m h).
Proof using R_trans.
  intros Hm Hh w. unfold try_catch, world. specialize (Hm w). unfold world in Hm.
  destruct (m w) as [[[a | e |] w1] ev1]; cbn in *; try exact Hm.
  specialize (Hh e w1). unfold world in Hh.
  destruct (h e w1) as [[r w2] ev2]; cbn in *. eauto.
Qed.

Lemma preserves_fs_stat p : preserves R (fs_stat p).
Proof using R_refl.
  apply preserves_pure. intros w. unfold fs_stat. now destruct (_ !! _).
Qed.

Lemma preserves_fs_readFile p : preserves R (fs_readFile p).
Proof using R_refl.
  apply preserves_pure. intros w. unfold fs_readFile.
  now destruct (_ !! _) as [[|]|].
Qed.

End Preserves.

(** Syntax-directed proof of [preserves]: the rules of [bind] and
    [try_catch], a case analysis on what is matched, and [leaf] for the
    operations that write. *)
Ltac preserve refl trans leaf :=
  repeat
    (intros;
     match goal with
     | |- preserves _ (bind _ _) => apply (preserves_bind _ trans)
     | |- preserves _ (try_catch _ _) => apply (preserves_try_catch _ trans)
     | |- preserves _ (fs_stat _) => apply (preserves_fs_stat _ refl)
     | |- preserves _ (fs_readFile _) => apply (preserves_fs_readFile _ refl)
     | |- preserves _ (if ?b then _ else _) => destruct b
     | |- preserves _ (match ?x with _ => _ end) => destruct x
     | |- preserves _ _ =>
         first [ solve [apply (preserves_pure _ refl); intro; reflexivity]
               | solve [leaf] ]
     end).

(** ** The appliers *)

Section Appliers.

Variable ws : Client.

(** On a free path whose directory has an entry, [createFile] writes the
    file and nothing else. *)
Lemma createFile_fresh filePath content w :
  disk w !! Path.Uri_file filePath = None ->
  is_Some (disk w !! Path.Uri_file (Path.dirname filePath)) ->
  createFile ws filePath content w
  = (Ok tt,
     set_disk (<[Path.Uri_file filePath := File content]> (disk w)) w,
     [Call (OpCreateFile filePath content);
      ShowInformationMessage ("File created: " +:+ Path.basename filePath);
      Send ws (FileCreated filePath)]).
Proof.
  intros Hfree [e Hdir]. unfold createFile. run_monad.
  rewrite Hfree, Hdir. cbn. rewrite Hfree. reflexivity.
Qed.

End Appliers.

(** X1. Round trip: on a path with no entry, not open in the editor, in a
    directory of the disk, [createFile] followed by [getFileContent]
    answers [fileCreated] and then the content that was given. *)
Theorem createFile_then_getFileContent
    (ws : Client) (filePath content : string) (w : World) :
  disk w !! Path.Uri_file filePath = None ->
  disk w !! Path.Uri_file (Path.dirname filePath) = Some Directory ->
  document_at filePath w = None ->
  sent_to ws
    (events ((let! _ := createFile ws filePath content in
              getFileContent ws filePath) w))
  = [FileCreated filePath;
     FileContent filePath (Path.basename filePath) content
       (Js.substring_from 1 (Path.extname filePath))].
Proof.
  intros Hfree Hdir Hdoc. unfold bind.
  rewrite (createFile_fresh ws filePath content w Hfree (mk_is_Some _ _ Hdir)).
  rewrite (getFileContent_from_disk ws filePath content);
    [| exact Hdoc | apply lookup_insert_eq].
  cbn. rewrite Nat.eqb_refl. reflexivity.
Qed.


Section CreateFileFrame.

Variable key : string.






End CreateFileFrame.


Section ModifyFileFrame.

Variable key : string.

Lemma same_disk_elsewhere_refl w : same_disk_elsewhere key w w.
Proof. intros k _. reflexivity. Qed.

Lemma same_disk_elsewhere_trans w1 w2 w3 :
  same_disk_elsewhere key w1 w2 -> same_disk_elsewhere key w2 w3 ->
  same_disk_elsewhere key w1 w3.
Proof. intros H1 H2 k Hne. now rewrite H2, H1. Qed.

Lemma same_disk_elsewhere_writeFile p content :
  Path.Uri_file p = key -> preserves (same_disk_elsewhere key) (fs_writeFile p content).
Proof.
  intros <- w. unfold fs_writeFile, world.
  destruct (disk w !! Path.Uri_file p) as [[c|]|]; cbn; intros k Hne;
    unfold set_disk; cbn [disk]; rewrite ?lookup_insert_ne by congruence;
    reflexivity.
Qed.

Lemma same_disk_elsewhere_applyEdit doc content :
  preserves (same_disk_elsewhere key) (applyEdit_replace_all doc content).
Proof.
  intros w. unfold applyEdit_replace_all.
  destruct (doc_readonly doc); intros k _; reflexivity.
Qed.

End ModifyFileFrame.

(** X3. [modifyFile] changes the disk at its own path at most: the entry at
    every other path is what it was. *)
Theorem modifyFile_touches_only_its_path
    (ws : Client) (filePath content description : string) (w : World) :
  same_disk_elsewhere (Path.Uri_file filePath) w
    (world (modifyFile ws filePath content description w)).
Proof.
  revert w. change (preserves (same_disk_elsewhere (Path.Uri_file filePath))
                      (modifyFile ws filePath content description)).
  unfold modifyFile, read_current.
  preserve (same_disk_elsewhere_refl (Path.Uri_file filePath))
    (same_disk_elsewhere_trans (Path.Uri_file filePath))
    ltac:(first [ apply same_disk_elsewhere_writeFile; reflexivity
                | apply same_disk_elsewhere_applyEdit
                | intros w0 k0 _; reflexivity ]).
Qed.

Section OpenDocument.

Variable ws : Client.

Lemma document_at_fsPath p w doc : document_at p w = Some doc -> doc_fsPath doc = p.
Proof.
  unfold document_at. intros H. apply find_some in H as [_ H].
  now apply String.eqb_eq.
Qed.

End OpenDocument.

(** X4. On a file that is open in the editor (and that the editor lets be
    edited), [modifyFile] replaces the text of the document and leaves the
    disk as it is; the snapshot, when none was stored, is the text that the
    document had. *)
Theorem modifyFile_edits_open_document
    (ws : Client) (filePath content description : string) (w : World)
    (doc : TextDocument) :
  document_at filePath w = Some doc ->
  doc_readonly doc = false ->
  is_Some (disk w !! Path.Uri_file filePath) ->
  let run := modifyFile ws filePath content description w in
  events run
  = [Call (OpModifyFile filePath content description);
     ShowInformationMessage
       ("File modified: " +:+ Path.basename filePath +:+ " - " +:+ description);
     Send ws (FileModified filePath)]
  /\ disk (world run) = disk w
  /\ textDocuments (world run)
     = map (replace_text filePath content) (textDocuments w)
  /\ originalFileContents (world run) !! filePath
     = Some (default (doc_text doc) (originalFileContents w !! filePath)).
Proof.
  intros Hdoc Hro [e Hdisk] run. subst run.
  pose proof (document_at_fsPath _ _ _ Hdoc) as Hpath.
  unfold modifyFile. run_monad. rewrite Hdisk. cbn.
  destruct (originalFileContents w !! filePath) as [first|] eqn:Hsnap; cbn.
  - rewrite Hdoc. unfold applyEdit_replace_all. rewrite Hro. cbn.
    rewrite Hpath. repeat split. exact Hsnap.
  - rewrite Hdoc. cbn. rewrite document_at_set_originalFileContents, Hdoc.
    unfold applyEdit_replace_all. rewrite Hro. cbn.
    rewrite Hpath. repeat split. apply lookup_insert_eq.
Qed.

(** X5. The snapshot taken by the first read survives later modifications:
    after read, modify, modify, the diff reports the text of the read as
    [originalContent] and the text of the last modification as
    [currentContent]. *)
Theorem baseline_survives_modifications
    (ws : Client) (filePath first c1 c2 d1 d2 : string) (w : World) :
  document_at filePath w = None ->
  disk w !! Path.Uri_file filePath = Some (File first) ->
  Js.truthy first = true ->
  sent_to ws
    (events
       ((let! _ := getFileContent ws filePath in
         let! _ := modifyFile ws filePath c1 d1 in
         let! _ := modifyFile ws filePath c2 d2 in
         getFileDiff ws filePath) w))
  = [FileContent filePath (Path.basename filePath) first
       (Js.substring_from 1 (Path.extname filePath));
     FileModified filePath;
     FileModified filePath;
     Diff filePath (Path.basename filePath) first c2].
Proof.
  intros Hdoc Hdisk Htrue.
  unfold bind at 1.
  rewrite (getFileContent_from_disk ws filePath first w Hdoc Hdisk).
  set (w1 := set_originalFileContents _ w).
  assert (Hsnap : originalFileContents w1 !! filePath = Some first)
    by apply lookup_insert_eq.
  unfold bind at 1.
  rewrite (modifyFile_on_disk ws filePath first first c1 d1 w1 Hdoc Hdisk Hsnap).
  set (w2 := set_disk _ w1).
  assert (Hdisk2 : disk w2 !! Path.Uri_file filePath = Some (File c1))
    by apply lookup_insert_eq.
  unfold bind at 1.
  rewrite (modifyFile_on_disk ws filePath c1 first c2 d2 w2 Hdoc Hdisk2 Hsnap).
  set (w3 := set_disk _ w2).
  rewrite (getFileDiff_from_disk ws filePath first c2 w3);
    [| exact Hdoc | apply lookup_insert_eq | exact Hsnap | exact Htrue].
  cbn. rewrite Nat.eqb_refl. reflexivity.
Qed.

(** X6. A modification without a previous read takes the snapshot itself:
    after [modifyFile] on a file of the disk, the diff reports the text that
    the file had as [originalContent]. *)
Theorem modifyFile_takes_the_baseline
    (ws : Client) (filePath old content description : string) (w : World) :
  document_at filePath w = None ->
  disk w !! Path.Uri_file filePath = Some (File old) ->
  originalFileContents w !! filePath = None ->
  Js.truthy old = true ->
  sent_to ws
    (events
       ((let! _ := modifyFile ws filePath content description in
         getFileDiff ws filePath) w))
  = [FileModified filePath;
     Diff filePath (Path.basename filePath) old content].
Proof.
  intros Hdoc Hdisk Hsnap Htrue. unfold bind.
  assert (Hrun : modifyFile ws filePath content description w
                 = (Ok tt,
                    set_disk (<[Path.Uri_file filePath := File content]> (disk w))
                      (set_originalFileContents
                         (<[filePath := old]> (originalFileContents w)) w),
                    [Call (OpModifyFile filePath content description);
                     ShowInformationMessage
                       ("File modified: " +:+ Path.basename filePath +:+ " - "
                        +:+ description);
                     Send ws (FileModified filePath)])).
  { unfold modifyFile. run_monad. rewrite Hdisk, Hsnap.
    repeat (progress
              (cbn; rewrite ?document_at_set_originalFileContents, ?Hdoc, ?Hdisk)).
    reflexivity. }
  rewrite Hrun.
  rewrite (getFileDiff_from_disk ws filePath old content);
    [| exact Hdoc | apply lookup_insert_eq | apply lookup_insert_eq | exact Htrue].
  cbn. rewrite Nat.eqb_refl. reflexivity.
Qed.

(** ** The preview renderer, further *)

(** X7. An HTML file is previewed as it is: the artifact is the content of
    the file. *)
Theorem renderPreview_html_is_verbatim
    (JSON_reformat : string -> JsonOutcome)
    (ws : Client) (filePath content : string) (w : World) :
  Js.toLowerCase (Path.extname filePath) = ".html" ->
  read_current filePath w = (Ok content, w, []) ->
  renderPreview JSON_reformat ws filePath w
  = (Ok tt, w, [Send ws (Preview filePath (Path.basename filePath) content)]).
Proof.
  intros Hext Hread. unfold renderPreview. cbv zeta.
  unfold bind, try_catch. rewrite Hread, Hext. reflexivity.
Qed.

(** X8. A readable file whose lower-cased extension is none of [.tsx],
    [.jsx], [.ts], [.js], [.html], [.css], [.json] gets the error that names
    the extension, and no artifact. *)
Theorem renderPreview_unsupported_extension
    (JSON_reformat : string -> JsonOutcome)
    (ws : Client) (filePath content : string) (w : World) :
  ~ In (Js.toLowerCase (Path.extname filePath))
      [".tsx"; ".jsx"; ".ts"; ".js"; ".html"; ".css"; ".json"] ->
  read_current filePath w = (Ok content, w, []) ->
  renderPreview JSON_reformat ws filePath w
  = (Ok tt, w,
     [Send ws
        (ErrorMsg
           ("Preview not supported for file type: "
            +:+ Js.toLowerCase (Path.extname filePath)))]).
Proof.
  intros Hext Hread. unfold renderPreview. cbv zeta.
  unfold bind, try_catch. rewrite Hread.
  set (ext := Js.toLowerCase (Path.extname filePath)) in *.
  assert (Hne : forall known, In known [".tsx"; ".jsx"; ".ts"; ".js"; ".html"; ".css"; ".json"] ->
                              String.eqb ext known = false).
  { intros known Hin. apply String.eqb_neq. intros ->. contradiction. }
  unfold is_component_ext.
  rewrite !Hne by (cbn; tauto). reflexivity.
Qed.

(** X9. The file is read before the extension is looked at: a path with no
    open document and no entry on the disk gets the read error, whatever its
    extension. *)
Theorem renderPreview_unreadable_file
    (JSON_reformat : string -> JsonOutcome)
    (ws : Client) (filePath : string) (w : World) :
  document_at filePath w = None ->
  disk w !! Path.Uri_file filePath = None ->
  renderPreview JSON_reformat ws filePath w
  = (Ok tt, w,
     [Send ws
        (ErrorMsg
           ("Error rendering preview: Error: Failed to read file: " +:+ filePath))]).
Proof.
  intros Hdoc Hdisk. unfold renderPreview. cbv zeta. run_monad.
  rewrite Hdoc, Hdisk. reflexivity.
Qed.

(** X21. No page is made for a JSON file.  Whether the content parses or
    not, [escapeHtml] throws in the [try] and again in its handler, and the
    request is answered by the one error of the outer handler, with the
    state as it was. *)
Theorem renderPreview_json_reports_unbound_g
    (JSON_reformat : string -> JsonOutcome)
    (ws : Client) (filePath content : string) (w : World) :
  Js.toLowerCase (Path.extname filePath) = ".json" ->
  read_current filePath w = (Ok content, w, []) ->
  renderPreview JSON_reformat ws filePath w
  = (Ok tt, w,
     [Send ws (ErrorMsg "Error rendering preview: ReferenceError: g is not defined")]).
Proof. apply renderPreview_json. Qed.

Section PreviewState.

Variable JSON_reformat : string -> JsonOutcome.

Lemma eq_world_trans (w1 w2 w3 : World) : w1 = w2 -> w2 = w3 -> w1 = w3.
Proof. congruence. Qed.

Lemma renderPreview_preserves ws filePath :
  preserves eq (renderPreview JSON_reformat ws filePath).
Proof.
  unfold renderPreview, read_current, JSON_parse_stringify. cbv zeta.
  apply (preserves_try_catch _ eq_world_trans);
    [| preserve (@eq_refl World) eq_world_trans fail].
  apply (preserves_bind _ eq_world_trans);
    [preserve (@eq_refl World) eq_world_trans fail |].
  intros content. destruct (is_component_ext _);
    [| preserve (@eq_refl World) eq_world_trans fail].
  apply (preserves_bind _ eq_world_trans);
    [apply (preserves_pure _ (@eq_refl World)); reflexivity |].
  intros [h|]; [preserve (@eq_refl World) eq_world_trans fail |].
  apply (preserves_bind _ eq_world_trans);
    [apply (preserves_pure _ (@eq_refl World)); reflexivity |].
  preserve (@eq_refl World) eq_world_trans fail.
Qed.

End PreviewState.

(** X10. [renderPreview] changes nothing: whatever the file and the
    extension, the world after the request is the world before it (no
    snapshot is stored, nothing is written, [devServer] stays). *)
Theorem renderPreview_keeps_world
    (JSON_reformat : string -> JsonOutcome)
    (ws : Client) (filePath : string) (w : World) :
  world (renderPreview JSON_reformat ws filePath w) = w.
Proof. symmetry. apply renderPreview_preserves. Qed.

(** ** No request spawns a process *)

Section NoSpawn.

Lemma no_spawn_bind {A B} (m : M A) (k : A -> M B) :
  no_spawn m -> (forall a, no_spawn (k a)) -> no_spawn (bind m k).
Proof.
  intros Hm Hk w. unfold bind, events. specialize (Hm w). unfold events in Hm.
  destruct (m w) as [[[a | e |] w1] ev1]; cbn in *; try exact Hm.
  specialize (Hk a w1). unfold events in Hk.
  destruct (k a w1) as [[r w2] ev2]; cbn in *.
  now rewrite spawns_app, Hm, Hk.
Qed.

Lemma no_spawn_try_catch {A} (m : M A) (h : JsError -> M A) :
  no_spawn m -> (forall e, no_spawn (h e)) -> no_spawn (try_catch m h).
Proof.
  intros Hm Hh w. unfold try_catch, events. specialize (Hm w). unfold events in Hm.
  destruct (m w) as [[[a | e |] w1] ev1]; cbn in *; try exact Hm.
  specialize (Hh e w1). unfold events in Hh.
  destruct (h e w1) as [[r w2] ev2]; cbn in *.
  now rewrite spawns_app, Hm, Hh.
Qed.

Lemma no_spawn_fs_stat p : no_spawn (fs_stat p).
Proof. intros w. unfold fs_stat. now destruct (_ !! _). Qed.

Lemma no_spawn_fs_readFile p : no_spawn (fs_readFile p).
Proof. intros w. unfold fs_readFile. now destruct (_ !! _) as [[|]|]. Qed.

Lemma no_spawn_fs_writeFile p c : no_spawn (fs_writeFile p c).
Proof. intros w. unfold fs_writeFile. now destruct (_ !! _) as [[|]|]. Qed.

Lemma no_spawn_fs_createDirectory p : no_spawn (fs_createDirectory p).
Proof. intros w. unfold fs_createDirectory. now destruct (_ !! _) as [[|]|]. Qed.

Lemma no_spawn_create_directories parts currentPath :
  no_spawn (create_directories parts currentPath).
Proof.
  intros w. now destruct (create_directories_runs parts currentPath w) as (w1 & -> & _).
Qed.

Lemma no_spawn_applyEdit_replace_all doc content :
  no_spawn (applyEdit_replace_all doc content).
Proof. intros w. unfold applyEdit_replace_all. now destruct (doc_readonly doc). Qed.

(** Syntax-directed proof that nothing is spawned. *)
Ltac unspawn :=
  repeat
    (intros;
     match goal with
     | |- no_spawn (bind identifier_context _) => intro; reflexivity
     | |- no_spawn (bind _ _) => apply no_spawn_bind
     | |- no_spawn (try_catch _ _) => apply no_spawn_try_catch
     | |- no_spawn (fs_stat _) => apply no_spawn_fs_stat
     | |- no_spawn (fs_readFile _) => apply no_spawn_fs_readFile
     | |- no_spawn (fs_writeFile _ _) => apply no_spawn_fs_writeFile
     | |- no_spawn (fs_createDirectory _) => apply no_spawn_fs_createDirectory
     | |- no_spawn (create_directories _ _) => apply no_spawn_create_directories
     | |- no_spawn (applyEdit_replace_all _ _) => apply no_spawn_applyEdit_replace_all
     | |- no_spawn (if ?b then _ else _) => destruct b
     | |- no_spawn (match ?x with _ => _ end) => destruct x
     | |- no_spawn _ => solve [intro; reflexivity]
     end).

Lemma no_spawn_modifyFile ws filePath content description :
  no_spawn (modifyFile ws filePath content description).
Proof. unfold modifyFile, read_current. unspawn. Qed.

Lemma no_spawn_createFile ws filePath content :
  no_spawn (createFile ws filePath content).
Proof. unfold createFile. unspawn. Qed.

Lemma no_spawn_exec_loop ws pattern fuel :
  forall rest performed, no_spawn (exec_loop fuel ws pattern rest performed).
Proof.
  induction fuel as [|fuel IH]; intros rest performed; [intro; reflexivity |].
  cbn [exec_loop].
  destruct (Regex.search pattern rest) as [[[from rest'] m]|]; [| intro; reflexivity].
  destruct (negb _ || negb _); [apply IH |].
  apply no_spawn_bind; [intro; reflexivity |].
  intros [|folder others]; [unspawn |].
  apply no_spawn_bind; [| intros; apply IH].
  apply no_spawn_try_catch; [| unspawn].
  apply no_spawn_bind; [| unspawn].
  apply no_spawn_try_catch;
    [apply no_spawn_bind; [apply no_spawn_fs_stat | intros; apply no_spawn_modifyFile]
    | intros; apply no_spawn_createFile].
Qed.

Lemma no_spawn_for_patterns ws patterns message :
  forall performed, no_spawn (for_patterns ws patterns message performed).
Proof.
  induction patterns as [|pattern patterns IH]; intros performed; [intro; reflexivity |].
  cbn [for_patterns]. apply no_spawn_bind; [apply no_spawn_exec_loop |].
  intros [performed' |]; [apply IH | intro; reflexivity].
Qed.

Variable JSON_reformat : string -> JsonOutcome.
Variable anthropic_messages_create : string -> string -> ApiOutcome.

Lemma no_spawn_onMessage ws message :
  no_spawn (onMessage JSON_reformat anthropic_messages_create ws message).
Proof.
  unfold onMessage. apply no_spawn_try_catch; [| unspawn].
  destruct message as [data|]; [| unspawn].
  cbv zeta.
  repeat
    match goal with
    | |- no_spawn (if String.eqb ?a ?b then _ else _) => destruct (String.eqb a b)
    end.
  - unfold handleChatMessage, active_document.
    apply no_spawn_try_catch; [| unspawn].
    do 3 (apply no_spawn_bind; [intro; reflexivity | intros]).
    destruct (anthropic_messages_create _ _); [| unspawn].
    apply no_spawn_bind; [| unspawn].
    destruct (data_executeMode data); [apply no_spawn_for_patterns | unspawn].
  - unfold sendWorkspaceInfo, active_document. unspawn.
  - unfold getFileContent. unspawn.
  - apply no_spawn_modifyFile.
  - apply no_spawn_createFile.
  - unfold renderPreview, read_current, JSON_parse_stringify. cbv zeta. unspawn.
  - unfold getFileDiff, read_current. unspawn.
  - unfold testFileCreation. unspawn.
  - unspawn.
Qed.

End NoSpawn.

(** X11. No message to the router, well-formed or not, makes the extension
    spawn a process: the only call of [startDevServer] is in [renderPreview]
    and fails on its argument before the function is entered. *)
Theorem router_never_spawns
    (JSON_reformat : string -> JsonOutcome)
    (anthropic_messages_create : string -> string -> ApiOutcome)
    (ws : Client) (message : option Data) (w : World) :
  spawns (events (onMessage JSON_reformat anthropic_messages_create ws message w)) = [].
Proof. apply no_spawn_onMessage. Qed.

(** ** The parser, further *)

Section ParserFurther.

Variable ws : Client.

(** Without a workspace folder the loop runs over the matches up to the
    first usable one, which is answered by the error. *)
Lemma exec_loop_without_folder pattern :
  Regex.takes_input pattern = true ->
  forall fuel rest performed w,
    length rest < fuel ->
    workspaceFolders w = [] ->
    exec_loop fuel ws pattern rest performed w
    = if existsb usable (exec_matches fuel pattern rest)
      then (Ok ReturnUndefined, w, [Send ws (ErrorMsg "No workspace folder is open")])
      else (Ok (Continue performed), w, []).
Proof.
  intros Ht. induction fuel as [|fuel IH]; intros rest performed w Hlen Hw; [lia |].
  cbn [exec_loop exec_matches].
  destruct (Regex.search pattern rest) as [[[from rest'] m]|] eqn:Hsearch;
    [| reflexivity].
  pose proof (search_progress pattern rest from rest' m Ht Hsearch) as Hlt.
  cbn [existsb]. unfold usable at 1. cbn [fst snd].
  destruct (Js.truthy (Js.trim (Regex.group 1 m)));
    destruct (Js.truthy (Js.trim (Regex.group 2 m)));
    cbn [negb orb andb];
    try (apply IH; [lia | exact Hw]).
  unfold bind, gets. rewrite Hw. reflexivity.
Qed.

Lemma for_patterns_without_folder patterns message w :
  Forall (fun pattern => Regex.takes_input pattern = true) patterns ->
  workspaceFolders w = [] ->
  for_patterns ws patterns message false w
  = if existsb
         (fun pattern =>
            existsb usable (exec_matches (S (length message)) pattern message))
         patterns
    then (Ok None, w, [Send ws (ErrorMsg "No workspace folder is open")])
    else (Ok (Some false), w, []).
Proof.
  intros Hall Hw. induction Hall as [|pattern patterns Ht Hall IH]; [reflexivity |].
  cbn [for_patterns existsb]. unfold bind.
  rewrite (exec_loop_without_folder pattern Ht (S (length message)) message false w
             (Nat.lt_succ_diag_r _) Hw).
  destruct (existsb usable _); cbn [orb]; [reflexivity |].
  rewrite IH. now destruct (existsb _ patterns).
Qed.

(** A text of plain characters has no match of any of the patterns. *)
Lemma search_plain pattern s :
  In pattern filePatterns ->
  forallb plain_char s = true ->
  Regex.search pattern s = None.
Proof.
  intros Hin. induction s as [|x s IH]; intros Hplain.
  - cbn in Hin. destruct Hin as [<- | [<- | [<- | []]]]; reflexivity.
  - cbn [forallb] in Hplain. apply andb_true_iff in Hplain as [Hx Hs].
    cbn [Regex.search]. rewrite (IH Hs).
    assert (Hhere : Regex.match_here pattern (x :: s) = None).
    { unfold plain_char in Hx. apply andb_true_iff in Hx as [Hq Hh].
      apply negb_true_iff in Hq, Hh.
      cbn in Hin. destruct Hin as [<- | [<- | [<- | []]]];
        unfold Regex.match_here, pattern_comment, pattern_fence, pattern_heading;
        cbn [Regex.sequence Regex.rmatch Regex.strip_prefix Js.chars fence
             list_ascii_of_string Regex.is_char].
      - rewrite Ascii.eqb_sym, Hq. reflexivity.
      - rewrite Ascii.eqb_sym, Hq. reflexivity.
      - unfold Regex.is_char at 1. rewrite Hh. reflexivity. }
    now rewrite Hhere.
Qed.

End ParserFurther.

(** X12. With no workspace folder open the parser changes nothing and calls
    no applier.  When one of the three patterns has a match with a name
    and a content, the first such match is answered by the one error and
    the function returns without a value; when none has, the result is
    [false] and nothing is sent. *)
Theorem parser_without_workspace_folder
    (message : string) (ws : Client) (w : World) :
  workspaceFolders w = [] ->
  processAiResponseForFileOperations message ws w
  = if has_usable_match message
    then (Ok None, w, [Send ws (ErrorMsg "No workspace folder is open")])
    else (Ok (Some false), w, []).
Proof.
  intros Hw. unfold processAiResponseForFileOperations, has_usable_match.
  apply for_patterns_without_folder; [apply filePatterns_take_input | exact Hw].
Qed.

(** X13. A response without a backquote and without a hash sign holds no
    file block: the parser returns [false], sends nothing and changes
    nothing. *)
Theorem parser_ignores_plain_text
    (message : string) (ws : Client) (w : World) :
  forallb plain_char (Js.chars message) = true ->
  processAiResponseForFileOperations message ws w = (Ok (Some false), w, []).
Proof.
  intros Hplain. unfold processAiResponseForFileOperations, filePatterns.
  cbn [for_patterns]. unfold bind.
  rewrite !exec_loop_no_match
    by (apply search_plain; [cbn; tauto | exact Hplain]).
  reflexivity.
Qed.

Section Counting.

Variable ws : Client.

Lemma has_call_app_call evs op ev2 :
  calls evs = [op] -> has_call (evs ++ ev2) = true.
Proof. intros H. unfold has_call. now rewrite calls_app, H. Qed.

Lemma exec_loop_counted pattern fuel :
  forall rest performed w,
    counted performed (exec_loop fuel ws pattern rest performed w).
Proof.
  induction fuel as [|fuel IH]; intros rest performed w; [exact I |].
  cbn [exec_loop].
  destruct (Regex.search pattern rest) as [[[from rest'] m]|].
  2:{ cbn. split; [reflexivity | now rewrite orb_false_r]. }
  destruct (negb _ || negb _); [apply IH |].
  unfold bind at 1. unfold gets at 1.
  destruct (workspaceFolders w) as [|folder others]; [reflexivity |].
  set (filePath := Js.trim (Regex.group 1 m)).
  set (content := Js.trim (Regex.group 2 m)).
  set (absoluteFilePath := if Path.isAbsolute filePath then _ else _).
  unfold bind at 1.
  destruct (dispatch_runs ws absoluteFilePath filePath content performed w)
    as (w' & evs & msg & E & Hs & _ & Hc & _).
  rewrite E. specialize (IH rest' true w').
  destruct (exec_loop fuel ws pattern rest' true w') as [[[[b |] | e |] w2] ev2];
    cbn in IH |- *; try exact IH.
  - destruct IH as [Hlen Hb].
    rewrite sends_app, calls_app, !length_app, Hs, Hc, Hlen.
    split; [reflexivity |].
    rewrite (has_call_app_call evs _ ev2 Hc), orb_true_r. exact Hb.
  - rewrite sends_app, calls_app, !length_app, Hs, Hc, IH. reflexivity.
Qed.

Lemma for_patterns_counted patterns message :
  forall performed w,
    match for_patterns ws patterns message performed w with
    | (Ok (Some b), _, evs) =>
        length (sends evs) = length (calls evs) /\ b = performed || has_call evs
    | (Ok None, _, evs) => length (sends evs) = S (length (calls evs))
    | (Throw _, _, _) => False
    | (Hang, _, _) => True
    end.
Proof.
  induction patterns as [|pattern patterns IH]; intros performed w.
  - cbn. split; [reflexivity | now rewrite orb_false_r].
  - cbn [for_patterns]. unfold bind.
    pose proof (exec_loop_counted pattern (S (length message)) message performed w) as H1.
    destruct (exec_loop (S (length message)) ws pattern message performed w)
      as [[[[b1 |] | e |] w1] ev1]; cbn in H1; try exact H1.
    + specialize (IH b1 w1).
      destruct (for_patterns ws patterns message b1 w1) as [[[[b2 |] | e |] w2] ev2];
        try exact IH.
      * destruct H1 as [L1 ->]. destruct IH as [L2 ->].
        rewrite sends_app, calls_app, !length_app, L1, L2.
        split; [reflexivity |].
        unfold has_call. rewrite calls_app.
        destruct (calls ev1), (calls ev2), performed; reflexivity.
      * destruct H1 as [L1 _].
        rewrite sends_app, calls_app, !length_app, L1, IH. lia.
    + cbn. now rewrite app_nil_r.
Qed.

End Counting.

(** X14. When the parser returns a flag, the flag says whether an applier
    was called and not whether an operation succeeded: it is [true] exactly
    when the trace has a call of [createFile] or [modifyFile], and every
    call has been answered by one message (a success or an error). *)
Theorem parser_flag_counts_calls
    (message : string) (ws : Client) (w : World) (b : bool) :
  result (processAiResponseForFileOperations message ws w) = Ok (Some b) ->
  b = has_call (events (processAiResponseForFileOperations message ws w))
  /\ length (sends (events (processAiResponseForFileOperations message ws w)))
     = length (calls (events (processAiResponseForFileOperations message ws w))).
Proof.
  unfold processAiResponseForFileOperations.
  pose proof (for_patterns_counted ws filePatterns (Js.chars message) false w) as H.
  destruct (for_patterns ws filePatterns (Js.chars message) false w)
    as [[[[b' |] | e |] w'] evs]; cbn; intros Hr; try discriminate Hr.
  injection Hr as ->. destruct H as [L ->]. now split.
Qed.

(** ** The chat handler, further *)

Lemma handleChatMessage_chat_mode
    (anthropic_messages_create : string -> string -> ApiOutcome)
    (ws : Client) (data : Data) (w : World) :
  data_executeMode data = false ->
  exists msg,
    handleChatMessage anthropic_messages_create ws data w = (Ok tt, w, [Send ws msg])
    /\ ((exists text, msg = Chat text (Some false) (Some false))
        \/ exists text, msg = ErrorMsg text).
Proof.
  intros Hmode. unfold handleChatMessage, try_catch, active_document.
  unfold bind at 1 2 3. unfold gets. cbn [app]. rewrite Hmode.
  destruct (anthropic_messages_create _ _) as [responseText | e].
  - exists (Chat responseText (Some false) (Some false)). split; [reflexivity | eauto].
  - eexists. split; [reflexivity | eauto].
Qed.


(** X16. When the model call fails, in either mode, the chat request is
    answered by the one error that carries the message of the failure;
    nothing is parsed and nothing changes. *)
Theorem chat_reports_model_failure
    (anthropic_messages_create : string -> string -> ApiOutcome)
    (ws : Client) (data : Data) (w : World) (e : JsError) :
  (forall system user, anthropic_messages_create system user = ApiFailure e) ->
  handleChatMessage anthropic_messages_create ws data w
  = (Ok tt, w,
     [Send ws (ErrorMsg ("Error processing chat message: " +:+ error_message e))]).
Proof.
  intros Hfail. unfold handleChatMessage, try_catch, active_document.
  unfold bind at 1 2 3. unfold gets. cbn [app]. rewrite Hfail. reflexivity.
Qed.

(** ** The router, further *)

(** X17. A message whose [type] is none of the eight that the router knows
    is answered by the one error that names the type, and a text that does
    not parse by the one error of the outer [catch]; neither changes
    anything. *)
Theorem router_rejects_unknown_and_malformed
    (JSON_reformat : string -> JsonOutcome)
    (anthropic_messages_create : string -> string -> ApiOutcome)
    (ws : Client) (data : Data) (w : World) :
  ~ In (data_type data) known_types ->
  onMessage JSON_reformat anthropic_messages_create ws (Some data) w
  = (Ok tt, w, [Send ws (ErrorMsg ("Unknown message type: " +:+ data_type data))])
  /\ onMessage JSON_reformat anthropic_messages_create ws None w
     = (Ok tt, w, [Send ws (ErrorMsg "Error processing message")]).
Proof.
  intros Hunknown. split; [| reflexivity].
  assert (Hne : forall known, In known known_types ->
                              String.eqb (data_type data) known = false).
  { intros known Hin. apply String.eqb_neq. intros E. apply Hunknown. now rewrite E. }
  unfold onMessage. cbv zeta.
  rewrite !Hne by (cbn; tauto). reflexivity.
Qed.

(** ** Broadcasts and the dev server, further *)

Section Broadcasts.

Lemma sent_to_broadcast ws m (cs : list (Client * bool)) :
  sent_to ws (map (fun c => Send (fst c) m) (List.filter snd cs))
  = map (fun _ => m) (List.filter (fun c => Nat.eqb (fst c) ws && snd c) cs).
Proof.
  induction cs as [|[c open] cs IH]; [reflexivity |].
  cbn [List.filter fst snd]. destruct open; cbn [map sent_to fst].
  - destruct (Nat.eqb c ws); cbn [andb map]; now rewrite IH.
  - rewrite andb_false_r. exact IH.
Qed.

End Broadcasts.

(** X18. A broadcast of a file change or of a change of the active editor
    changes nothing and reaches the open connections only: a connection
    gets the message once for each of its entries in [wss.clients] that is
    open, so a closed connection gets nothing. *)
Theorem broadcasts_reach_open_clients_only
    (filePath : string) (ws : Client) (w : World) :
  let mine := List.filter (fun c => Nat.eqb (fst c) ws && snd c) (clients w) in
  world (broadcastFileChange filePath w) = w
  /\ sent_to ws (events (broadcastFileChange filePath w))
     = map (fun _ => FileChanged filePath (Path.basename filePath)) mine
  /\ world (broadcastActiveEditorChange filePath w) = w
  /\ sent_to ws (events (broadcastActiveEditorChange filePath w))
     = map (fun _ => ActiveEditorChanged filePath (Path.basename filePath)) mine.
Proof.
  intros mine. unfold broadcastFileChange, broadcastActiveEditorChange.
  rewrite !broadcast_run. unfold world, events. cbn [fst snd].
  rewrite !sent_to_broadcast. repeat split.
Qed.

(** X19. Without a workspace folder [startDevServer] spawns nothing and
    tells no client: it shows the error in the editor and returns [null]. *)
Theorem startDevServer_without_workspace_folder
    (context : ExtensionContext) (w : World) :
  devServer w = None ->
  workspaceFolders w = [] ->
  startDevServer context w
  = (Ok Null, w,
     [ShowErrorMessage
        "Failed to start development server: Error: No workspace folder found"]).
Proof.
  intros Hdev Hw. unfold startDevServer. run_monad. rewrite Hdev, Hw. reflexivity.
Qed.

(** X20. When the first workspace folder has a [package.json],
    [startDevServer] writes nothing: it spawns the dev server command in the
    folder, tells every open connection the address, and leaves the disk
    (and [devServer]) as they were. *)
Theorem startDevServer_keeps_existing_package
    (context : ExtensionContext) (w : World)
    (folder : WorkspaceFolder) (others : list WorkspaceFolder) :
  devServer w = None ->
  workspaceFolders w = folder :: others ->
  is_Some (disk w !! Path.Uri_file (Path.join [folder_fsPath folder; "package.json"])) ->
  let run := startDevServer context w in
  world run = w
  /\ spawns (events run) = [dev_server_command (folder_fsPath folder)]
  /\ sends (events run)
     = map (fun c => (fst c, DevServerStarted "http://localhost:3001"))
         (List.filter snd (clients w)).
Proof.
  intros Hdev Hw Hpkg run. subst run.
  rewrite (startDevServer_spawns context w folder others Hdev Hw Hpkg).
  unfold world, events. cbn [fst snd spawns sends].
  rewrite spawns_broadcast. repeat split.
  induction (List.filter snd (clients w)) as [|c cs IH]; [reflexivity |].
  cbn [map sends]. now rewrite IH.
Qed.

(** ** The chat panel *)

Section DiffView.

Import Ui.

Lemma str_cons a l : Js.str (a :: l) = String a (Js.str l).
Proof. reflexivity. Qed.

(** Splitting at the line feeds and joining with line feeds gives the text
    back. *)
Lemma join_split_lines content :
  Js.join_with Js.nl (split_lines content) = content.
Proof.
  unfold split_lines, Path.split, Js.chars.
  induction content as [|a content IH]; [reflexivity |].
  cbn [list_ascii_of_string Path.split_on].
  pose proof (split_on_not_nil Js.nl_char (list_ascii_of_string content)) as Hne.
  destruct (Ascii.eqb_spec a Js.nl_char) as [-> | Ha].
  - cbn [map]. destruct (Path.split_on _ _) as [|seg rest] eqn:E; [contradiction |].
    cbn [map Js.join_with] in IH |- *.
    change (Js.str []) with EmptyString. rewrite append_nil.
    unfold Js.nl at 1. rewrite append_cons, append_nil. now rewrite IH.
  - destruct (Path.split_on _ _) as [|seg rest] eqn:E; [contradiction |].
    cbn [map Js.join_with] in IH |- *. rewrite str_cons.
    destruct (map Js.str rest) as [|r rest'].
    + now rewrite IH.
    + rewrite append_cons. now rewrite IH.
Qed.

Lemma map_line_at (lines : list string) :
  map (line_at lines) (seq 0 (length lines)) = lines.
Proof.
  unfold line_at. induction lines as [|l lines IH]; [reflexivity |].
  cbn [length seq map nth]. rewrite <- seq_shift, map_map. cbn [nth].
  now rewrite IH.
Qed.

Lemma firstn_map_seq {A} (f : nat -> A) n m :
  n <= m -> firstn n (map f (seq 0 m)) = map f (seq 0 n).
Proof.
  intros Hle. rewrite firstn_map, take_seq. now rewrite Nat.min_l.
Qed.

Lemma highlighted_current_out_of_range originalLines currentLines index :
  Nat.min (length originalLines) (length currentLines) <= index ->
  highlighted_current originalLines currentLines index = false.
Proof.
  intros H. unfold highlighted_current.
  destruct (Nat.ltb_spec index (length currentLines)) as [Hc | Hc];
    destruct (Nat.ltb_spec index (length originalLines)) as [Ho | Ho];
    try reflexivity.
  lia.
Qed.

(** The two columns test the same thing. *)
Lemma highlighted_same originalLines currentLines index :
  highlighted_original originalLines currentLines index
  = highlighted_current originalLines currentLines index.
Proof.
  unfold highlighted_original, highlighted_current.
  rewrite (String.eqb_sym (line_at originalLines index)).
  now rewrite (andb_comm (index <? length currentLines)%nat).
Qed.

End DiffView.

(** X23. The two columns of the diff view have the same number of rows, the
    larger of the two line counts, and a row carries the highlight in one
    column exactly when it carries it in the other. *)
Theorem diff_view_columns_are_aligned (d : Ui.FileDiff) :
  exists v,
  Ui.renderDiffView (Some d) = Some v /\
  length (Ui.original_column v)
  = Nat.max (length (Ui.split_lines (Ui.originalContent d)))
      (length (Ui.split_lines (Ui.currentContent d)))
  /\ length (Ui.current_column v) = length (Ui.original_column v)
  /\ map Ui.row_highlighted (Ui.original_column v)
     = map Ui.row_highlighted (Ui.current_column v).
Proof.
  eexists. split; [reflexivity |]. cbn [Ui.original_column Ui.current_column].
  rewrite !length_map, !length_seq, !map_map. repeat split.
  apply map_ext. intros index. cbn [Ui.row_highlighted]. apply highlighted_same.
Qed.

(** X24. The lines of the diff view give the two contents back: the texts
    of the first rows of a column, as many as the content has lines, joined
    by line feeds, are the content; the rows after them are empty. *)
Theorem diff_view_shows_the_contents (d : Ui.FileDiff) :
  exists v,
  Ui.renderDiffView (Some d) = Some v /\
  let originalLines := Ui.split_lines (Ui.originalContent d) in
  let currentLines := Ui.split_lines (Ui.currentContent d) in
  Js.join_with Js.nl
    (map Ui.row_text (firstn (length originalLines) (Ui.original_column v)))
  = Ui.originalContent d
  /\ Js.join_with Js.nl
       (map Ui.row_text (firstn (length currentLines) (Ui.current_column v)))
     = Ui.currentContent d
  /\ (forall row, In row (skipn (length originalLines) (Ui.original_column v)) ->
                  Ui.row_text row = EmptyString)
  /\ (forall row, In row (skipn (length currentLines) (Ui.current_column v)) ->
                  Ui.row_text row = EmptyString).
Proof.
  eexists. split; [reflexivity |]. intros originalLines currentLines.
  cbn [Ui.original_column Ui.current_column].
  fold originalLines currentLines.
  assert (Htexts : forall (lines : list string) (mark : nat -> bool) n,
            length lines <= n ->
            Js.join_with Js.nl
              (map Ui.row_text
                 (firstn (length lines)
                    (map (fun index => Ui.mkDiffRow (Ui.line_at lines index) (mark index))
                       (seq 0 n))))
            = Js.join_with Js.nl lines).
  { intros lines mark n Hle. rewrite firstn_map_seq by exact Hle.
    rewrite map_map. cbn [Ui.row_text]. now rewrite map_line_at. }
  assert (Hrest : forall (lines : list string) (mark : nat -> bool) n row,
            In row
              (skipn (length lines)
                 (map (fun index => Ui.mkDiffRow (Ui.line_at lines index) (mark index))
                    (seq 0 n))) ->
            Ui.row_text row = EmptyString).
  { intros lines mark n row Hin. rewrite skipn_map in Hin.
    apply in_map_iff in Hin as (index & <- & Hin).
    rewrite skipn_seq in Hin. apply in_seq in Hin. cbn [Ui.row_text].
    unfold Ui.line_at. apply nth_overflow. lia. }
  split; [| split; [| split]].
  - rewrite (Htexts originalLines) by lia.
    apply join_split_lines.
  - rewrite (Htexts currentLines) by lia.
    apply join_split_lines.
  - intros row. apply Hrest.
  - intros row. apply Hrest.
Qed.

(** X25. The comparison is by position only.  Rows at which the two
    contents have the same line are not highlighted, so equal contents give
    no highlight at all; and rows past the end of the shorter content are
    not highlighted either, so lines added or removed at the end are shown
    without a mark. *)
Theorem diff_view_highlights_by_position (d : Ui.FileDiff) :
  exists v,
  Ui.renderDiffView (Some d) = Some v /\
  let originalLines := Ui.split_lines (Ui.originalContent d) in
  let currentLines := Ui.split_lines (Ui.currentContent d) in
  (forall index row,
     nth_error (Ui.current_column v) index = Some row ->
     Ui.row_highlighted row = true ->
     index < Nat.min (length originalLines) (length currentLines)
     /\ Ui.line_at originalLines index <> Ui.line_at currentLines index)
  /\ (Ui.originalContent d = Ui.currentContent d ->
      forall row, In row (Ui.current_column v) -> Ui.row_highlighted row = false).
Proof.
  eexists. split; [reflexivity |]. intros originalLines currentLines.
  cbn [Ui.current_column]. fold originalLines currentLines.
  assert (Hrow : forall index row,
            nth_error
              (map (fun index =>
                      Ui.mkDiffRow (Ui.line_at currentLines index)
                        (Ui.highlighted_current originalLines currentLines index))
                 (seq 0 (Nat.max (length originalLines) (length currentLines))))
              index = Some row ->
            Ui.row_highlighted row
            = Ui.highlighted_current originalLines currentLines index).
  { intros index row Hn. rewrite nth_error_map in Hn.
    destruct (nth_error (seq 0 _) index) as [i|] eqn:E; [| discriminate Hn].
    injection Hn as <-. cbn [Ui.row_highlighted].
    pose proof (nth_error_Some (seq 0 (Nat.max (length originalLines) (length currentLines)))
                  index) as Hlt.
    rewrite E, length_seq in Hlt.
    assert (Hi : index < Nat.max (length originalLines) (length currentLines))
      by (apply Hlt; discriminate).
    rewrite (nth_error_nth' _ 0) in E by (now rewrite length_seq).
    rewrite seq_nth in E by exact Hi. now injection E as <-. }
  split.
  - intros index row Hn Hhl. rewrite (Hrow index row Hn) in Hhl. split.
    + destruct (Nat.lt_ge_cases index (Nat.min (length originalLines) (length currentLines)))
        as [Hlt | Hge]; [exact Hlt |].
      rewrite highlighted_current_out_of_range in Hhl by exact Hge. discriminate Hhl.
    + unfold Ui.highlighted_current in Hhl. apply andb_true_iff in Hhl as [_ Hne].
      apply negb_true_iff, String.eqb_neq in Hne. congruence.
  - intros Heq row Hin. apply In_nth_error in Hin as [index Hn].
    rewrite (Hrow index row Hn). unfold Ui.highlighted_current.
    subst originalLines currentLines. rewrite Heq, String.eqb_refl.
    now rewrite andb_false_r.
Qed.

(** X26. Toggling the bookmark of an id twice gives the chat history back,
    and one toggle changes nothing but the flag: the ids, the contents and
    the order of the messages stay, and a message of another id stays as it
    is. *)
Theorem toggleBookmark_is_an_involution
    (messageId : string) (chatHistory : list Ui.Message) :
  Ui.toggleBookmark messageId (Ui.toggleBookmark messageId chatHistory) = chatHistory
  /\ map Ui.msg_id (Ui.toggleBookmark messageId chatHistory) = map Ui.msg_id chatHistory
  /\ map Ui.msg_content (Ui.toggleBookmark messageId chatHistory)
     = map Ui.msg_content chatHistory
  /\ (forall msg, In msg chatHistory -> Ui.msg_id msg <> messageId ->
                  In msg (Ui.toggleBookmark messageId chatHistory)).
Proof.
  unfold Ui.toggleBookmark. split; [| split; [| split]].
  - rewrite map_map. rewrite <- (map_id chatHistory) at 2.
    apply map_ext. intros [id role content stamp flag mode]. cbn.
    destruct (String.eqb id messageId) eqn:E; cbn; rewrite E;
      [now rewrite negb_involutive | reflexivity].
  - rewrite map_map. apply map_ext. intros msg.
    now destruct (String.eqb (Ui.msg_id msg) messageId).
  - rewrite map_map. apply map_ext. intros msg.
    now destruct (String.eqb (Ui.msg_id msg) messageId).
  - intros msg Hin Hne. apply in_map_iff. exists msg. split; [| exact Hin].
    apply String.eqb_neq in Hne. now rewrite Hne.
Qed.

(** X27. The chat form sends nothing and keeps its state when the input is
    blank (empty after trimming) or the socket is missing or not open. *)
Theorem handleSubmit_needs_input_and_open_socket
    (now_id now_iso : string) (st : Ui.FormState) :
  Js.trim (Ui.chatInput st) = EmptyString \/ Ui.websocket st <> Some true ->
  Ui.handleSubmit now_id now_iso st = (st, None).
Proof.
  intros [Hblank | Hsocket]; unfold Ui.handleSubmit.
  - now rewrite Hblank.
  - destruct (Ui.websocket st) as [[|]|]; try contradiction;
      now rewrite orb_true_r.
Qed.

(** X28. From the form to the workspace: what the form sends while execute
    mode is off is a chat request that the router answers with one message
    and that changes nothing in the workspace. *)
Theorem chat_mode_submission_changes_nothing
    (JSON_reformat : string -> JsonOutcome)
    (anthropic_messages_create : string -> string -> ApiOutcome)
    (now_id now_iso : string) (st st' : Ui.FormState) (data : Data)
    (ws : Client) (w : World) :
  Ui.isExecuteMode st = false ->
  Ui.handleSubmit now_id now_iso st = (st', Some data) ->
  exists msg,
    onMessage JSON_reformat anthropic_messages_create ws (Some data) w
    = (Ok tt, w, [Send ws msg]).
Proof.
  intros Hmode Hsubmit. unfold Ui.handleSubmit in Hsubmit.
  destruct (negb _ || _); [discriminate Hsubmit |].
  injection Hsubmit as _ <-. rewrite Hmode.
  set (data := mkData _ _ _ _ _ _).
  destruct (handleChatMessage_chat_mode anthropic_messages_create ws data w eq_refl)
    as (msg & Hrun & _).
  exists msg. unfold onMessage. cbv zeta.
  change (String.eqb (data_type data) "chat") with true. cbv iota.
  now apply try_catch_returns.
Qed.

(** X29. First write wins in [modifyFile]: whatever the request, a snapshot
    that the map holds for a path is still there after it. *)
Theorem modifyFile_never_replaces_a_snapshot
    (ws : Client) (filePath content description : string) (w : World)
    (p first : string) :
  originalFileContents w !! p = Some first ->
  originalFileContents (world (modifyFile ws filePath content description w)) !! p
  = Some first.
Proof. apply modifyFile_keeps_snapshot. Qed.

(** X30. [getFileDiff] is read-only: whatever it answers, the world after
    the request is the world before it. *)
Theorem getFileDiff_is_read_only (ws : Client) (filePath : string) (w : World) :
  world (getFileDiff ws filePath w) = w.
Proof. apply getFileDiff_keeps_world. Qed.

(** ** The further properties at concrete inputs *)

Lemma createFile_then_getFileContent_witness :
  disk empty_project !! Path.Uri_file "/w/new.txt" = None
  /\ disk empty_project !! Path.Uri_file (Path.dirname "/w/new.txt") = Some Directory
  /\ document_at "/w/new.txt" empty_project = None
  /\ sent_to 0
       (events ((let! _ := createFile 0 "/w/new.txt" "hello" in
                 getFileContent 0 "/w/new.txt") empty_project))
     = [FileCreated "/w/new.txt";
        FileContent "/w/new.txt" (Path.basename "/w/new.txt") "hello"
          (Js.substring_from 1 (Path.extname "/w/new.txt"))].
Proof.
  assert (H1 : disk empty_project !! Path.Uri_file "/w/new.txt" = None)
    by (vm_compute; reflexivity).
  assert (H2 : disk empty_project !! Path.Uri_file (Path.dirname "/w/new.txt")
               = Some Directory)
    by (vm_compute; reflexivity).
  assert (H3 : document_at "/w/new.txt" empty_project = None) by reflexivity.
  split; [exact H1 |]. split; [exact H2 |]. split; [exact H3 |].
  exact (createFile_then_getFileContent 0 "/w/new.txt" "hello" empty_project H1 H2 H3).
Defined.

Lemma modifyFile_edits_open_document_witness :
  document_at "/w/a.txt" editing_world
  = Some (mkTextDocument "/w/a.txt" "unsaved" "plaintext" false false)
  /\ is_Some (disk editing_world !! Path.Uri_file "/w/a.txt")
  /\ disk (world (modifyFile 0 "/w/a.txt" "new" "edit" editing_world))
     = disk editing_world
  /\ originalFileContents (world (modifyFile 0 "/w/a.txt" "new" "edit" editing_world))
     !! "/w/a.txt"
     = Some (default "unsaved" (originalFileContents editing_world !! "/w/a.txt")).
Proof.
  assert (H1 : document_at "/w/a.txt" editing_world
               = Some (mkTextDocument "/w/a.txt" "unsaved" "plaintext" false false))
    by reflexivity.
  assert (H2 : is_Some (disk editing_world !! Path.Uri_file "/w/a.txt"))
    by (exists (File "saved"); vm_compute; reflexivity).
  split; [exact H1 |]. split; [exact H2 |].
  pose proof (modifyFile_edits_open_document 0 "/w/a.txt" "new" "edit" editing_world
                _ H1 eq_refl H2) as (_ & Hdisk & _ & Hsnap).
  split; [exact Hdisk | exact Hsnap].
Defined.

Lemma baseline_survives_modifications_witness :
  document_at "/w/a.txt" (project_with [("/w/a.txt", "v1")]) = None
  /\ disk (project_with [("/w/a.txt", "v1")]) !! Path.Uri_file "/w/a.txt"
     = Some (File "v1")
  /\ Js.truthy "v1" = true
  /\ sent_to 0
       (events
          ((let! _ := getFileContent 0 "/w/a.txt" in
            let! _ := modifyFile 0 "/w/a.txt" "v2" "one" in
            let! _ := modifyFile 0 "/w/a.txt" "v3" "two" in
            getFileDiff 0 "/w/a.txt") (project_with [("/w/a.txt", "v1")])))
     = [FileContent "/w/a.txt" (Path.basename "/w/a.txt") "v1"
          (Js.substring_from 1 (Path.extname "/w/a.txt"));
        FileModified "/w/a.txt";
        FileModified "/w/a.txt";
        Diff "/w/a.txt" (Path.basename "/w/a.txt") "v1" "v3"].
Proof.
  assert (H1 : document_at "/w/a.txt" (project_with [("/w/a.txt", "v1")]) = None)
    by reflexivity.
  assert (H2 : disk (project_with [("/w/a.txt", "v1")]) !! Path.Uri_file "/w/a.txt"
               = Some (File "v1")) by (vm_compute; reflexivity).
  assert (H3 : Js.truthy "v1" = true) by reflexivity.
  split; [exact H1 |]. split; [exact H2 |]. split; [exact H3 |].
  exact (baseline_survives_modifications 0 "/w/a.txt" "v1" "v2" "v3" "one" "two"
           (project_with [("/w/a.txt", "v1")]) H1 H2 H3).
Defined.

Lemma modifyFile_takes_the_baseline_witness :
  document_at "/w/a.txt" (project_with [("/w/a.txt", "v1")]) = None
  /\ disk (project_with [("/w/a.txt", "v1")]) !! Path.Uri_file "/w/a.txt"
     = Some (File "v1")
  /\ originalFileContents (project_with [("/w/a.txt", "v1")]) !! "/w/a.txt" = None
  /\ Js.truthy "v1" = true
  /\ sent_to 0
       (events
          ((let! _ := modifyFile 0 "/w/a.txt" "v2" "edit" in
            getFileDiff 0 "/w/a.txt") (project_with [("/w/a.txt", "v1")])))
     = [FileModified "/w/a.txt";
        Diff "/w/a.txt" (Path.basename "/w/a.txt") "v1" "v2"].
Proof.
  assert (H1 : document_at "/w/a.txt" (project_with [("/w/a.txt", "v1")]) = None)
    by reflexivity.
  assert (H2 : disk (project_with [("/w/a.txt", "v1")]) !! Path.Uri_file "/w/a.txt"
               = Some (File "v1")) by (vm_compute; reflexivity).
  assert (H3 : originalFileContents (project_with [("/w/a.txt", "v1")]) !! "/w/a.txt"
               = None) by (vm_compute; reflexivity).
  assert (H4 : Js.truthy "v1" = true) by reflexivity.
  split; [exact H1 |]. split; [exact H2 |]. split; [exact H3 |]. split; [exact H4 |].
  exact (modifyFile_takes_the_baseline 0 "/w/a.txt" "v1" "v2" "edit"
           (project_with [("/w/a.txt", "v1")]) H1 H2 H3 H4).
Defined.

Lemma renderPreview_html_is_verbatim_witness :
  let w := project_with [("/w/Page.HTML", "<h1>x</h1>")] in
  Js.toLowerCase (Path.extname "/w/Page.HTML") = ".html"
  /\ read_current "/w/Page.HTML" w = (Ok "<h1>x</h1>", w, [])
  /\ renderPreview constant_json 0 "/w/Page.HTML" w
     = (Ok tt, w,
        [Send 0 (Preview "/w/Page.HTML" (Path.basename "/w/Page.HTML") "<h1>x</h1>")]).
Proof.
  intros w.
  assert (H1 : Js.toLowerCase (Path.extname "/w/Page.HTML") = ".html")
    by (vm_compute; reflexivity).
  assert (H2 : read_current "/w/Page.HTML" w = (Ok "<h1>x</h1>", w, []))
    by (vm_compute; reflexivity).
  split; [exact H1 |]. split; [exact H2 |].
  exact (renderPreview_html_is_verbatim constant_json 0 "/w/Page.HTML" "<h1>x</h1>"
           w H1 H2).
Defined.

Lemma renderPreview_unsupported_extension_witness :
  (let w := project_with [("/w/notes.txt", "text")] in
   ~ In (Js.toLowerCase (Path.extname "/w/notes.txt"))
       [".tsx"; ".jsx"; ".ts"; ".js"; ".html"; ".css"; ".json"]
   /\ read_current "/w/notes.txt" w = (Ok "text", w, [])
   /\ renderPreview constant_json 0 "/w/notes.txt" w
      = (Ok tt, w,
         [Send 0
            (ErrorMsg
               ("Preview not supported for file type: "
                +:+ Js.toLowerCase (Path.extname "/w/notes.txt")))]))
  /\ (let w := project_with [(accented_path, "text")] in
      Js.toLowerCase (Path.extname accented_path) = accented_ext
      /\ read_current accented_path w = (Ok "text", w, [])
      /\ renderPreview constant_json 0 accented_path w
         = (Ok tt, w,
            [Send 0
               (ErrorMsg
                  ("Preview not supported for file type: "
                   +:+ Js.toLowerCase (Path.extname accented_path)))])).
Proof.
  split; intros w.
  - assert (H1 : ~ In (Js.toLowerCase (Path.extname "/w/notes.txt"))
                   [".tsx"; ".jsx"; ".ts"; ".js"; ".html"; ".css"; ".json"]).
    { vm_compute. intros H.
      repeat (destruct H as [H | H]; [discriminate H |]). exact H. }
    assert (H2 : read_current "/w/notes.txt" w = (Ok "text", w, []))
      by (vm_compute; reflexivity).
    split; [exact H1 |]. split; [exact H2 |].
    exact (renderPreview_unsupported_extension constant_json 0 "/w/notes.txt" "text"
             w H1 H2).
  - assert (H0 : Js.toLowerCase (Path.extname accented_path) = accented_ext)
      by (vm_compute; reflexivity).
    assert (H1 : ~ In (Js.toLowerCase (Path.extname accented_path))
                   [".tsx"; ".jsx"; ".ts"; ".js"; ".html"; ".css"; ".json"]).
    { vm_compute. intros H.
      repeat (destruct H as [H | H]; [discriminate H |]). exact H. }
    assert (H2 : read_current accented_path w = (Ok "text", w, []))
      by (vm_compute; reflexivity).
    split; [exact H0 |]. split; [exact H2 |].
    exact (renderPreview_unsupported_extension constant_json 0 accented_path "text"
             w H1 H2).
Defined.

Lemma renderPreview_json_reports_unbound_g_witness :
  let w := project_with [("/w/data.json", "{}")] in
  Js.toLowerCase (Path.extname "/w/data.json") = ".json"
  /\ read_current "/w/data.json" w = (Ok "{}", w, [])
  /\ renderPreview (fun _ => JsonText "{}") 0 "/w/data.json" w
     = (Ok tt, w,
        [Send 0 (ErrorMsg "Error rendering preview: ReferenceError: g is not defined")])
  /\ renderPreview constant_json 0 "/w/data.json" w
     = (Ok tt, w,
        [Send 0 (ErrorMsg "Error rendering preview: ReferenceError: g is not defined")]).
Proof.
  intros w.
  assert (H1 : Js.toLowerCase (Path.extname "/w/data.json") = ".json")
    by (vm_compute; reflexivity).
  assert (H2 : read_current "/w/data.json" w = (Ok "{}", w, []))
    by (vm_compute; reflexivity).
  split; [exact H1 |]. split; [exact H2 |]. split.
  - exact (renderPreview_json_reports_unbound_g (fun _ => JsonText "{}") 0
             "/w/data.json" "{}" w H1 H2).
  - exact (renderPreview_json_reports_unbound_g constant_json 0
             "/w/data.json" "{}" w H1 H2).
Defined.

Lemma renderPreview_unreadable_file_witness :
  document_at "/w/gone.css" project_world = None
  /\ disk project_world !! Path.Uri_file "/w/gone.css" = None
  /\ renderPreview constant_json 0 "/w/gone.css" project_world
     = (Ok tt, project_world,
        [Send 0
           (ErrorMsg
              ("Error rendering preview: Error: Failed to read file: "
               +:+ "/w/gone.css"))]).
Proof.
  assert (H1 : document_at "/w/gone.css" project_world = None) by reflexivity.
  assert (H2 : disk project_world !! Path.Uri_file "/w/gone.css" = None)
    by (vm_compute; reflexivity).
  split; [exact H1 |]. split; [exact H2 |].
  exact (renderPreview_unreadable_file constant_json 0 "/w/gone.css" project_world
           H1 H2).
Defined.

Lemma parser_without_workspace_folder_witness :
  let w := mkWorld ∅ [] None [] ∅ None [(0, true)] in
  workspaceFolders w = []
  /\ has_usable_match scenario_response = true
  /\ processAiResponseForFileOperations scenario_response 0 w
     = (Ok None, w, [Send 0 (ErrorMsg "No workspace folder is open")])
  /\ has_usable_match "no file block here" = false
  /\ processAiResponseForFileOperations "no file block here" 0 w
     = (Ok (Some false), w, []).
Proof.
  intros w.
  assert (H : workspaceFolders w = []) by reflexivity.
  assert (H1 : has_usable_match scenario_response = true) by (vm_compute; reflexivity).
  assert (H2 : has_usable_match "no file block here" = false)
    by (vm_compute; reflexivity).
  split; [exact H |]. split; [exact H1 |]. split; [| split; [exact H2 |]].
  - exact (eq_trans (parser_without_workspace_folder scenario_response 0 w H)
             (f_equal
                (fun b : bool =>
                   if b
                   then (Ok None, w, [Send 0 (ErrorMsg "No workspace folder is open")])
                   else (Ok (Some false), w, []))
                H1)).
  - exact (eq_trans (parser_without_workspace_folder "no file block here" 0 w H)
             (f_equal
                (fun b : bool =>
                   if b
                   then (Ok None, w, [Send 0 (ErrorMsg "No workspace folder is open")])
                   else (Ok (Some false), w, []))
                H2)).
Defined.

Lemma parser_ignores_plain_text_witness :
  forallb plain_char (Js.chars "Use a fence with // foo.js to name the file.") = true
  /\ processAiResponseForFileOperations
       "Use a fence with // foo.js to name the file." 0 project_world
     = (Ok (Some false), project_world, []).
Proof.
  assert (H : forallb plain_char
                (Js.chars "Use a fence with // foo.js to name the file.") = true)
    by (vm_compute; reflexivity).
  split; [exact H |].
  exact (parser_ignores_plain_text "Use a fence with // foo.js to name the file." 0
           project_world H).
Defined.

(** The target of the second call is a directory: [modifyFile] answers with
    an error, and the flag is [true] all the same. *)
Lemma parser_flag_counts_calls_witness :
  let w := set_disk {[ "/w/js / foo.js" := Directory ]} project_world in
  result (processAiResponseForFileOperations scenario_response 0 w) = Ok (Some true)
  /\ true = has_call (events (processAiResponseForFileOperations scenario_response 0 w))
  /\ length (sends (events (processAiResponseForFileOperations scenario_response 0 w)))
     = length (calls (events (processAiResponseForFileOperations scenario_response 0 w))).
Proof.
  intros w.
  assert (H : result (processAiResponseForFileOperations scenario_response 0 w)
              = Ok (Some true)) by (vm_compute; reflexivity).
  split; [exact H |].
  exact (parser_flag_counts_calls scenario_response 0 w true H).
Defined.


Lemma chat_reports_model_failure_witness :
  (forall system user, failing_api (Error_ "overloaded") system user
                       = ApiFailure (Error_ "overloaded"))
  /\ handleChatMessage (failing_api (Error_ "overloaded")) 0
       (mkData "chat" EmptyString EmptyString EmptyString "hello" true) project_world
     = (Ok tt, project_world,
        [Send 0
           (ErrorMsg
              ("Error processing chat message: " +:+ error_message (Error_ "overloaded")))]).
Proof.
  assert (H : forall system user, failing_api (Error_ "overloaded") system user
                                  = ApiFailure (Error_ "overloaded"))
    by reflexivity.
  split; [exact H |].
  exact (chat_reports_model_failure (failing_api (Error_ "overloaded")) 0
           (mkData "chat" EmptyString EmptyString EmptyString "hello" true)
           project_world (Error_ "overloaded") H).
Defined.

Lemma router_rejects_unknown_and_malformed_witness :
  ~ In (data_type (request "deleteFile" "/w/a.txt" EmptyString)) known_types
  /\ onMessage constant_json (constant_api "hello") 0
       (Some (request "deleteFile" "/w/a.txt" EmptyString)) project_world
     = (Ok tt, project_world,
        [Send 0
           (ErrorMsg
              ("Unknown message type: "
               +:+ data_type (request "deleteFile" "/w/a.txt" EmptyString)))])
  /\ onMessage constant_json (constant_api "hello") 0 None project_world
     = (Ok tt, project_world, [Send 0 (ErrorMsg "Error processing message")]).
Proof.
  assert (H : ~ In (data_type (request "deleteFile" "/w/a.txt" EmptyString)) known_types).
  { cbn. intros H. repeat (destruct H as [H | H]; [discriminate H |]). exact H. }
  split; [exact H |].
  exact (router_rejects_unknown_and_malformed constant_json (constant_api "hello") 0
           (request "deleteFile" "/w/a.txt" EmptyString) project_world H).
Defined.

Lemma startDevServer_without_workspace_folder_witness :
  let w := mkWorld ∅ [] None [] ∅ None [(0, true)] in
  devServer w = None
  /\ workspaceFolders w = []
  /\ startDevServer (mkExtensionContext "/ext") w
     = (Ok Null, w,
        [ShowErrorMessage
           "Failed to start development server: Error: No workspace folder found"]).
Proof.
  intros w. split; [reflexivity |]. split; [reflexivity |].
  exact (startDevServer_without_workspace_folder (mkExtensionContext "/ext") w
           eq_refl eq_refl).
Defined.

Lemma startDevServer_keeps_existing_package_witness :
  let w := project_with [("/w/package.json", "{}")] in
  devServer w = None
  /\ workspaceFolders w = mkWorkspaceFolder "w" "/w" :: []
  /\ is_Some (disk w !! Path.Uri_file (Path.join ["/w"; "package.json"]))
  /\ world (startDevServer (mkExtensionContext "/ext") w) = w
  /\ spawns (events (startDevServer (mkExtensionContext "/ext") w))
     = [dev_server_command "/w"]
  /\ sends (events (startDevServer (mkExtensionContext "/ext") w))
     = map (fun c => (fst c, DevServerStarted "http://localhost:3001"))
         (List.filter snd (clients w)).
Proof.
  intros w.
  assert (H3 : is_Some (disk w !! Path.Uri_file (Path.join ["/w"; "package.json"])))
    by (exists (File "{}"); vm_compute; reflexivity).
  split; [reflexivity |]. split; [reflexivity |]. split; [exact H3 |].
  exact (startDevServer_keeps_existing_package (mkExtensionContext "/ext") w
           (mkWorkspaceFolder "w" "/w") [] eq_refl eq_refl H3).
Defined.

Lemma handleSubmit_needs_input_and_open_socket_witness :
  let st := Ui.mkFormState "   " true (Some "/w/a.txt") (Some true) [] in
  (Js.trim (Ui.chatInput st) = EmptyString \/ Ui.websocket st <> Some true)
  /\ Ui.handleSubmit "1" "now" st = (st, None).
Proof.
  intros st.
  assert (H : Js.trim (Ui.chatInput st) = EmptyString \/ Ui.websocket st <> Some true)
    by (left; vm_compute; reflexivity).
  split; [exact H |].
  exact (handleSubmit_needs_input_and_open_socket "1" "now" st H).
Defined.

Lemma chat_mode_submission_changes_nothing_witness :
  let st := Ui.mkFormState "explain this" false (Some "/w/a.txt") (Some true) [] in
  let data := mkData "chat" EmptyString EmptyString EmptyString "explain this" false in
  Ui.isExecuteMode st = false
  /\ Ui.handleSubmit "1" "now" st
     = (Ui.mkFormState EmptyString false (Some "/w/a.txt") (Some true)
          [Ui.mkMessage "1" Ui.User "explain this" "now" false None],
        Some data)
  /\ exists msg,
       onMessage constant_json (constant_api scenario_response) 0 (Some data)
         project_world
       = (Ok tt, project_world, [Send 0 msg]).
Proof.
  intros st data.
  assert (H2 : Ui.handleSubmit "1" "now" st
               = (Ui.mkFormState EmptyString false (Some "/w/a.txt") (Some true)
                    [Ui.mkMessage "1" Ui.User "explain this" "now" false None],
                  Some data)) by (vm_compute; reflexivity).
  split; [reflexivity |]. split; [exact H2 |].
  exact (chat_mode_submission_changes_nothing constant_json
           (constant_api scenario_response) "1" "now" st _ data 0 project_world
           eq_refl H2).
Defined.

Lemma modifyFile_never_replaces_a_snapshot_witness :
  let w := set_originalFileContents {[ "/w/a.txt" := "first" ]}
             (project_with [("/w/a.txt", "second")]) in
  originalFileContents w !! "/w/a.txt" = Some "first"
  /\ originalFileContents (world (modifyFile 0 "/w/a.txt" "third" "edit" w)) !! "/w/a.txt"
     = Some "first".
Proof.
  intros w.
  assert (H : originalFileContents w !! "/w/a.txt" = Some "first")
    by (vm_compute; reflexivity).
  split; [exact H |].
  exact (modifyFile_never_replaces_a_snapshot 0 "/w/a.txt" "third" "edit" w
           "/w/a.txt" "first" H).
Defined.
